(* ===== verification/_CoqProject ===== *)
-Q . S2P
Prelude.v
JsString.v
Regex.v
Jwt.v
Password.v
UsersDb.v
JsValue.v
Auth.v
AuthProps.v
Server.v
AuthSpec.v
Race.v
Reviews.v
Stats.v
StatsRace.v
Bootstrap.v
ApiDoc.v
App.v
