(* ===== verification/Prelude.v ===== *)
(** * A verification development of the fundflow backend

    The repository is an Express/Bun server ([src/server.js]) that mounts
    three routers:
    - [src/src/routes/auth.js]: registration, password login, Google login,
      e-mail verification (request and redemption); it talks to the MySQL
      [users] table, to [jsonwebtoken], to [Bun.password] (bcrypt), to the
      Google token-info endpoint and to the Resend mail API;
    - [src/src/routes/projectStats.js]: per-user, per-project engagement
      documents (view / like / dislike / funded / collaborator) in MongoDB;
    - [src/src/routes/projectReviews.js] with the schema
      [src/src/models/reviewsProjects.js]: project reviews in MongoDB.
    The protected routes sit behind the middleware [verifyUserLogged]
    (its file is not part of [src/]; it is modelled from the spec, section
    4.9), which verifies the bearer token and attaches [req.userId].

    Layout of the library (one file per component, in dependency order):
    - [Prelude]: this header, the [ff_scope] notations, the [ff] hint
      database, the development's tactics, JavaScript truthiness of request
      fields and the generic lemmas on strings, booleans and lists.
    - [JsString]: the JavaScript string primitives the handlers call
      ([includes], [indexOf], [lastIndexOf], [split('@')[0]],
      [replace(/\s+/g, '_')], [toLowerCase]) on ASCII strings.
    - [Regex]: a regular-expression AST, its inductive matching semantics and
      an executable Brzozowski-derivative matcher proved equivalent to it;
      the literal [/^[^\s@]+@[^\s@]+\.[^\s@]+$/] of [auth.js] and its
      characterisation.
    - [Jwt]: [jsonwebtoken]'s [sign] and [verify] (library code, modelled
      from the spec and the library's documented behaviour), and the
      [verifyUserLogged] middleware.
    - [Password]: [Bun.password.hash]/[verify] as a typeclass interface with
      its laws, and a concrete instance.
    - [UsersDb]: the MySQL [users] relation: rows, AUTO_INCREMENT id,
      the SELECT/INSERT/UPDATE statements the handlers issue (with the
      client-side placeholder formatting of mysql2 and the server's column
      count check), and the table collation as a typeclass.
    - [Auth]: the five handlers of [auth.js] as state-passing functions from
      a request and a world (table + outbox of e-mails) to a response and a
      world, with their functional lemmas.
    - [JsValue]: JSON values of request bodies ([jsval]), JavaScript's
      [!x] and [Number(x)] (string conversion as the interface
      [JsToNumber]), and mongoose's casts to [Number], [String] and
      [Boolean] paths with the [required] validator; the MongoDB driver
      calls the routers await ([mongo_op]) and which of them reject
      during a request ([faults], [fails]).
    - [AuthProps]: the end-to-end properties of the auth handlers
      (register then login, duplicate rejection, the verification
      handshake and its expiry, the uniform login failure, the Google
      login that never inserts, the avatar index bound) and the
      divergences between the code and the spec, each with a witness on
      concrete data ([cfg0], [ev0]..[ev2], [w0], [w1]).
    - [Server]: [handle] dispatches every auth route; [step] runs one
      request to completion with any clock, salt and Google answer;
      [reachable] is the closure from the empty table. By rule induction:
      ids are distinct and below AUTO_INCREMENT and each mailed code is
      addressed to the owner of its id ([core_inv], kept by every step),
      and logins are unique ([reachable_inv]); a step only appends rows
      and never un-verifies one ([step_grows]). Every answer of [handle]
      has a status its body kind allows ([resp_typed], [handle_typed]).
      When the MySQL pool is down, no request changes the world or
      succeeds, and [POST /verifyEmail], whose query is outside any
      [try], rejects without an answer; when only its writes fail,
      every request answers as against a working database, logins
      included, except that a registration that would get 201 and a
      redemption that would get 200 answer 500 and change nothing
      ([db_error_no_effect], stated against [db_ok], the same request
      with the database answering). The 500 of a [catch] block carries
      the caught value ([Auth.thrown]), so these answers hand the raw
      database error to the client.
    - [AuthSpec]: an abstract account service (accounts with clear
      passwords and flags; registration, verification, login by key) and
      the refinement relation [refines] (rows and accounts correspond in
      order, digests hash the passwords, AUTO_INCREMENT is the next id):
      every reachable world refines a reachable abstract state, each
      request matched by zero or one abstract step ([reachable_refines]),
      and the password login answers as the abstract login does
      ([login_refines]).
    - [Race]: the registration split at its awaits into the phase up to
      the uniqueness SELECT ([register_start]) and the hash-and-insert
      phase, proved to compose to the handler; [cstep] interleaves any
      requests with registrations in flight between their phases.
      [core_inv] holds under every interleaving, uniqueness of logins
      does not: the check-then-insert race creates two rows with the same
      keys, after which no login succeeds.
    - [Reviews]: [projectReviews.js] and the [reviewsProjects.js] schema:
      the collection (documents in insertion order, a counter for the
      ObjectId), document building by cast and [required], the three
      listings, the creation and the author-only deletion, each with its
      catch block for a failed cast or a rejected driver call, the router
      as a step relation with its invariant (every stored document
      satisfies the schema), and atomicity under database failure: only
      a 200 or 201 answer changes the collection, and with the server
      down nothing changes ([reviews_failure_no_effect]).
    - [Stats]: [projectStats.js]: the engagement documents (their schema
      file is not in the repository, so the paths are those the router
      uses and the schema's defaults are a parameter), [findOne] as the
      first match in insertion order, [save()] of a new or a found
      document, the seven routes, the [$group] pipeline and the
      [toFixed(2)] percentages on exact rationals, and the router as a
      step relation: the invariant (distinct ids, never liked and
      disliked at once), the ownership frame (a request touches only its
      user's documents), idempotent views and duplicated likes, the
      funding sum, and the percentages (functional specification, range,
      [NaN] when nothing is viewed). Under database failure only a 200 or
      201 answer changes the store, and [PUT /:id/stats/views], whose
      catch block throws a [ReferenceError], answers nothing
      ([stats_failure_no_effect]).
    - [StatsRace]: the three statistics routes that read a document and
      then save it ([POST /:id/stats], [PUT /:id/stats/views],
      [PUT /:id/stats]) split at their awaits, with [save()] of a found
      document as mongoose sends it: [updateOne] with a [$set] of the
      paths whose value changed ([save_modified]). Whole requests and
      the two phases interleave in any order ([rstep]); the phases
      compose to the handlers of [Stats] when nothing comes between
      them. Under every interleaving the ids stay distinct and every
      document keeps its owner ([rreachable_ids]), but two concurrent
      contributions lose one ([put_stats_lost_update]) and a concurrent
      like and dislike leave a document both liked and disliked in a
      reachable state ([evaluation_race]).
    - [Bootstrap]: [src/server.js]: the middleware stack in registration
      order and Express's dispatch of a request through it ([dispatch]:
      a layer answers, passes on or raises; after a raise only error
      handlers run, then Express's final handler), the configuration
      read with [??] from [process.env], and the start-up as an inductive
      trace ([boot_trace]): the module body runs first, and the require
      of the routers at line 56 throws when [auth.js] line 11 builds its
      Resend client without [RESEND_API_KEY] ([load_routes]), ending the
      process before any callback; otherwise the MongoDB block prints its
      line and the [app.listen] callback, the [db.connect] callback and
      the rejection of the not-awaited [mongoose.connect] promise, which
      Node treats as fatal ([mongo_rejection]), run in any order (any
      permutation of the three). The stack is characterised in full
      ([stack_spec]); the application's error handler answers the errors
      of the body parsers (a malformed JSON body gets 500, without CORS
      headers) and never those of the routes; the process exits, with
      code 1, exactly when the routers fail to load, MySQL fails or the
      MongoDB promise rejects, and the MongoDB success line is printed
      first whenever the routers load and [connect] does not throw
      synchronously ([boot_outcome]).
    - [ApiDoc]: the [@swagger] annotations of [auth.js] as data (the tag,
      the request schemas [NewUser] and [AuthUser], the register and
      login operations with their parameters and documented responses)
      and the conformance of an answer to its operation: only the 500s of
      the registration and only the 401s of the login conform to what
      the annotations publish, and the registration changes the table
      only for bodies that satisfy [NewUser].
    - [App]: the whole server. The stack of [server.js] with the three
      routers behind [app.use('/', routes)], over one state (users table
      and outbox, reviews collection, statistics store) and one token
      secret. [dispatch_st] is Express's dispatch with layers that act
      on the state when they run and may leave a request unanswered (a
      rejected [async] route under Express 4; Express 5 passes it to
      [next(err)], and both are modelled). A request changes the state
      only through the router it reaches, after the layers before the
      routes passed it on ([app_handle_route]). A malformed body
      reaches no router ([app_malformed_body]). A rejected route is never
      answered by the application's handler ([rejected_route_answer]).
      Every token the auth router issues authorizes the other routers as
      the account it names ([issued_token_authorizes]). With the MongoDB
      server down, a request for the reviews or statistics router leaves
      the whole state as it was ([app_mongo_down]).

    Interfaces: [Jwt.Hs256] (the HMAC), [Password.PasswordHasher] (bcrypt,
    with the laws the handlers rely on), [UsersDb.Collation] (the table's
    string comparison, an equivalence) and [JsValue.JsToNumber]. The
    theorems are proved for every instance; the witnesses run on the
    concrete instances [toy_hs256], [toy_hasher], [binary_collation] and
    [decimal_to_number]. The three SELECTs are morphisms for the collation's
    equivalence ([UsersDb.coll_equiv], with [Proper] instances), so a
    login name can be rewritten by any name the table does not tell
    apart from it.

    Bounds and fuel: every function of the development is structurally
    recursive (strings, lists, regular expressions, layer stacks), so no
    fuel is needed; the derivative matcher terminates by recursion on the
    input string.
    Integers are [Z]: ids, timestamps (milliseconds, seconds after
    [/1000] with floor division as [Math.floor]) never approach the 2^53
    limit of JavaScript numbers in the scenarios the theorems cover, and
    the one bound the code relies on, the avatar index [Math.floor(r*6)]
    in [0..5] for [0 <= r < 1], is proved. The view percentages are computed
    on exact rationals and rounded half up, as [toFixed(2)] specifies for
    the exact value; the binary doubles of JavaScript can round a tie
    the other way, which the bounds proved here do not depend on.

    Not modelled: the aggregation controller [getProjectStats] (it is
    imported from [controllers/], which the repository does not hold, so
    its result is an input of [GET /:id/stats]); [routes.js], which mounts
    the routers and is not in the repository either (an [App] request
    names the router it reaches); the serialisation of bodies by
    [res.send]/[res.json] (an input of [App]); Express, body-parser,
    cors and serve-static themselves (each layer's behaviour on a request
    is an input of [Bootstrap.dispatch], whose rules follow Express's
    documented semantics); the sockets behind [app.listen], and the
    timing of the start-up callbacks (every order is allowed); the
    module [mySqlConnection], whose [connect] outcome and first query
    are inputs of the start-up; the HTTP layer of Google's token-info endpoint and of Resend (their
    answers are inputs), and the database schemas, which the repository
    does not hold: the [users] table has no uniqueness constraint here
    (the spec describes none), and the statistics defaults are a
    parameter. Interleavings are modelled for the handlers whose read
    and write are separate awaited statements on shared data: the
    registration ([Race]) and the three read-then-save statistics routes
    ([StatsRace]). The review routes are not split: a review is never
    updated, so the ownership check before [deleteOne] cannot be
    invalidated by another request; the only effect of an interleaving
    is that two concurrent deletions of one review both answer 200.

    Modelling conventions: request fields are [option string] (absent/null
    = [None]); JavaScript strings are ASCII [string]s, so [length] counts
    UTF-16 code units exactly on them; ids and timestamps are [Z];
    [Date.now()] is an input of each request (milliseconds); random choices
    (bcrypt salt, avatar index) are inputs too, and so is a failure of the
    MySQL pool ([Auth.db_error], an [Auth.db_failure]): either every
    query of that request rejects, or the SELECTs succeed and the INSERT
    or UPDATE rejects (a read-only pool), which covers a failure between
    the read and the write of one request. For MongoDB the input is finer ([JsValue.faults], carried
    by the request in [App]): the set of driver calls ([find],
    [findOne], [save()], [deleteOne], [aggregate]) that reject during the
    request, so a [findOne] that succeeds followed by a [deleteOne] that
    fails is covered; a rejected write is taken as not applied (the
    acknowledged write concern). The answer of Google's token-info endpoint is an input with
    the three outcomes the handler distinguishes. *)

From stdpp Require Export base list strings.
From Stdlib Require Export ZArith Lia Ascii String Bool.

Declare Scope ff_scope.
Delimit Scope ff_scope with ff.
Open Scope string_scope.

Create HintDb ff.
Create Rewrite HintDb ff_str.
#[export] Hint Constants Transparent : ff.

(** ** JavaScript truthiness of a request-body field

    A field read from [req.body] is either absent ([undefined]/[null], the
    [None] case) or a JSON string. [!x] is true exactly for absent fields
    and for the empty string. *)
Definition js_truthy (v : option string) : bool :=
  match v with
  | Some s => negb (String.eqb s "")
  | None => false
  end.

(** [!x ? x : undefined]: the value echoed back for a falsy field. *)
Definition js_falsy_echo (v : option string) : option string :=
  if js_truthy v then None else v.

Notation "'js!' x" := (negb (js_truthy x)) (at level 35) : ff_scope.

(** ** Results of fallible operations

    A library call that can throw (a JWT verification, a SQL statement)
    returns [Ok v] or [Err e]; [x <- m ;; k] propagates the error, as an
    [await] inside a [try] block does. *)
Inductive result (A E : Type) : Type :=
| Ok (a : A)
| Err (e : E).
Arguments Ok {A E} a.
Arguments Err {A E} e.

Definition result_bind {A B E : Type} (m : result A E) (k : A -> result B E) : result B E :=
  match m with
  | Ok a => k a
  | Err e => Err e
  end.

Notation "x <- m ;; k" := (result_bind m (fun x => k))
  (at level 100, m at next level, right associativity) : ff_scope.
Open Scope ff_scope.

Lemma result_bind_Ok {A B E : Type} (a : A) (k : A -> result B E) :
  result_bind (Ok a) k = k a.
Proof. reflexivity. Qed.

Lemma result_bind_Err {A B E : Type} (e : E) (k : A -> result B E) :
  result_bind (Err e) k = Err e.
Proof. reflexivity. Qed.

#[export] Hint Rewrite @result_bind_Ok @result_bind_Err : ff_str.

(** ** Generic lemmas on strings *)

Lemma append_String (a : ascii) (s1 s2 : string) :
  String a s1 ++ s2 = String a (s1 ++ s2).
Proof. reflexivity. Qed.

Lemma append_empty_l (s : string) : "" ++ s = s.
Proof. reflexivity. Qed.

Lemma append_empty_r (s : string) : s ++ "" = s.
Proof. induction s as [|a s IH]; [done|]. rewrite append_String, IH. done. Qed.

Lemma append_assoc_str (s1 s2 s3 : string) :
  (s1 ++ s2) ++ s3 = s1 ++ (s2 ++ s3).
Proof. induction s1 as [|a s1 IH]; [done|]. rewrite !append_String, IH. done. Qed.

Lemma length_append_str (s1 s2 : string) :
  String.length (s1 ++ s2) = (String.length s1 + String.length s2)%nat.
Proof. induction s1 as [|a s1 IH]; [done|]. rewrite append_String. simpl. by rewrite IH. Qed.

Lemma get_append_r (s1 s2 : string) (n : nat) :
  String.get (String.length s1 + n) (s1 ++ s2) = String.get n s2.
Proof. induction s1 as [|a s1 IH]; [done|]. rewrite append_String. simpl. done. Qed.

Lemma get_append_length (s1 s2 : string) (c : ascii) :
  String.get (String.length s1) (s1 ++ String c s2) = Some c.
Proof. rewrite <- (Nat.add_0_r (String.length s1)), get_append_r. done. Qed.

#[export] Hint Rewrite append_String append_empty_l append_empty_r
  append_assoc_str length_append_str : ff_str.

Lemma js_truthy_true (v : option string) :
  js_truthy v = true <-> exists s, v = Some s /\ s <> "".
Proof.
  destruct v as [s|]; simpl; split.
  - intros H. exists s. split; [done|]. intros ->. done.
  - intros (s' & [= <-] & Hs). destruct (String.eqb_spec s ""); done.
  - done.
  - intros (? & ? & _). done.
Qed.

Lemma js_truthy_Some (s : string) : s <> "" -> js_truthy (Some s) = true.
Proof. intros Hs. apply js_truthy_true. eauto. Qed.

#[export] Hint Resolve js_truthy_Some : ff.

(** ** Generic lemmas on integers *)

(** A time in milliseconds whose second ([Math.floor(ms / 1000)]) lies
    before [e] is before [e * 1000]. *)
Lemma div_1000_lt (ms e : Z) : (ms / 1000 < e -> ms < e * 1000)%Z.
Proof.
  intros H. pose proof (Z.div_mod ms 1000 ltac:(lia)).
  pose proof (Z.mod_pos_bound ms 1000 ltac:(lia)). lia.
Qed.

Lemma div_1000_le (ms e : Z) : (e * 1000 <= ms -> e <= ms / 1000)%Z.
Proof. intros H. apply Z.div_le_lower_bound; lia. Qed.

(** ** Generic lemmas on lists *)

Lemma filter_nil_false {A : Type} (f : A -> bool) (l : list A) :
  List.filter f l = [] -> forall a, In a l -> f a = false.
Proof.
  intros H a Ha. destruct (f a) eqn:Hf; [|done].
  assert (In a (List.filter f l)) as Hin by (apply filter_In; done). rewrite H in Hin. done.
Qed.

Lemma filter_app_single {A : Type} (f : A -> bool) (l : list A) (a : A) :
  List.filter f l = [] -> List.filter f (l ++ [a]) = if f a then [a] else [].
Proof. intros H. rewrite List.filter_app, H. simpl. destruct (f a); done. Qed.
Lemma filter_nil_weaken {A : Type} (f g : A -> bool) (l : list A) :
  List.filter f l = [] -> (forall a, g a = true -> f a = true) -> List.filter g l = [].
Proof.
  intros Hf Hgf. induction l as [|a l IH]; [done|]. simpl in *.
  destruct (f a) eqn:Ha; [done|]. destruct (g a) eqn:Hg; [rewrite Hgf in Ha; done|]. auto.
Qed.
Lemma NoDup_map_filter {A B : Type} (g : A -> B) (f : A -> bool) (l : list A) :
  NoDup (map g l) -> NoDup (map g (List.filter f l)).
Proof.
  induction l as [|a l IH]; simpl; [done|]. intros [Hn Hl]%NoDup_cons.
  destruct (f a); simpl; [|auto]. apply NoDup_cons. split; [|auto].
  intros Hin. apply Hn. apply list_elem_of_In in Hin. apply list_elem_of_In.
  apply in_map_iff in Hin as (x & <- & Hx%filter_In). apply in_map. apply Hx.
Qed.

(** [find] through a map that does not change what the predicate sees. *)
Lemma find_map_preserving {A : Type} (f : A -> bool) (g : A -> A) (l : list A) :
  (forall x, In x l -> f (g x) = f x) -> List.find f (map g l) = option_map g (List.find f l).
Proof.
  induction l as [|x l IH]; intros Hg; [done|]. simpl. rewrite Hg by (left; done).
  destruct (f x); [done|]. apply IH. intros y Hy. apply Hg. right. done.
Qed.

(** ** Tactics *)

(** Turn boolean facts of the hypotheses into propositions. *)
Ltac unbool :=
  repeat match goal with
  | H : (_ && _)%bool = true |- _ => apply andb_true_iff in H as [? ?]
  | H : (_ || _)%bool = false |- _ => apply orb_false_iff in H as [? ?]
  | H : negb _ = true |- _ => apply negb_true_iff in H
  | H : negb _ = false |- _ => apply negb_false_iff in H
  | H : String.eqb _ _ = true |- _ => apply String.eqb_eq in H
  | H : String.eqb _ _ = false |- _ => apply String.eqb_neq in H
  | H : Z.ltb _ _ = true |- _ => apply Z.ltb_lt in H
  | H : Z.ltb _ _ = false |- _ => apply Z.ltb_ge in H
  | H : Z.eqb _ _ = true |- _ => apply Z.eqb_eq in H
  | H : Z.eqb _ _ = false |- _ => apply Z.eqb_neq in H
  | H : Nat.eqb _ _ = true |- _ => apply Nat.eqb_eq in H
  | H : Nat.eqb _ _ = false |- _ => apply Nat.eqb_neq in H
  | H : Nat.ltb _ _ = true |- _ => apply Nat.ltb_lt in H
  | H : Nat.ltb _ _ = false |- _ => apply Nat.ltb_ge in H
  end.

(** Two elements of a list with distinct keys and the same key are the
    same element. *)
Lemma NoDup_map_inj_in {A B : Type} (g : A -> B) (l : list A) (x y : A) :
  NoDup (map g l) -> In x l -> In y l -> g x = g y -> x = y.
Proof.
  induction l as [|a l IH]; simpl; [done|]. intros [Hn Hl]%NoDup_cons Hx Hy Hg.
  destruct Hx as [<-|Hx], Hy as [<-|Hy]; [done| | |auto].
  - destruct Hn. rewrite Hg. apply list_elem_of_In, in_map. done.
  - destruct Hn. rewrite <- Hg. apply list_elem_of_In, in_map. done.
Qed.

(** Replacing the elements of a list by a function that keeps their key
    keeps the list of keys. *)
Lemma map_key_preserving {A B : Type} (g : A -> B) (f : A -> A) (l : list A) :
  (forall a, g (f a) = g a) -> map g (map f l) = map g l.
Proof. intros Hf. rewrite map_map. apply map_ext. done. Qed.

(** Filtering two related lists by tests that agree on related elements
    keeps them related. *)
Lemma Forall2_filter {A B : Type} (R : A -> B -> Prop) (f : A -> bool) (g : B -> bool)
    (l1 : list A) (l2 : list B) :
  Forall2 R l1 l2 -> (forall a b, R a b -> f a = g b) ->
  Forall2 R (List.filter f l1) (List.filter g l2).
Proof.
  intros H Hfg. induction H as [|a b l1 l2 Hab _ IH]; simpl; [constructor|].
  rewrite (Hfg a b Hab). destruct (g b); [constructor|]; done.
Qed.

(** Case on the first [if]/[match] of the goal, remembering the test. *)
Ltac split_if :=
  match goal with
  | |- context [if ?b then _ else _] => destruct b eqn:?
  end.
