(* ===== verification/JsString.v ===== *)
(** * JavaScript string primitives used by the handlers of [auth.js]

    [includes], [indexOf], [lastIndexOf] with a one-character argument, the
    login handler's e-mail test (auth.js line 163), [split('@')[0]]
    (line 201), and the slug [replace(/\s+/g, '_').toLowerCase()]
    (lines 112 and 202), on ASCII strings. [\s] is the ASCII part of
    JavaScript's white-space class. *)

From S2P Require Import Prelude.

Module JsString.

(** ** Definitions *)

(** JavaScript [\s] on ASCII characters: TAB, LF, VT, FF, CR and space. *)
Definition js_is_space (c : ascii) : bool :=
  match c with
  | "009" | "010" | "011" | "012" | "013" | " " => true
  | _ => false
  end%char.

(** [s.includes(c)] for a one-character string [c]. *)
Fixpoint includes (s : string) (c : ascii) : bool :=
  match s with
  | EmptyString => false
  | String a s' => Ascii.eqb a c || includes s' c
  end.

(** [s.indexOf(c)]: the first position of [c], or [-1]. *)
Fixpoint indexOf (s : string) (c : ascii) : Z :=
  match s with
  | EmptyString => -1
  | String a s' =>
      if Ascii.eqb a c then 0
      else let r := indexOf s' c in if r <? 0 then -1 else r + 1
  end%Z.

(** [s.lastIndexOf(c)]: the last position of [c], or [-1]. *)
Fixpoint lastIndexOf (s : string) (c : ascii) : Z :=
  match s with
  | EmptyString => -1
  | String a s' =>
      let r := lastIndexOf s' c in
      if 0 <=? r then r + 1 else if Ascii.eqb a c then 0 else -1
  end%Z.

(** auth.js line 163, the login handler's choice of lookup column:
    [username.includes('@') && username.includes('.') &&
     username.indexOf('@') < username.lastIndexOf('.')]. *)
Definition isValidEmail (username : string) : bool :=
  includes username "@" && includes username "." &&
  (indexOf username "@" <? lastIndexOf username ".")%Z.

(** [s.split('@')[0]]: the part before the first ['@'] (all of [s] when
    there is none). *)
Fixpoint split_at_first (c : ascii) (s : string) : string :=
  match s with
  | EmptyString => EmptyString
  | String a s' => if Ascii.eqb a c then EmptyString else String a (split_at_first c s')
  end.

(** [s.replace(/\s+/g, '_')]: every maximal run of white space becomes one
    underscore. [in_run] says whether the previous character was white
    space (and so already produced its underscore). *)
Fixpoint replace_ws_runs (in_run : bool) (s : string) : string :=
  match s with
  | EmptyString => EmptyString
  | String a s' =>
      if js_is_space a
      then if in_run then replace_ws_runs true s'
           else String "_" (replace_ws_runs true s')
      else String a (replace_ws_runs false s')
  end.

Definition replace_ws (s : string) : string := replace_ws_runs false s.

Definition is_upper (c : ascii) : bool :=
  Nat.leb (Ascii.nat_of_ascii "A"%char) (Ascii.nat_of_ascii c) &&
  Nat.leb (Ascii.nat_of_ascii c) (Ascii.nat_of_ascii "Z"%char).

(** [toLowerCase] on one ASCII character. *)
Definition lower_char (c : ascii) : ascii :=
  if is_upper c then Ascii.ascii_of_nat (Ascii.nat_of_ascii c + 32) else c.

Fixpoint toLowerCase (s : string) : string :=
  match s with
  | EmptyString => EmptyString
  | String a s' => String (lower_char a) (toLowerCase s')
  end.

(** auth.js lines 112 and 202:
    [username.replace(/\s+/g, '_').toLowerCase()]. *)
Definition user_url (username : string) : string :=
  toLowerCase (replace_ws username).

(** A predicate on every character of a string. *)
Fixpoint all_chars (p : ascii -> bool) (s : string) : bool :=
  match s with
  | EmptyString => true
  | String a s' => p a && all_chars p s'
  end.

(** ** Lemmas on the primitives *)

Lemma includes_get (s : string) (c : ascii) :
  includes s c = true <-> exists i, String.get i s = Some c.
Proof.
  induction s as [|a s IH]; simpl; split.
  - done.
  - intros [? ?]. done.
  - intros [Ha%Ascii.eqb_eq|Hs]%orb_true_iff.
    + subst. exists 0%nat. done.
    + apply IH in Hs as [i Hi]. exists (S i). done.
  - intros [[|i] Hi]; simpl in Hi.
    + inversion Hi; subst. rewrite Ascii.eqb_refl. done.
    + apply orb_true_iff. right. apply IH. eauto.
Qed.

Lemma indexOf_range (s : string) (c : ascii) : (-1 <= indexOf s c)%Z.
Proof.
  induction s as [|a s IH]; simpl; [lia|].
  destruct (Ascii.eqb a c); [lia|]. destruct (Z.ltb_spec (indexOf s c) 0); lia.
Qed.

Lemma indexOf_found (s : string) (c : ascii) :
  (0 <= indexOf s c)%Z -> String.get (Z.to_nat (indexOf s c)) s = Some c.
Proof.
  induction s as [|a s IH]; simpl; [lia|].
  destruct (Ascii.eqb_spec a c) as [->|Hne]; [done|].
  destruct (Z.ltb_spec (indexOf s c) 0); [lia|]. intros _.
  replace (Z.to_nat (indexOf s c + 1)) with (S (Z.to_nat (indexOf s c))) by lia.
  simpl. by apply IH.
Qed.

Lemma indexOf_first (s : string) (c : ascii) (i : nat) :
  String.get i s = Some c -> (0 <= indexOf s c <= Z.of_nat i)%Z.
Proof.
  revert i. induction s as [|a s IH]; intros [|i] Hi; simpl in *; try done.
  - inversion Hi; subst. rewrite Ascii.eqb_refl. lia.
  - destruct (Ascii.eqb a c); [lia|]. specialize (IH i Hi).
    destruct (Z.ltb_spec (indexOf s c) 0); lia.
Qed.

Lemma lastIndexOf_range (s : string) (c : ascii) : (-1 <= lastIndexOf s c)%Z.
Proof.
  induction s as [|a s IH]; simpl; [lia|].
  destruct (Z.leb_spec 0 (lastIndexOf s c)); [lia|]. destruct (Ascii.eqb a c); lia.
Qed.

Lemma lastIndexOf_found (s : string) (c : ascii) :
  (0 <= lastIndexOf s c)%Z -> String.get (Z.to_nat (lastIndexOf s c)) s = Some c.
Proof.
  induction s as [|a s IH]; simpl; [lia|].
  destruct (Z.leb_spec 0 (lastIndexOf s c)) as [Hr|Hr].
  - intros _. replace (Z.to_nat (lastIndexOf s c + 1)) with (S (Z.to_nat (lastIndexOf s c))) by lia.
    simpl. by apply IH.
  - destruct (Ascii.eqb_spec a c) as [->|]; [done|lia].
Qed.

Lemma lastIndexOf_last (s : string) (c : ascii) (j : nat) :
  String.get j s = Some c -> (Z.of_nat j <= lastIndexOf s c)%Z.
Proof.
  revert j. induction s as [|a s IH]; intros [|j] Hj; simpl in *; try done.
  - inversion Hj; subst. rewrite Ascii.eqb_refl.
    destruct (Z.leb_spec 0 (lastIndexOf s c)); lia.
  - specialize (IH j Hj). destruct (Z.leb_spec 0 (lastIndexOf s c)); lia.
Qed.

(** The login handler's e-mail test (auth.js line 163) holds
    exactly when the string has an ['@'] at some position and a ['.'] at
    a later position: [indexOf] finds the first ['@'], [lastIndexOf] the
    last ['.']. *)
Lemma isValidEmail_spec (s : string) :
  isValidEmail s = true <->
  exists i j, (i < j)%nat /\ String.get i s = Some "@"%char /\ String.get j s = Some "."%char.
Proof.
  unfold isValidEmail. split.
  - intros [[Hat Hdot]%andb_true_iff Hlt%Z.ltb_lt]%andb_true_iff.
    pose proof (indexOf_range s "@") as R1. pose proof (lastIndexOf_range s ".") as R2.
    destruct (Z.le_gt_cases 0 (indexOf s "@")) as [Hi|Hi].
    2:{ apply includes_get in Hat as [i Hgi]. apply indexOf_first in Hgi. lia. }
    exists (Z.to_nat (indexOf s "@")), (Z.to_nat (lastIndexOf s ".")).
    split; [lia|]. split; [by apply indexOf_found|]. apply lastIndexOf_found. lia.
  - intros (i & j & Hij & Hi & Hj).
    rewrite !andb_true_iff. split; [split|].
    + apply includes_get. eauto.
    + apply includes_get. eauto.
    + apply Z.ltb_lt. apply indexOf_first in Hi. apply lastIndexOf_last in Hj. lia.
Qed.

(** *** The slug *)

Definition no_space (s : string) : bool := all_chars (fun c => negb (js_is_space c)) s.

Lemma lower_char_space (c : ascii) : js_is_space (lower_char c) = js_is_space c.
Proof. destruct c as [[] [] [] [] [] [] [] []]; vm_compute; reflexivity. Qed.

Lemma lower_char_idem (c : ascii) : lower_char (lower_char c) = lower_char c.
Proof. destruct c as [[] [] [] [] [] [] [] []]; vm_compute; reflexivity. Qed.

Lemma lower_char_not_upper (c : ascii) : is_upper (lower_char c) = false.
Proof. destruct c as [[] [] [] [] [] [] [] []]; vm_compute; reflexivity. Qed.

Lemma replace_ws_runs_no_space (b : bool) (s : string) : no_space (replace_ws_runs b s) = true.
Proof.
  unfold no_space. revert b. induction s as [|a s IH]; intros b; [done|]. simpl.
  destruct (js_is_space a) eqn:Ha; [destruct b|]; simpl; rewrite ?Ha, ?IH; done.
Qed.

Lemma replace_ws_runs_id (b : bool) (s : string) : no_space s = true -> replace_ws_runs b s = s.
Proof.
  unfold no_space. revert b. induction s as [|a s IH]; intros b; [done|]. simpl.
  intros H. unbool. rewrite H. f_equal. by apply IH.
Qed.

Lemma toLowerCase_no_space (s : string) : no_space (toLowerCase s) = no_space s.
Proof. unfold no_space. induction s as [|a s IH]; [done|]. simpl. by rewrite lower_char_space, IH. Qed.

Lemma toLowerCase_idem (s : string) : toLowerCase (toLowerCase s) = toLowerCase s.
Proof. induction s as [|a s IH]; [done|]. simpl. by rewrite lower_char_idem, IH. Qed.

Lemma toLowerCase_no_upper (s : string) :
  all_chars (fun c => negb (is_upper c)) (toLowerCase s) = true.
Proof. induction s as [|a s IH]; [done|]. simpl. by rewrite lower_char_not_upper, IH. Qed.

#[export] Hint Resolve replace_ws_runs_no_space toLowerCase_no_upper : ff.
#[export] Hint Rewrite toLowerCase_no_space toLowerCase_idem : ff_str.

(** ** Properties of the slug *)

(** The public handle derived from a user name contains no white
    space and no upper-case letter: [replace(/\s+/g,'_')] removes every
    white-space run and [toLowerCase] every capital. *)
Theorem user_url_clean (username : string) :
  no_space (user_url username) = true /\
  all_chars (fun c => negb (is_upper c)) (user_url username) = true.
Proof.
  unfold user_url, replace_ws. rewrite toLowerCase_no_space. auto with ff.
Qed.

(** Deriving the handle twice changes nothing: a handle is a fixed
    point of [user_url]. *)
Theorem user_url_idempotent (username : string) :
  user_url (user_url username) = user_url username.
Proof.
  unfold user_url at 1 2, replace_ws.
  rewrite (replace_ws_runs_id false (toLowerCase _)).
  - by rewrite toLowerCase_idem.
  - rewrite toLowerCase_no_space. auto with ff.
Qed.

End JsString.
