(* ===== verification/Regex.v ===== *)
(** * The regular expression of the registration handler

    auth.js line 88 tests [/^[^\s@]+@[^\s@]+\.[^\s@]+$/.test(email)].
    This file gives regular expressions an AST ([re]), a declarative
    matching relation ([matches]) and an executable matcher by
    Brzozowski derivatives ([accepts]); [accepts_spec] proves the matcher
    equivalent to the relation. The pattern is anchored by [^] and [$] and
    has no flag, so [test] is a full match: [accepts]. *)

From S2P Require Import Prelude JsString.

Module Regex.

Inductive re : Type :=
| Empty
| Eps
| Chr (c : ascii)
| Cls (p : ascii -> bool)
| Cat (r1 r2 : re)
| Alt (r1 r2 : re)
| Star (r : re).

(** [r+] *)
Definition Plus (r : re) : re := Cat r (Star r).

(** The declarative semantics: [matches r s] when [s] is in the language
    of [r]. *)
Inductive matches : re -> string -> Prop :=
| MEps : matches Eps ""
| MChr c : matches (Chr c) (String c "")
| MCls (p : ascii -> bool) c : p c = true -> matches (Cls p) (String c "")
| MCat r1 r2 s1 s2 : matches r1 s1 -> matches r2 s2 -> matches (Cat r1 r2) (s1 ++ s2)
| MAltL r1 r2 s : matches r1 s -> matches (Alt r1 r2) s
| MAltR r1 r2 s : matches r2 s -> matches (Alt r1 r2) s
| MStarNil r : matches (Star r) ""
| MStarApp r s1 s2 : matches r s1 -> matches (Star r) s2 -> matches (Star r) (s1 ++ s2).

#[export] Hint Constructors matches : ff.

Fixpoint nullable (r : re) : bool :=
  match r with
  | Empty | Chr _ | Cls _ => false
  | Eps | Star _ => true
  | Cat r1 r2 => nullable r1 && nullable r2
  | Alt r1 r2 => nullable r1 || nullable r2
  end.

Fixpoint deriv (a : ascii) (r : re) : re :=
  match r with
  | Empty | Eps => Empty
  | Chr c => if Ascii.eqb a c then Eps else Empty
  | Cls p => if p a then Eps else Empty
  | Cat r1 r2 =>
      if nullable r1 then Alt (Cat (deriv a r1) r2) (deriv a r2)
      else Cat (deriv a r1) r2
  | Alt r1 r2 => Alt (deriv a r1) (deriv a r2)
  | Star r1 => Cat (deriv a r1) (Star r1)
  end.

(** The executable full match. *)
Fixpoint accepts (r : re) (s : string) : bool :=
  match s with
  | EmptyString => nullable r
  | String a s' => accepts (deriv a r) s'
  end.

(** [[^\s@]]: neither white space nor ['@']. *)
Definition not_space_at (c : ascii) : bool :=
  negb (JsString.js_is_space c) && negb (Ascii.eqb c "@").

(** [^[^\s@]+@[^\s@]+\.[^\s@]+$] *)
Definition email_re : re :=
  Cat (Plus (Cls not_space_at))
    (Cat (Chr "@")
      (Cat (Plus (Cls not_space_at))
        (Cat (Chr ".") (Plus (Cls not_space_at))))).

(** auth.js line 88: [/^[^\s@]+@[^\s@]+\.[^\s@]+$/.test(email)]. *)
Definition email_test (email : string) : bool := accepts email_re email.

(** ** The matcher is correct *)

Lemma append_eq_empty (s1 s2 : string) : s1 ++ s2 = "" -> s1 = "" /\ s2 = "".
Proof. destruct s1; [done|]. rewrite append_String. done. Qed.

Lemma nullable_spec (r : re) : nullable r = true <-> matches r "".
Proof.
  split.
  - induction r; simpl; intros H; unbool; try done.
    + constructor.
    + rewrite <- (append_empty_l ""). constructor; auto.
    + apply orb_true_iff in H as [H|H]; auto with ff.
    + constructor.
  - remember "" as e eqn:He. induction 1; simpl; try done.
    + apply append_eq_empty in He as [-> ->].
      rewrite IHmatches1, IHmatches2; done.
    + rewrite IHmatches; done.
    + rewrite IHmatches, orb_true_r; done.
Qed.

Lemma matches_cat_inv (r1 r2 : re) (s : string) :
  matches (Cat r1 r2) s -> exists s1 s2, s = s1 ++ s2 /\ matches r1 s1 /\ matches r2 s2.
Proof. inversion 1; subst. eauto. Qed.

Lemma matches_alt_inv (r1 r2 : re) (s : string) :
  matches (Alt r1 r2) s -> matches r1 s \/ matches r2 s.
Proof. inversion 1; subst; auto. Qed.

(** A non-empty word of [r*] starts with a non-empty word of [r]. *)
Lemma star_cons_inv (r : re) (w : string) :
  matches (Star r) w -> forall a s, w = String a s ->
  exists s1 s2, s = s1 ++ s2 /\ matches r (String a s1) /\ matches (Star r) s2.
Proof.
  remember (Star r) as R eqn:HR. induction 1 as [| | | | | |r0|r0 w1 w2 H1 _ H2 IH2];
    intros a0 s0 Hw; try discriminate.
  injection HR as ->.
  destruct w1 as [|b w1].
  - apply IH2; done.
  - rewrite append_String in Hw. injection Hw as <- <-. eauto.
Qed.

Lemma deriv_spec (a : ascii) (r : re) (s : string) :
  matches (deriv a r) s <-> matches r (String a s).
Proof.
  revert s. induction r as [| |c|p|r1 IH1 r2 IH2|r1 IH1 r2 IH2|r IH]; intros s; simpl.
  - split; inversion 1.
  - split; inversion 1.
  - destruct (Ascii.eqb_spec a c) as [->|Hne]; split; inversion 1; subst; auto with ff; congruence.
  - destruct (p a) eqn:Hp; split; inversion 1; subst; auto with ff; congruence.
  - split.
    + intros H. destruct (nullable r1) eqn:Hn.
      * apply matches_alt_inv in H as [H|H].
        -- apply matches_cat_inv in H as (s1 & s2 & -> & H1 & H2).
           rewrite <- append_String. constructor; [apply IH1|]; done.
        -- rewrite <- (append_empty_l (String a s)).
           constructor; [apply nullable_spec|apply IH2]; done.
      * apply matches_cat_inv in H as (s1 & s2 & -> & H1 & H2).
        rewrite <- append_String. constructor; [apply IH1|]; done.
    + intros (s1 & s2 & Hs & H1 & H2)%matches_cat_inv.
      destruct s1 as [|b s1].
      * rewrite append_empty_l in Hs. subst s2.
        apply nullable_spec in H1. rewrite H1. apply MAltR, IH2. done.
      * rewrite append_String in Hs. injection Hs as -> ->.
        assert (matches (Cat (deriv b r1) r2) (s1 ++ s2)) by (constructor; [apply IH1|]; done).
        destruct (nullable r1); auto with ff.
  - split.
    + intros [H|H]%matches_alt_inv; [apply MAltL, IH1|apply MAltR, IH2]; done.
    + intros [H|H]%matches_alt_inv; [apply MAltL, IH1|apply MAltR, IH2]; done.
  - split.
    + intros (s1 & s2 & -> & H1 & H2)%matches_cat_inv.
      rewrite <- append_String. constructor; [apply IH|]; done.
    + intros H. destruct (star_cons_inv r _ H a s eq_refl) as (s1 & s2 & -> & H1 & H2).
      constructor; [apply IH|]; done.
Qed.

(** The derivative matcher decides the declarative semantics: the
    executable [test] of a regular expression accepts exactly the words of
    its language. *)
Theorem accepts_spec (r : re) (s : string) : accepts r s = true <-> matches r s.
Proof.
  revert r. induction s as [|a s IH]; intros r; simpl.
  - apply nullable_spec.
  - rewrite IH. apply deriv_spec.
Qed.

(** ** The e-mail pattern *)

Lemma star_cls_spec (p : ascii -> bool) (w : string) :
  matches (Star (Cls p)) w <-> JsString.all_chars p w = true.
Proof.
  split.
  - remember (Star (Cls p)) as R eqn:HR.
    induction 1 as [| | | | | |r0|r0 w1 w2 H1 _ H2 IH2]; try discriminate; [done|].
    injection HR as ->. inversion H1 as [| |p0 c Hc| | | | |]; subst.
    rewrite append_String, append_empty_l. simpl. rewrite Hc, IH2; done.
  - induction w as [|c w IH]; simpl; [constructor|].
    intros H. unbool. change (String c w) with (String c "" ++ w).
    constructor; auto with ff.
Qed.

Lemma plus_cls_spec (p : ascii -> bool) (w : string) :
  matches (Plus (Cls p)) w <-> w <> "" /\ JsString.all_chars p w = true.
Proof.
  unfold Plus. split.
  - intros (w1 & w2 & -> & H1 & H2%star_cls_spec)%matches_cat_inv.
    inversion H1 as [| |p0 c Hc| | | | |]; subst.
    rewrite append_String, append_empty_l. simpl. rewrite Hc, H2. done.
  - intros [Hne Hall]. destruct w as [|c w]; [done|]. simpl in Hall. unbool.
    change (String c w) with (String c "" ++ w).
    constructor; [auto with ff|]. by apply star_cls_spec.
Qed.

(** The words of the e-mail pattern: a non-empty local part, ['@'], a
    non-empty domain, ['.'], a non-empty last label, none of the three
    holding white space or ['@']. *)
Definition email_shape (s : string) : Prop :=
  exists l d t,
    s = l ++ String "@" (d ++ String "." t) /\
    l <> "" /\ d <> "" /\ t <> "" /\
    JsString.all_chars not_space_at l = true /\
    JsString.all_chars not_space_at d = true /\
    JsString.all_chars not_space_at t = true.

Lemma matches_chr_inv (c : ascii) (s : string) : matches (Chr c) s -> s = String c "".
Proof. inversion 1; done. Qed.

(** The characterisation of the e-mail test, by the matcher's
    correctness and the shape of [email_re]'s language. *)
Lemma email_test_shape (s : string) : email_test s = true <-> email_shape s.
Proof.
  unfold email_test, email_shape, email_re. rewrite accepts_spec. split.
  - intros (l & r1 & -> & Hl%plus_cls_spec & Hr1)%matches_cat_inv.
    apply matches_cat_inv in Hr1 as (a1 & r2 & -> & ->%matches_chr_inv & Hr2).
    apply matches_cat_inv in Hr2 as (d & r3 & -> & Hd%plus_cls_spec & Hr3).
    apply matches_cat_inv in Hr3 as (a2 & t & -> & ->%matches_chr_inv & Ht%plus_cls_spec).
    exists l, d, t. destruct Hl, Hd, Ht. repeat split; done.
  - intros (l & d & t & -> & Hl & Hd & Ht & Al & Ad & At).
    constructor; [by apply plus_cls_spec|].
    change (String "@" (d ++ String "." t)) with (String "@" "" ++ (d ++ String "." t)).
    constructor; [constructor|]. constructor; [by apply plus_cls_spec|].
    change (String "." t) with (String "." "" ++ t).
    constructor; [constructor|]. by apply plus_cls_spec.
Qed.

(** (C35) The registration check of auth.js line 88 accepts exactly the
    strings of the form [local@domain.tld] whose three parts are non-empty
    and free of white space and ['@'] (the domain may itself contain dots:
    the pattern backtracks to any dot of the part after ['@']). *)
Theorem email_test_spec (s : string) : email_test s = true <-> email_shape s.
Proof. apply email_test_shape. Qed.

(** Every e-mail address the registration handler accepts is also
    recognised as an e-mail by the login handler (auth.js line 163), so a
    user can always log in with the address they registered with. *)
Theorem email_test_isValidEmail (s : string) :
  email_test s = true -> JsString.isValidEmail s = true.
Proof.
  intros (l & d & t & -> & Hl & Hd & _)%email_test_shape.
  apply JsString.isValidEmail_spec.
  exists (String.length l), (String.length l + S (String.length d))%nat.
  split; [destruct d; [done|simpl; lia]|]. split.
  - apply get_append_length.
  - rewrite get_append_r. simpl. apply get_append_length.
Qed.

(** ** Examples *)

Lemma email_test_isValidEmail_witness :
  email_test "a@b.com" = true /\ JsString.isValidEmail "a@b.com" = true.
Proof.
  split; [reflexivity|]. apply email_test_isValidEmail. reflexivity.
Defined.

Example email_test_examples :
  email_test "first.last@mail.example.org" = true /\ email_test "a@b" = false /\
  email_test "a b@c.d" = false /\ email_test "a@b.c@d.e" = false /\ email_test "@b.c" = false.
Proof. vm_compute. repeat split. Qed.

End Regex.
