(* ===== verification/Jwt.v ===== *)
(** * The token service: [jsonwebtoken] and the [verifyUserLogged] middleware

    auth.js signs tokens with [jwt.sign({ id }, ACCESS_TOKEN_SECRET)]
    (lines 119, 172, 199, 208), with [{ expiresIn: '1h' }] for e-mail
    verification codes (line 223), and checks them with [jwt.verify]
    (line 246). The library is not part of the repository: [sign] and
    [verify] model its documented HS256 behaviour ([iat] is
    [Math.floor(Date.now() / 1000)], [exp = iat + expiresIn], a token is
    rejected as expired when [Math.floor(Date.now() / 1000) >= exp]). The
    keyed hash itself is a typeclass [Hs256]: the theorems hold for any
    instance. [verifyUserLogged] (the middleware of the protected routes,
    not part of [src/]) is modelled from the spec, section 4.9. *)

From S2P Require Import Prelude.

Module Jwt.

(** The payload of the tokens of this program: the user id and the
    registered claims [iat] and (optionally) [exp], in seconds. *)
Record claims := mkClaims {
  cl_id : Z;
  cl_iat : Z;
  cl_exp : option Z
}.

(** A token as a client presents it: a well-formed HS256 token carries its
    claims and its signature; any other string is malformed. *)
Inductive token :=
| Tok (c : claims) (sig : Z)
| Malformed (raw : string).

(** The keyed hash of HS256 ([HMAC-SHA256] of the encoded header and
    payload under the secret). *)
Class Hs256 := { hmac : string -> claims -> Z }.

Inductive jwt_error :=
| JsonWebTokenError (msg : string)
| TokenExpiredError (expiredAt : Z).

(** ['1h'] in seconds. *)
Definition one_hour : Z := 3600.

Section WithHs256.
Context `{!Hs256}.

(** [jwt.sign({ id }, secret, { expiresIn })] at time [now_ms]. *)
Definition sign (secret : string) (id : Z) (now_ms : Z) (expiresIn : option Z) : token :=
  let iat := (now_ms / 1000)%Z in
  let c := mkClaims id iat (option_map (fun e => iat + e)%Z expiresIn) in
  Tok c (hmac secret c).

(** [jwt.verify(token, secret)] at time [now_ms]: the decoded payload or
    the error it throws. *)
Definition verify (secret : string) (now_ms : Z) (t : token) : result claims jwt_error :=
  match t with
  | Malformed _ => Err (JsonWebTokenError "jwt malformed")
  | Tok c sig =>
      if negb (Z.eqb sig (hmac secret c)) then Err (JsonWebTokenError "invalid signature")
      else match cl_exp c with
           | Some e => if (e <=? now_ms / 1000)%Z then Err (TokenExpiredError e) else Ok c
           | None => Ok c
           end
  end.

(** [verifyUserLogged]: the bearer token of the request, verified; the
    decoded id becomes [req.userId], anything else is rejected with 401
    before the handler runs ([None]). *)
Definition verifyUserLogged (secret : string) (now_ms : Z) (bearer : option token) : option Z :=
  match bearer with
  | None => None
  | Some t =>
      match verify secret now_ms t with
      | Ok c => Some (cl_id c)
      | Err _ => None
      end
  end.

(** ** Lemmas *)

Lemma verify_Ok (secret : string) (now_ms : Z) (t : token) (c : claims) :
  verify secret now_ms t = Ok c <->
  t = Tok c (hmac secret c) /\
  (forall e, cl_exp c = Some e -> (now_ms / 1000 < e)%Z).
Proof.
  destruct t as [c' sig|raw]; simpl; [|split; [done|intros [? _]; done]].
  destruct (Z.eqb_spec sig (hmac secret c')) as [->|Hne]; simpl.
  - destruct (cl_exp c') as [e|] eqn:He.
    + destruct (Z.leb_spec e (now_ms / 1000)); split.
      * done.
      * intros [[= ->] Hlt]. specialize (Hlt e He). lia.
      * intros [= <-]. split; [done|]. intros e' He'. rewrite He in He'. injection He' as <-. lia.
      * intros [[= ->] _]. done.
    + split; [intros [= <-]; split; [done|congruence]|intros [[= ->] _]; done].
  - split; [done|]. intros [[= -> ->] _]. done.
Qed.

(** A verified token was produced with the secret: its signature is the
    keyed hash of its own claims. *)
Lemma verify_signed (secret : string) (now_ms : Z) (t : token) (c : claims) :
  verify secret now_ms t = Ok c -> t = Tok c (hmac secret c).
Proof. intros [? _]%verify_Ok. done. Qed.

(** ** Properties of the token service *)

(** Sign/verify round trip: a token signed with [expiresIn = e] at time
    [t0] verifies, with the signed id, at any time [t1] whose second lies
    before [floor(t0/1000) + e]; a token signed without [expiresIn] verifies
    at every time. *)
Theorem verify_sign (secret : string) (id t0 t1 : Z) (ttl : option Z) :
  (forall e, ttl = Some e -> (t1 / 1000 < t0 / 1000 + e)%Z) ->
  exists c, verify secret t1 (sign secret id t0 ttl) = Ok c /\ cl_id c = id.
Proof.
  intros Httl. exists (mkClaims id (t0 / 1000) (option_map (fun e => t0 / 1000 + e)%Z ttl)).
  split; [|reflexivity]. apply verify_Ok. split; [done|].
  intros e He. destruct ttl as [e'|]; simpl in He; [|done].
  injection He as <-. specialize (Httl e' eq_refl). lia.
Qed.

(** An e-mail verification code expires: from the second
    [floor(t0/1000) + 3600] on, [jwt.verify] rejects the code signed at
    [t0] with [TokenExpiredError]. *)
Theorem verify_sign_expired (secret : string) (id t0 t1 : Z) :
  (t0 / 1000 + one_hour <= t1 / 1000)%Z ->
  verify secret t1 (sign secret id t0 (Some one_hour)) =
    Err (TokenExpiredError (t0 / 1000 + one_hour)).
Proof.
  intros Hle. unfold verify, sign. simpl. rewrite Z.eqb_refl. simpl.
  destruct (Z.leb_spec (t0 / 1000 + one_hour) (t1 / 1000)); [done|lia].
Qed.

(** The middleware attaches an id exactly when the request carries a
    token signed with the server's secret whose expiry, if any, has not
    passed; the attached id is the token's own. *)
Theorem verifyUserLogged_spec (secret : string) (now_ms : Z) (bearer : option token) (uid : Z) :
  verifyUserLogged secret now_ms bearer = Some uid <->
  exists c, bearer = Some (Tok c (hmac secret c)) /\ cl_id c = uid /\
            (forall e, cl_exp c = Some e -> (now_ms / 1000 < e)%Z).
Proof.
  unfold verifyUserLogged. split.
  - destruct bearer as [t|]; [|done].
    destruct (verify secret now_ms t) as [c|] eqn:Hv; [|done]. intros [= <-].
    apply verify_Ok in Hv as [-> Hexp]. eauto.
  - intros (c & -> & <- & Hexp). rewrite (proj2 (verify_Ok _ _ _ c)); auto.
Qed.

End WithHs256.

(** A concrete keyed hash, used to run the model on examples. *)
#[export] Instance toy_hs256 : Hs256 :=
  {| hmac secret c :=
       (Z.of_nat (String.length secret) * 1000003 + cl_id c * 7919 + cl_iat c)%Z |}.

(** ** Examples *)

Lemma verify_sign_witness :
  (forall e, Some one_hour = Some e -> (1700001000000 / 1000 < 1700000000000 / 1000 + e)%Z) /\
  exists c, verify "s3cret" 1700001000000 (sign "s3cret" 7 1700000000000 (Some one_hour)) = Ok c /\
            cl_id c = 7%Z.
Proof.
  assert (Hh : forall e, Some one_hour = Some e -> (1700001000000 / 1000 < 1700000000000 / 1000 + e)%Z).
  { intros e [= <-]. vm_compute. reflexivity. }
  split; [exact Hh|]. apply (verify_sign "s3cret" 7 1700000000000 1700001000000 (Some one_hour) Hh).
Defined.

Lemma verify_sign_expired_witness :
  (1700000000000 / 1000 + one_hour <= 1700003600000 / 1000)%Z /\
  verify "s3cret" 1700003600000 (sign "s3cret" 7 1700000000000 (Some one_hour)) =
    Err (TokenExpiredError (1700000000000 / 1000 + one_hour)).
Proof.
  assert (Hle : (1700000000000 / 1000 + one_hour <= 1700003600000 / 1000)%Z) by (vm_compute; discriminate).
  split; [exact Hle|]. apply (verify_sign_expired "s3cret" 7 1700000000000 1700003600000 Hle).
Defined.

End Jwt.
