(* ===== verification/Password.v ===== *)
(** * The password hashing service: [Bun.password]

    auth.js hashes with [Bun.password.hash(password, { algorithm: 'bcrypt' })]
    (line 111) and checks with [Bun.password.verify(password, hashed)]
    (line 170). The runtime's bcrypt is not part of the repository; it is
    an interface with the laws the handlers rely on, stated for an ideal
    salted hash: verification accepts the hashed password, and accepts a
    digest only for the password it was computed from (a fresh salt is an
    input of [pw_hash]). A concrete instance shows the laws consistent.
    [pw_verify] is total, where [Bun.password.verify] throws on a digest
    it cannot parse: every [hashPassword] the handlers write is a
    [pw_hash] digest (the Google INSERT, which would store the Google
    id there, is always refused, see [AuthProps]), so the throw is not
    reached from the empty table. *)

From S2P Require Import Prelude.

Module Password.

Class PasswordHasher := {
  pw_hash : Z -> string -> string;
  pw_verify : string -> string -> bool;
  pw_verify_hash : forall salt p, pw_verify p (pw_hash salt p) = true;
  pw_verify_sound : forall p h, pw_verify p h = true -> exists salt, h = pw_hash salt p;
  pw_hash_inj : forall s1 s2 p1 p2, pw_hash s1 p1 = pw_hash s2 p2 -> p1 = p2
}.

Section Laws.
Context `{!PasswordHasher}.

(** A digest of [p] rejects every other password. *)
Lemma pw_verify_other (salt : Z) (p q : string) :
  q <> p -> pw_verify q (pw_hash salt p) = false.
Proof.
  intros Hne. destruct (pw_verify q (pw_hash salt p)) eqn:Hv; [|done].
  apply pw_verify_sound in Hv as [salt' Heq]. apply pw_hash_inj in Heq. congruence.
Qed.

End Laws.

#[export] Hint Resolve pw_verify_hash pw_verify_other : ff.

(** A concrete hasher: the digest records a one-byte salt and the
    password; verification tries the 256 salts. *)
Definition toy_hash (salt : Z) (p : string) : string :=
  "$2b$" ++ String (Ascii.ascii_of_nat (Z.to_nat (salt mod 256))) ("$" ++ p).

Definition toy_verify (p h : string) : bool :=
  existsb (fun n => String.eqb h (toy_hash (Z.of_nat n) p)) (seq 0 256).

#[export] Program Instance toy_hasher : PasswordHasher :=
  {| pw_hash := toy_hash; pw_verify := toy_verify |}.
Next Obligation.
  intros salt p. unfold toy_verify. apply existsb_exists.
  exists (Z.to_nat (salt mod 256)). split.
  - apply in_seq. pose proof (Z.mod_pos_bound salt 256). lia.
  - pose proof (Z.mod_pos_bound salt 256). unfold toy_hash.
    rewrite Z2Nat.id, Z.mod_mod by lia. apply String.eqb_refl.
Qed.
Next Obligation.
  intros p h [n [_ Hn%String.eqb_eq]]%existsb_exists. eauto.
Qed.
Next Obligation.
  intros s1 s2 p1 p2. unfold toy_hash. intros H.
  apply (inj (String.app "$2b$")) in H. injection H as _ H.
  exact H.
Qed.

End Password.
