(* ===== verification/UsersDb.v ===== *)
(** * The credential store: the MySQL [users] table

    The statements [auth.js] sends through [db.getPromise().query]:
    - line 101: [SELECT username, email FROM users WHERE email = ? OR username = ?];
    - lines 165/166 and 197: [SELECT ... FROM users WHERE email = ?] or
      [... WHERE username = ?];
    - line 221: [SELECT email FROM users WHERE id = ?];
    - lines 113-116 and 203-206: [INSERT INTO users (username, email,
      hashPassword, registerDate, url, profilePictureSrc) VALUES (...)];
    - line 250: [UPDATE users SET verifiedEmail = true WHERE id = ?].
    The table is a list of rows in primary-key order with its
    AUTO_INCREMENT counter. String comparison in [WHERE] uses the table's
    collation, an interface ([Collation]) with a binary and an ASCII
    case-insensitive instance. [query(sql, values)] first formats the
    statement on the client (each [?] takes the next value; surplus values
    are dropped, a missing value leaves a [?] and the server reports a
    syntax error); the server then rejects an INSERT whose value count
    differs from its column count. The schema is not part of the
    repository: [role] and [verifiedEmail] take their column defaults
    ([default_role], [false]), the six inserted columns are NOT NULL, and
    [affectedRows] of an UPDATE counts the matched rows (mysql2 connects
    with the FOUND_ROWS flag). *)

From S2P Require Import Prelude JsString.

Module UsersDb.

Record account := mkAccount {
  acc_id : Z;
  acc_username : string;
  acc_email : string;
  acc_hashPassword : string;
  acc_registerDate : string;
  acc_url : string;
  acc_profilePictureSrc : string;
  acc_role : string;
  acc_verifiedEmail : bool
}.

Record table := mkTable {
  rows : list account;
  auto_inc : Z
}.

(** The value of the [role] column when an INSERT does not set it. *)
Definition default_role : string := "user".

(** ** Collation of the [WHERE] comparisons *)

Class Collation := {
  coll_eq : string -> string -> bool;
  coll_refl : forall s, coll_eq s s = true;
  coll_sym : forall s1 s2, coll_eq s1 s2 = coll_eq s2 s1;
  coll_trans : forall s1 s2 s3, coll_eq s1 s2 = true -> coll_eq s2 s3 = true -> coll_eq s1 s3 = true
}.

#[export] Program Instance binary_collation : Collation := {| coll_eq := String.eqb |}.
Next Obligation. apply String.eqb_refl. Qed.
Next Obligation. intros s1 s2. apply String.eqb_sym. Qed.
Next Obligation. intros s1 s2 s3 ->%String.eqb_eq ->%String.eqb_eq. apply String.eqb_refl. Qed.

(** A case-insensitive collation such as MySQL's default [utf8mb4_0900_ai_ci]
    on ASCII strings. *)
Program Definition ascii_ci_collation : Collation :=
  {| coll_eq s1 s2 := String.eqb (JsString.toLowerCase s1) (JsString.toLowerCase s2) |}.
Next Obligation. intros s. apply String.eqb_refl. Qed.
Next Obligation. intros s1 s2. apply String.eqb_sym. Qed.
Next Obligation. intros s1 s2 s3 H1%String.eqb_eq H2%String.eqb_eq. apply String.eqb_eq. congruence. Qed.

(** ** Statements *)

(** The columns the two INSERT statements list. *)
Inductive column := c_username | c_email | c_hashPassword | c_registerDate | c_url | c_profilePictureSrc.

Definition insert_columns : list column :=
  [c_username; c_email; c_hashPassword; c_registerDate; c_url; c_profilePictureSrc].

(** A bound value: a string, or [NULL] for an [undefined] argument. *)
Abbreviation sql_value := (option string).

Inductive sql_error :=
| ER_PARSE_ERROR
| ER_WRONG_VALUE_COUNT_ON_ROW
| ER_BAD_NULL_ERROR (col : column).

Section WithCollation.
Context `{!Collation}.

(** auth.js line 101. *)
Definition select_email_or_username (email username : string) (t : table) : list account :=
  List.filter (fun a => coll_eq (acc_email a) email || coll_eq (acc_username a) username) (rows t).

(** auth.js lines 165 and 197. *)
Definition select_by_email (email : string) (t : table) : list account :=
  List.filter (fun a => coll_eq (acc_email a) email) (rows t).

(** auth.js line 166. *)
Definition select_by_username (username : string) (t : table) : list account :=
  List.filter (fun a => coll_eq (acc_username a) username) (rows t).

(** Two strings the collation does not tell apart. The three lookups
    cannot tell them apart either: they are morphisms for it. *)
Definition coll_equiv (s1 s2 : string) : Prop := coll_eq s1 s2 = true.

#[export] Instance coll_equiv_equivalence : Equivalence coll_equiv.
Proof.
  split; unfold coll_equiv.
  - intros s. apply coll_refl.
  - intros s1 s2 Hs. rewrite coll_sym. done.
  - intros s1 s2 s3. apply coll_trans.
Qed.

#[export] Instance coll_eq_proper : Proper (coll_equiv ==> coll_equiv ==> eq) coll_eq.
Proof.
  assert (Himp : forall a a' b b', coll_eq a a' = true -> coll_eq b b' = true ->
                  coll_eq a b = true -> coll_eq a' b' = true).
  { intros a a' b b' Ha Hb Hab. apply (coll_trans _ a); [rewrite coll_sym; done|].
    apply (coll_trans _ b); done. }
  intros x x' Hx y y' Hy. unfold coll_equiv in *.
  destruct (coll_eq x y) eqn:Hxy, (coll_eq x' y') eqn:Hxy'; try done.
  - rewrite (Himp x x' y y' Hx Hy Hxy) in Hxy'. done.
  - rewrite (Himp x' x y' y) in Hxy; [done|rewrite coll_sym; done..|done].
Qed.

#[export] Instance select_by_email_proper : Proper (coll_equiv ==> eq ==> eq) select_by_email.
Proof.
  intros e e' He t ? <-. unfold select_by_email. apply filter_ext. intros a. rewrite He. done.
Qed.

#[export] Instance select_by_username_proper : Proper (coll_equiv ==> eq ==> eq) select_by_username.
Proof.
  intros u u' Hu t ? <-. unfold select_by_username. apply filter_ext. intros a. rewrite Hu. done.
Qed.

#[export] Instance select_email_or_username_proper :
  Proper (coll_equiv ==> coll_equiv ==> eq ==> eq) select_email_or_username.
Proof.
  intros e e' He u u' Hu t ? <-. unfold select_email_or_username. apply filter_ext. intros a.
  rewrite He, Hu. done.
Qed.

End WithCollation.

(** auth.js line 221. *)
Definition select_by_id (id : Z) (t : table) : list account :=
  List.filter (fun a => Z.eqb (acc_id a) id) (rows t).

(** mysql2's client-side formatting with [placeholders] question marks. *)
Definition sql_format (placeholders : nat) (values : list sql_value) :
    result (list sql_value) sql_error :=
  if (List.length values <? placeholders)%nat then Err ER_PARSE_ERROR
  else Ok (firstn placeholders values).

(** The row an INSERT builds from its column/value pairs. *)
Definition set_column (a : account) (cv : column * string) : account :=
  let '(c, v) := cv in
  let 'mkAccount i u e h d l p r ve := a in
  match c with
  | c_username => mkAccount i v e h d l p r ve
  | c_email => mkAccount i u v h d l p r ve
  | c_hashPassword => mkAccount i u e v d l p r ve
  | c_registerDate => mkAccount i u e h v l p r ve
  | c_url => mkAccount i u e h d v p r ve
  | c_profilePictureSrc => mkAccount i u e h d l v r ve
  end.

Definition set_verified (a : account) : account :=
  let 'mkAccount i u e h d l p r _ := a in mkAccount i u e h d l p r true.

Definition fresh_row (id : Z) : account :=
  mkAccount id "" "" "" "" "" "" default_role false.

Fixpoint bind_values (cols : list column) (vals : list sql_value) :
    result (list (column * string)) sql_error :=
  match cols, vals with
  | c :: cols', Some v :: vals' => cvs <- bind_values cols' vals' ;; Ok ((c, v) :: cvs)
  | c :: _, None :: _ => Err (ER_BAD_NULL_ERROR c)
  | _, _ => Ok []
  end.

(** [INSERT INTO users (cols) VALUES (?, ..., ?)] with [placeholders]
    question marks and the bound [values]: [affectedRows], [insertId] and
    the new table. *)
Definition insert_users (cols : list column) (placeholders : nat) (values : list sql_value)
    (t : table) : result (Z * Z * table) sql_error :=
  vals <- sql_format placeholders values ;;
  if negb (List.length cols =? List.length vals)%nat then Err ER_WRONG_VALUE_COUNT_ON_ROW
  else cvs <- bind_values cols vals ;;
       let a := foldl set_column (fresh_row (auto_inc t)) cvs in
       Ok (1%Z, auto_inc t, mkTable (rows t ++ [a]) (auto_inc t + 1)).

(** auth.js line 250: [UPDATE users SET verifiedEmail = true WHERE id = ?],
    with [affectedRows]. *)
Definition update_verified (id : Z) (t : table) : Z * table :=
  (Z.of_nat (List.length (select_by_id id t)),
   mkTable (map (fun a => if Z.eqb (acc_id a) id then set_verified a else a) (rows t))
           (auto_inc t)).

(** ** The table's well-formedness: ids are distinct and below the counter *)

Definition table_wf (t : table) : Prop :=
  NoDup (map acc_id (rows t)) /\ Forall (fun a => (acc_id a < auto_inc t)%Z) (rows t).

(** The row the two INSERT statements of the handlers build when every
    value is bound. *)
Definition inserted_row (id : Z) (u e h d l p : string) : account :=
  mkAccount id u e h d l p default_role false.

Lemma insert_users_six (u e h d l p : string) (t : table) :
  insert_users insert_columns 6 [Some u; Some e; Some h; Some d; Some l; Some p] t =
  Ok (1%Z, auto_inc t, mkTable (rows t ++ [inserted_row (auto_inc t) u e h d l p]) (auto_inc t + 1)).
Proof. reflexivity. Qed.

(** A statement with fewer placeholders than columns is rejected by the
    server, whatever the values, once they cover the placeholders. *)
Lemma insert_users_count_mismatch (cols : list column) (n : nat) (vals : list sql_value) (t : table) :
  n <> List.length cols -> (n <= List.length vals)%nat ->
  insert_users cols n vals t = Err ER_WRONG_VALUE_COUNT_ON_ROW.
Proof.
  intros Hn Hv. unfold insert_users, sql_format.
  destruct (Nat.ltb_spec (List.length vals) n); [lia|]. simpl.
  rewrite length_firstn, Nat.min_l by done.
  destruct (Nat.eqb_spec (List.length cols) n); [lia|]. done.
Qed.

Lemma update_verified_rows_ids (id : Z) (t : table) :
  map acc_id (rows (snd (update_verified id t))) = map acc_id (rows t).
Proof.
  simpl. rewrite map_map. apply map_ext. intros [i u e h d l p r ve]. simpl.
  destruct (Z.eqb i id); done.
Qed.


Lemma update_verified_auto_inc (id : Z) (t : table) :
  auto_inc (snd (update_verified id t)) = auto_inc t.
Proof. done. Qed.

Lemma in_update_verified (id : Z) (t : table) (a : account) :
  In a (rows t) ->
  In (if Z.eqb (acc_id a) id then set_verified a else a) (rows (snd (update_verified id t))).
Proof. intros H. simpl. apply (in_map (fun a => if Z.eqb (acc_id a) id then set_verified a else a)). done. Qed.

Lemma in_update_verified_inv (id : Z) (t : table) (b : account) :
  In b (rows (snd (update_verified id t))) ->
  exists a, In a (rows t) /\ b = if Z.eqb (acc_id a) id then set_verified a else a.
Proof. simpl. intros (a & <- & Ha)%in_map_iff. eauto. Qed.

Lemma table_wf_insert (t : table) (a : account) :
  table_wf t -> acc_id a = auto_inc t ->
  table_wf (mkTable (rows t ++ [a]) (auto_inc t + 1)).
Proof.
  intros [Hnd Hlt] Hid. split; simpl.
  - rewrite map_app. simpl. apply NoDup_app. split; [done|]. split.
    + intros i Hi ->%list_elem_of_singleton. rewrite Hid in Hi.
      apply list_elem_of_In, in_map_iff in Hi as (b & Hb & Hin).
      rewrite List.Forall_forall in Hlt. specialize (Hlt b Hin). lia.
    + apply NoDup_singleton.
  - apply Forall_app. split; [|constructor; [lia|constructor]].
    eapply Forall_impl; [exact Hlt|]. simpl. lia.
Qed.

Lemma table_wf_update (id : Z) (t : table) :
  table_wf t -> table_wf (snd (update_verified id t)).
Proof.
  intros [Hnd Hlt]. split.
  - rewrite update_verified_rows_ids. done.
  - apply List.Forall_forall. intros b (a & Ha & ->)%in_update_verified_inv. simpl.
    rewrite List.Forall_forall in Hlt. specialize (Hlt a Ha).
    destruct a as [i u e h d l p r ve]. simpl in *. destruct (Z.eqb i id); done.
Qed.

Lemma set_verified_id (a : account) : acc_id (set_verified a) = acc_id a.
Proof. destruct a. done. Qed.

Lemma set_verified_verified (a : account) : acc_verifiedEmail (set_verified a) = true.
Proof. destruct a. done. Qed.

Lemma set_verified_idem (a : account) : set_verified (set_verified a) = set_verified a.
Proof. destruct a. done. Qed.

Lemma select_by_id_update (id i : Z) (t : table) :
  List.length (select_by_id i (snd (update_verified id t))) = List.length (select_by_id i t).
Proof.
  unfold select_by_id. simpl. destruct t as [l n]. simpl. induction l as [|a l IH]; [done|]. simpl.
  destruct (Z.eqb (acc_id a) id) eqn:Ha; simpl; rewrite ?set_verified_id; destruct (Z.eqb (acc_id a) i); simpl; auto.
Qed.

(** After the UPDATE, every row with the id is verified. *)
Lemma update_verified_sets (id : Z) (t : table) (b : account) :
  In b (rows (snd (update_verified id t))) -> acc_id b = id -> acc_verifiedEmail b = true.
Proof.
  intros (a & Ha & ->)%in_update_verified_inv.
  destruct (Z.eqb_spec (acc_id a) id); [intros _; apply set_verified_verified|done].
Qed.

(** The UPDATE is idempotent. *)
Lemma update_verified_idem (id : Z) (t : table) :
  update_verified id (snd (update_verified id t)) = update_verified id t.
Proof.
  pose proof (select_by_id_update id id t) as Hc.
  unfold update_verified in *. simpl in *. rewrite Hc, map_map. do 2 f_equal.
  apply map_ext. intros a.
  destruct (Z.eqb (acc_id a) id) eqn:Ha; rewrite ?set_verified_id, Ha, ?set_verified_idem; done.
Qed.

(** ** Uniqueness of the login keys (spec, section 3) *)

Section Unique.
Context {CO : Collation}.

Definition distinct_logins (a b : account) : Prop :=
  coll_eq (acc_email a) (acc_email b) = false /\ coll_eq (acc_username a) (acc_username b) = false.

(** No two rows share an e-mail or a user name, under the collation. *)
Fixpoint logins_unique (l : list account) : Prop :=
  match l with
  | [] => True
  | a :: l' => Forall (distinct_logins a) l' /\ logins_unique l'
  end.

Lemma logins_unique_snoc (l : list account) (b : account) :
  logins_unique l -> Forall (fun a => distinct_logins a b) l -> logins_unique (l ++ [b]).
Proof.
  induction l as [|a l IH]; simpl; [done|].
  intros [Ha Hl] Hb. inversion Hb; subst. split; [|auto].
  apply Forall_app. split; [done|]. constructor; [done|constructor].
Qed.

(** A map that keeps every row's e-mail and user name keeps uniqueness. *)
Lemma logins_unique_map (f : account -> account) (l : list account) :
  (forall a, acc_email (f a) = acc_email a /\ acc_username (f a) = acc_username a) ->
  logins_unique l -> logins_unique (map f l).
Proof.
  intros Hf. induction l as [|a l IH]; simpl; [done|]. intros [Ha Hl]. split; [|auto].
  apply Forall_map. eapply Forall_impl; [exact Ha|]. intros b [He Hu].
  unfold distinct_logins. destruct (Hf a) as [-> ->], (Hf b) as [-> ->]. done.
Qed.

(** A row that the uniqueness query of auth.js line 101 does not find is
    distinct from every row. *)
Lemma select_nil_distinct (e u : string) (t : table) (b : account) :
  select_email_or_username e u t = [] -> acc_email b = e -> acc_username b = u ->
  Forall (fun a => distinct_logins a b) (rows t).
Proof.
  intros Hsel <- <-. apply List.Forall_forall. intros a Ha.
  pose proof (filter_nil_false _ _ Hsel a Ha) as Hf. apply orb_false_iff in Hf. done.
Qed.

End Unique.

Lemma set_verified_keys (a : account) :
  acc_email (set_verified a) = acc_email a /\ acc_username (set_verified a) = acc_username a.
Proof. destruct a. done. Qed.

Lemma logins_unique_update `{!Collation} (id : Z) (t : table) :
  logins_unique (rows t) -> logins_unique (rows (snd (update_verified id t))).
Proof.
  apply logins_unique_map. intros a. destruct (Z.eqb (acc_id a) id); [apply set_verified_keys|done].
Qed.

End UsersDb.
