(* ===== verification/JsValue.v ===== *)
(** * JSON values of request bodies and mongoose casting

    The statistics and reviews routers read arbitrary JSON fields of
    [req.body] and hand them to mongoose documents. This file gives those
    values a type ([jsval]: numbers are integers), JavaScript's [!x] and
    [Number(x)], and the casts and [required] check that mongoose applies
    to [Number], [String] and [Boolean] schema paths. The conversion of a
    numeric string by [Number(s)] is the runtime's ([JsToNumber], an
    interface whose law fixes the decimal integers); the theorems hold for
    any instance. The last section names the MongoDB driver calls the
    routers await and the per-request input saying which of them
    reject. *)

From S2P Require Import Prelude.
From stdpp Require Import pretty.

Module JsValue.

Inductive jsval :=
| JUndef
| JNull
| JBool (b : bool)
| JNum (n : Z)
| JStr (s : string).

(** [===] on JSON values. *)
#[export] Instance jsval_eq_dec : EqDecision jsval.
Proof. solve_decision. Defined.

(** [!v] is false exactly for the truthy values. *)
Definition truthy (v : jsval) : bool :=
  match v with
  | JUndef | JNull => false
  | JBool b => b
  | JNum n => negb (Z.eqb n 0)
  | JStr s => negb (String.eqb s "")
  end.

(** [Number(s)] on strings, [None] for [NaN] (and for non-integers,
    which this model does not represent). The runtime trims white space
    and accepts decimal, hexadecimal and exponent literals; it is an
    interface, and the theorems state what they need of it on their
    inputs. *)
Class JsToNumber := { string_to_number : string -> option Z }.

Section WithToNumber.
Context {TN : JsToNumber}.

(** [Number(v)]. *)
Definition js_Number (v : jsval) : option Z :=
  match v with
  | JUndef => None
  | JNull => Some 0%Z
  | JBool b => Some (if b then 1 else 0)%Z
  | JNum n => Some n
  | JStr s => string_to_number s
  end.

(** A value stored in a document after casting. *)
Inductive stored :=
| SNum (n : Z)
| SStr (s : string)
| SBool (b : bool)
| SNull.

Inductive cast_error := CastError (path : string) | ValidatorError (path : string).

(** mongoose's [castNumber]: [null]/[undefined] stay empty, [''] is
    [null], strings and booleans go through [Number], [NaN] is a
    [CastError]. A [NaN] number value ([Number(x)] computed by the
    handler) is passed as [None]. *)
Definition cast_number (path : string) (v : option jsval) : result (option stored) cast_error :=
  match v with
  | None | Some JUndef => Ok None
  | Some JNull => Ok (Some SNull)
  | Some (JStr "") => Ok (Some SNull)
  | Some x =>
      match js_Number x with
      | Some n => Ok (Some (SNum n))
      | None => Err (CastError path)
      end
  end.

(** A value cast by mongoose for a [Number] path, in a query filter or
    in a document under construction: the number, [None] for an empty
    value ([undefined], [null] or [''], which matches a missing path), or
    the cast error. *)
Definition query_number (path : string) (v : jsval) : result (option Z) cast_error :=
  match cast_number path (Some v) with
  | Ok (Some (SNum n)) => Ok (Some n)
  | Ok _ => Ok None
  | Err e => Err e
  end.

End WithToNumber.

(** mongoose's [castString]: numbers and booleans are printed. *)
Definition cast_string (v : jsval) : option stored :=
  match v with
  | JUndef => None
  | JNull => Some SNull
  | JBool b => Some (SStr (if b then "true" else "false"))
  | JNum n => Some (SStr (pretty n))
  | JStr s => Some (SStr s)
  end.

(** mongoose's [castBoolean] with its default true/false value sets. *)
Definition cast_boolean (path : string) (v : jsval) : result (option stored) cast_error :=
  match v with
  | JUndef => Ok None
  | JNull => Ok (Some SNull)
  | JBool b => Ok (Some (SBool b))
  | JNum 1 => Ok (Some (SBool true))
  | JNum 0 => Ok (Some (SBool false))
  | JStr "true" | JStr "1" | JStr "yes" => Ok (Some (SBool true))
  | JStr "false" | JStr "0" | JStr "no" => Ok (Some (SBool false))
  | _ => Err (CastError path)
  end%Z.

(** The [required] validator: a value is present, and a string is not
    empty. *)
Definition required_ok (v : option stored) : bool :=
  match v with
  | None | Some SNull => false
  | Some (SStr s) => negb (String.eqb s "")
  | Some _ => true
  end.

(** ** Failures of the MongoDB driver

    The routers await five kinds of driver call: [find], [findOne],
    [save()], [deleteOne] and [aggregate]. Each handler makes at most one
    call of each kind, after the casts and validation that mongoose runs
    in the process; the network round trip of such a call can reject (the
    server is down, a timeout, a write conflict). Which calls of a request
    reject is an input of the request. A rejected write has not been
    applied. *)
Inductive mongo_op := MFind | MFindOne | MSave | MDeleteOne | MAggregate.

#[export] Instance mongo_op_eq_dec : EqDecision mongo_op.
Proof. solve_decision. Defined.

(** The calls that reject during one request. *)
Definition faults := list mongo_op.

Definition fails (op : mongo_op) (mf : faults) : bool := bool_decide (op ∈ mf).

(** The driver answers every call. *)
Lemma fails_nil (op : mongo_op) : fails op [] = false.
Proof. done. Qed.

(** The server is unreachable: every call rejects. *)
Definition mongo_down : faults := [MFind; MFindOne; MSave; MDeleteOne; MAggregate].

Lemma fails_down (op : mongo_op) : fails op mongo_down = true.
Proof. destruct op; done. Qed.

(** A concrete conversion for the examples: decimal digits. *)
Fixpoint digits_value (s : string) (acc : Z) : option Z :=
  match s with
  | EmptyString => Some acc
  | String c s' =>
      let d := (Z.of_nat (Ascii.nat_of_ascii c) - 48)%Z in
      if (0 <=? d)%Z && (d <=? 9)%Z then digits_value s' (acc * 10 + d)%Z else None
  end.

#[export] Instance decimal_to_number : JsToNumber :=
  {| string_to_number s := if String.eqb s "" then Some 0%Z else digits_value s 0 |}.

End JsValue.
