(* ===== verification/Auth.v ===== *)
(** * The handlers of [src/src/routes/auth.js]

    Each handler is a function from the request's inputs and the world
    (the [users] table and the outbox of e-mails handed to Resend) to the
    response it sends and the new world ([POST /verifyEmail]: the response,
    or the error its promise rejects with). The inputs a handler reads
    besides its body are an [env]: [Date.now()], the bcrypt salt,
    [Math.random()], the local calendar date and how the MySQL pool
    fails, if it does (every query rejects, or only the writes). The five routes:
    - [POST /register] (lines 71-129): [register];
    - [POST /login] (lines 157-184): [login];
    - [POST /login/google] (lines 186-218): [login_google];
    - [POST /verifyEmail] (lines 220-241): [verify_email_request];
    - [GET /verifyEmail/:code] (lines 243-258): [verify_email_redeem]. *)

From S2P Require Import Prelude JsString Regex Jwt Password UsersDb.
From Stdlib Require Import QArith Qround.
From stdpp Require Import pretty.

Module Auth.
Import Jwt Password UsersDb.

(** [process.env.ACCESS_TOKEN_SECRET]. *)
Record config := mkConfig { ACCESS_TOKEN_SECRET : string }.

(** How the MySQL pool fails during a request: it is unreachable, and
    every [await db.getPromise().query] rejects; or it answers reads but
    refuses writes (a read-only replica after a fail-over, a full disk, a
    lock wait timeout), and the INSERT or UPDATE rejects after the
    SELECTs of the request succeeded. *)
Inductive db_failure :=
| PoolDown (e : string)
| WriteFails (e : string).

Record env := mkEnv {
  now_ms : Z;           (** [Date.now()] *)
  bcrypt_salt : Z;      (** the salt [Bun.password.hash] draws *)
  random : Q;           (** [Math.random()], in [[0, 1)] *)
  today : Z * Z * Z;    (** the local calendar date: day, month, year *)
  db_error : option db_failure
}.

(** The error a SELECT of the request rejects with. *)
Definition read_error (f : option db_failure) : option string :=
  match f with Some (PoolDown e) => Some e | _ => None end.

(** The error an INSERT or UPDATE of the request rejects with. *)
Definition write_error (f : option db_failure) : option string :=
  match f with Some (PoolDown e) | Some (WriteFails e) => Some e | None => None end.

Record mail := mkMail { mail_to : string; mail_code : token }.

Record world := mkWorld { users : table; outbox : list mail }.

Definition set_users (w : world) (t : table) : world := mkWorld t (outbox w).

(** What a [catch] block binds, as [res.send] serialises it under
    [errorCode] or [error]: the rejection of a mysql2 call (an [Error]
    whose [code], [errno], [sqlMessage] and [sql], or for a refused
    connection [code], [syscall], [address] and [port], are enumerable
    own properties that the JSON body carries; [e] stands for them), the
    server's refusal of a statement, an error of [jwt.verify] (its
    [name], [message] and [expiredAt] are own properties), or another
    exception ([TypeError], [ReferenceError]), which serialises as
    [{}]. *)
Inductive thrown :=
| ThrownDb (e : string)
| ThrownSql (e : sql_error)
| ThrownJwt (e : jwt_error)
| ThrownOther (name : string).

Inductive resp_body :=
| BText (s : string)                                        (** [send('...')] *)
| BMessage (m : string)                                     (** [{ message }] *)
| BErrors (m : string) (errorValues : list (string * option string))
| BAuth (tok : token) (userUrl : string)                    (** [{ token, userUrl }] *)
| BCaught (m : string) (err : thrown)          (** [{ message, errorCode/error }] *)
| BUnauthorized.                             (** the middleware's rejection *)

Record response := mkResponse { status : Z; body : resp_body }.

(** ** Values the registration computes *)

(** Two decimal digits, as [{ day: '2-digit', month: '2-digit' }] prints. *)
Definition pad2 (n : Z) : string :=
  if (n <? 10)%Z then "0" ++ pretty n else pretty n.

(** auth.js lines 6 and 115:
    [new Date().toLocaleDateString('en-GB', dateOptions)], [dd/mm/yyyy]. *)
Definition toLocaleDateString_enGB (date : Z * Z * Z) : string :=
  let '(d, m, y) := date in pad2 d ++ "/" ++ pad2 m ++ "/" ++ pretty y.

(** auth.js lines 115 and 205:
    [path.join(`uploads/defaultAvatars/${Math.floor(Math.random() * 6)}.svg`)]. *)
Definition avatar_index (r : Q) : Z := Qfloor (r * 6).

Definition avatar_path (r : Q) : string :=
  "uploads/defaultAvatars/" ++ pretty (avatar_index r) ++ ".svg".

Section Handlers.
Context {HS : Hs256} {PH : PasswordHasher} {CO : Collation}.
Variable cfg : config.

Definition secret : string := ACCESS_TOKEN_SECRET cfg.

(** ** [POST /register] *)

Record reg_req := mkRegReq {
  rq_username : option string;
  rq_email : option string;
  rq_password : option string;
  rq_confirmationPassword : option string
}.

(** Lines 77-86: the 400 answer when a field is missing. *)
Definition missing_fields (rq : reg_req) : response :=
  mkResponse 400 (BErrors "All fields are required!"
    [("username", js_falsy_echo (rq_username rq));
     ("email", js_falsy_echo (rq_email rq));
     ("password", js_falsy_echo (rq_password rq));
     ("confirmationPassword", js_falsy_echo (rq_confirmationPassword rq))]).

(** Lines 109-123: hash, slug, INSERT, token. *)
Definition register_insert (ev : env) (username email password : string) (w : world)
    : response * world :=
  let hashedPassword := pw_hash (bcrypt_salt ev) password in
  let userUrl := JsString.user_url username in
  match write_error (db_error ev) with
  | Some e => (mkResponse 500 (BCaught "Something went wrong during registration!" (ThrownDb e)), w)
  | None =>
    match insert_users insert_columns 6
            [Some username; Some email; Some hashedPassword;
             Some (toLocaleDateString_enGB (today ev)); Some userUrl;
             Some (avatar_path (random ev))] (users w) with
    | Err err => (mkResponse 500 (BCaught "Something went wrong during registration!" (ThrownSql err)), w)
    | Ok (affectedRows, insertId, t') =>
        if (0 <? affectedRows)%Z
        then (mkResponse 201 (BAuth (sign secret insertId (now_ms ev) None) userUrl), set_users w t')
        else (mkResponse 500 (BMessage "Something went wrong while adding your account!"), set_users w t')
    end
  end.

(** Lines 87-108: the checks in order and the uniqueness query. [None]
    when the request goes on to the insert. *)
Definition register_checks (dbe : option db_failure) (username email password confirmationPassword : string)
    (w : world) : option response :=
  if negb (Regex.email_test email) then
    Some (mkResponse 400 (BErrors "Invalid email!" [("email", Some email)]))
  else if (String.length password <? 8)%nat then
    Some (mkResponse 400 (BErrors "Password must be at least 8 characters long!"
                            [("password", Some password)]))
  else if negb (String.eqb password confirmationPassword) then
    Some (mkResponse 400 (BErrors "Passwords do not match!"
                            [("password", Some password);
                             ("confirmationPassword", Some confirmationPassword)]))
  else match read_error dbe with
  | Some e => Some (mkResponse 500 (BCaught "Something went wrong during registration!" (ThrownDb e)))
  | None =>
       match select_email_or_username email username (users w) with
       | a :: _ =>
           Some (mkResponse 400 (BErrors "User already exists!"
              [("username", if String.eqb (acc_username a) username then Some username else None);
               ("email", if String.eqb (acc_email a) email then Some email else None)]))
       | [] => None
       end
  end.

(** Lines 87-124: the checks, then the insert. *)
Definition register_valid (ev : env) (username email password confirmationPassword : string)
    (w : world) : response * world :=
  match register_checks (db_error ev) username email password confirmationPassword w with
  | Some r => (r, w)
  | None => register_insert ev username email password w
  end.

(** Lines 71-129. *)
Definition register (ev : env) (rq : reg_req) (w : world) : response * world :=
  match rq with
  | mkRegReq (Some u) (Some e) (Some p) (Some cp) =>
      if js_truthy (Some u) && js_truthy (Some e) && js_truthy (Some p) && js_truthy (Some cp)
      then register_valid ev u e p cp w
      else (missing_fields rq, w)
  | _ => (missing_fields rq, w)
  end.

(** ** [POST /login] *)

Record login_req := mkLoginReq {
  lg_username : option string;
  lg_password : option string
}.

(** Lines 174 and 177: the one answer for every failed attempt. *)
Definition auth_failed (username password : string) : response :=
  mkResponse 401 (BErrors "Authentication failed"
    [("username", Some username); ("password", Some password)]).

(** Lines 163-178. *)
Definition login_valid (ev : env) (username password : string) (w : world) : response :=
  match read_error (db_error ev) with
  | Some e => mkResponse 500 (BCaught "Something went wrong during login!" (ThrownDb e))
  | None =>
    let rows := if JsString.isValidEmail username
                then select_by_email username (users w)
                else select_by_username username (users w) in
    match rows with
    | [a] =>
        if pw_verify password (acc_hashPassword a)
        then mkResponse 200 (BAuth (sign secret (acc_id a) (now_ms ev) None) (acc_url a))
        else auth_failed username password
    | _ => auth_failed username password
    end
  end.

(** Lines 157-184. *)
Definition login (ev : env) (rq : login_req) (w : world) : response * world :=
  match rq with
  | mkLoginReq (Some u) (Some p) =>
      if js_truthy (Some u) && js_truthy (Some p)
      then (login_valid ev u p w, w)
      else (mkResponse 400 (BText "All fields are required!"), w)
  | _ => (mkResponse 400 (BText "All fields are required!"), w)
  end.

(** ** [POST /login/google] *)

(** The JSON body of Google's token-info endpoint. *)
Record google_user := mkGoogleUser { g_email : option string; g_id : option string }.

(** What [await fetch(...)] (line 192) and [await googleUser.json()]
    (line 196) give: a rejected promise (a network failure, or a body
    that is not JSON), an answer that is not [ok], or the decoded body. *)
Inductive tokeninfo_answer :=
| TRejected
| TNotOk
| TOk (gu : google_user).

(** Lines 201-211: create the account of a first-time Google user. The
    statement lists six columns and five placeholders. *)
Definition login_google_insert (ev : env) (email : string) (gid : option string) (w : world)
    : response * world :=
  let username := JsString.split_at_first "@" email in
  let userUrl := JsString.user_url username in
  match write_error (db_error ev) with
  | Some e => (mkResponse 500 (BCaught "Something went wrong during login!" (ThrownDb e)), w)
  | None =>
    match insert_users insert_columns 5
            [Some username; Some email; gid;
             Some (toLocaleDateString_enGB (today ev)); Some userUrl;
             Some (avatar_path (random ev))] (users w) with
    | Err err => (mkResponse 500 (BCaught "Something went wrong during login!" (ThrownSql err)), w)
    | Ok (affectedRows, insertId, t') =>
        if (0 <? affectedRows)%Z
        then (mkResponse 201 (BAuth (sign secret insertId (now_ms ev) None) userUrl), set_users w t')
        else (mkResponse 500 (BMessage "Something went wrong while adding your account!"), set_users w t')
    end
  end.

(** Lines 186-218. [tokeninfo] is the token-info call (line 192) and
    the decoding of its body (line 196). Without an [email] field
    the SELECT binds [NULL] and finds nothing, then [undefined.split]
    throws and the handler answers 500. *)
Definition login_google (ev : env) (tokeninfo : string -> tokeninfo_answer)
    (token : option string) (w : world) : response * world :=
  match token with
  | Some tk =>
      if js_truthy (Some tk) then
        match tokeninfo tk with
        | TRejected => (mkResponse 500 (BCaught "Something went wrong during login!" (ThrownOther "TypeError")), w)
        | TNotOk => (mkResponse 401 (BText "Invalid access_token!"), w)
        | TOk gu =>
            match read_error (db_error ev) with
            | Some e => (mkResponse 500 (BCaught "Something went wrong during login!" (ThrownDb e)), w)
            | None =>
            match g_email gu with
            | None => (mkResponse 500 (BCaught "Something went wrong during login!" (ThrownOther "TypeError")), w)
            | Some email =>
                match select_by_email email (users w) with
                | [a] => (mkResponse 200 (BAuth (sign secret (acc_id a) (now_ms ev) None) (acc_url a)), w)
                | _ => login_google_insert ev email (g_id gu) w
                end
            end
            end
        end
      else (mkResponse 400 (BText "No access_token sended!"), w)
  | None => (mkResponse 400 (BText "No access_token sended!"), w)
  end.

(** ** [POST /verifyEmail] *)

(** What [resend.emails.send(...)] returns: a promise of the API's answer
    (its [error] field set when the e-mail is refused). *)
Inductive promise (A : Type) := Pending (eventual : A).
Arguments Pending {A} eventual.

Record resend_answer := mkResendAnswer { resend_error : option string }.

(** Line 227, [const { error } = <promise>]: the handler does not await the
    call, and a Promise object has no [error] property. *)
Definition promise_error (p : promise resend_answer) : option string := None.

(** Lines 220-241, behind [verifyUserLogged]. [resend_outcome] is the
    error the Resend API will report for this e-mail, if any. [jwt.sign]
    always returns a non-empty string, so the [!code] branch (line 224)
    never runs. The SELECT of line 221 is outside any [try]: when it
    rejects, the handler's promise rejects with the MySQL error and the
    route sends nothing ([Err]). *)
Definition verify_email_request (ev : env) (bearer : option token)
    (resend_outcome : option string) (w : world) : result response string * world :=
  match verifyUserLogged secret (now_ms ev) bearer with
  | None => (Ok (mkResponse 401 BUnauthorized), w)
  | Some userId =>
      match read_error (db_error ev) with
      | Some e => (Err e, w)
      | None =>
      match select_by_id userId (users w) with
      | [a] =>
          let code := sign secret userId (now_ms ev) (Some one_hour) in
          let w' := mkWorld (users w) (outbox w ++ [mkMail (acc_email a) code]) in
          match promise_error (Pending (mkResendAnswer resend_outcome)) with
          | Some _ => (Ok (mkResponse 500 (BMessage "Error sending verification email!")), w')
          | None => (Ok (mkResponse 200 (BMessage "Verification email sent!")), w')
          end
      | _ => (Ok (mkResponse 404 (BMessage "User not found!")), w)
      end
      end
  end.

(** ** [GET /verifyEmail/:code] *)

(** Lines 243-258. [decoded.exp < Date.now() / 1000] is false when the
    payload has no [exp]. When no row matched, building the 500 body reads
    the unbound [err], and the ReferenceError is caught by the [catch]
    (line 255). *)
Definition verify_email_redeem (ev : env) (code : token) (w : world) : response * world :=
  match verify secret (now_ms ev) code with
  | Err je => (mkResponse 500 (BCaught "Error verifying email!" (ThrownJwt je)), w)
  | Ok decoded =>
      if match cl_exp decoded with
         | Some e => (e * 1000 <? now_ms ev)%Z
         | None => false
         end
      then (mkResponse 400 (BMessage "Token expired!"), w)
      else
        match write_error (db_error ev) with
        | Some e => (mkResponse 500 (BCaught "Error verifying email!" (ThrownDb e)), w)
        | None =>
        let '(affectedRows, t') := update_verified (cl_id decoded) (users w) in
        if (affectedRows =? 0)%Z
        then (mkResponse 500 (BCaught "Error verifying email!" (ThrownOther "ReferenceError")), set_users w t')
        else (mkResponse 200 (BMessage "Email verified!"), set_users w t')
        end
  end.

End Handlers.

(** ** Functional lemmas of the handlers *)

Section Lemmas.
Context {HS : Hs256} {PH : PasswordHasher} {CO : Collation}.
Variable cfg : config.

(** With every field present and non-empty, the handler runs the checks. *)
Lemma register_fields (ev : env) (u e p cp : string) (w : world) :
  u <> "" -> e <> "" -> p <> "" -> cp <> "" ->
  register cfg ev (mkRegReq (Some u) (Some e) (Some p) (Some cp)) w = register_valid cfg ev u e p cp w.
Proof.
  intros Hu He Hp Hcp. unfold register.
  rewrite !js_truthy_Some by done. done.
Qed.

(** The world after a successful registration. *)
Definition registered_world (ev : env) (u e p : string) (w : world) : world :=
  set_users w (mkTable (rows (users w) ++
     [inserted_row (auto_inc (users w)) u e (pw_hash (bcrypt_salt ev) p)
        (toLocaleDateString_enGB (today ev)) (JsString.user_url u) (avatar_path (random ev))])
     (auto_inc (users w) + 1)).

(** The INSERT of the registration: the new row, or a 500 that leaves the
    world as it was. *)
Lemma register_insert_fresh (ev : env) (u e p : string) (w : world) :
  write_error (db_error ev) = None ->
  register_insert cfg ev u e p w =
  (mkResponse 201 (BAuth (sign (secret cfg) (auto_inc (users w)) (now_ms ev) None) (JsString.user_url u)),
   registered_world ev u e p w).
Proof. unfold register_insert. intros ->. reflexivity. Qed.

(** The INSERT phase adds the new row or leaves the world as it was. *)
Lemma register_insert_world (ev : env) (u e p : string) (w : world) :
  snd (register_insert cfg ev u e p w) = w \/ snd (register_insert cfg ev u e p w) = registered_world ev u e p w.
Proof. unfold register_insert. destruct (write_error (db_error ev)); [left|right]; done. Qed.

Lemma register_insert_fails (ev : env) (u e p : string) (w : world) (x : string) :
  write_error (db_error ev) = Some x ->
  register_insert cfg ev u e p w = (mkResponse 500 (BCaught "Something went wrong during registration!" (ThrownDb x)), w).
Proof. unfold register_insert. intros ->. reflexivity. Qed.

Lemma register_valid_fresh (ev : env) (u e p : string) (w : world) :
  db_error ev = None -> Regex.email_test e = true -> (8 <= String.length p)%nat ->
  select_email_or_username e u (users w) = [] ->
  register_valid cfg ev u e p p w =
  (mkResponse 201 (BAuth (sign (secret cfg) (auto_inc (users w)) (now_ms ev) None) (JsString.user_url u)),
   registered_world ev u e p w).
Proof.
  intros Hdb He Hp Hsel. unfold register_valid, register_checks.
  rewrite Hdb, He, String.eqb_refl, Hsel. simpl.
  destruct (Nat.ltb_spec (String.length p) 8); [lia|]. apply register_insert_fresh. rewrite Hdb. done.
Qed.

Lemma register_valid_taken (ev : env) (u e p cp : string) (w : world) (a : account) (rest : list account) :
  db_error ev = None -> Regex.email_test e = true -> (8 <= String.length p)%nat -> p = cp ->
  select_email_or_username e u (users w) = a :: rest ->
  register_valid cfg ev u e p cp w =
  (mkResponse 400 (BErrors "User already exists!"
     [("username", if String.eqb (acc_username a) u then Some u else None);
      ("email", if String.eqb (acc_email a) e then Some e else None)]), w).
Proof.
  intros Hdb He Hp <- Hsel. unfold register_valid, register_checks.
  rewrite Hdb, He, String.eqb_refl, Hsel. simpl.
  destruct (Nat.ltb_spec (String.length p) 8); [lia|]. done.
Qed.

Lemma login_fields (ev : env) (u p : string) (w : world) :
  u <> "" -> p <> "" ->
  login cfg ev (mkLoginReq (Some u) (Some p)) w = (login_valid cfg ev u p w, w).
Proof. intros Hu Hp. unfold login. rewrite !js_truthy_Some by done. done. Qed.

(** When the reads succeed, every answer of the password login other
    than a 200 is [auth_failed]. *)
Lemma login_valid_cases (ev : env) (u p : string) (w : world) :
  read_error (db_error ev) = None ->
  login_valid cfg ev u p w = auth_failed u p \/
  exists a, login_valid cfg ev u p w =
            mkResponse 200 (BAuth (sign (secret cfg) (acc_id a) (now_ms ev) None) (acc_url a)).
Proof.
  intros Hdb. unfold login_valid. rewrite Hdb. repeat case_match; eauto.
Qed.

Lemma login_world (ev : env) (rq : login_req) (w : world) : snd (login cfg ev rq w) = w.
Proof. destruct rq as [[u|] [p|]]; simpl; try done. destruct (_ && _); done. Qed.

Lemma verify_email_redeem_Ok (ev : env) (code : token) (c : claims) (w : world) :
  verify (secret cfg) (now_ms ev) code = Ok c ->
  verify_email_redeem cfg ev code w =
    match write_error (db_error ev) with
    | Some x => (mkResponse 500 (BCaught "Error verifying email!" (ThrownDb x)), w)
    | None =>
        let '(n, t') := update_verified (cl_id c) (users w) in
        if (n =? 0)%Z then (mkResponse 500 (BCaught "Error verifying email!" (ThrownOther "ReferenceError")), set_users w t')
        else (mkResponse 200 (BMessage "Email verified!"), set_users w t')
    end.
Proof.
  intros Hv. pose proof Hv as [_ Hexp]%verify_Ok. unfold verify_email_redeem. rewrite Hv.
  destruct (cl_exp c) as [e|] eqn:He; [|done].
  specialize (Hexp e eq_refl). destruct (Z.ltb_spec (e * 1000) (now_ms ev)); [|done].
  exfalso. pose proof (div_1000_lt (now_ms ev) e Hexp). lia.
Qed.

(** ** The effect of each handler on the world *)


Lemma register_effect (ev : env) (rq : reg_req) (w : world) :
  snd (register cfg ev rq w) = w \/
  exists u e p, u <> "" /\ Regex.email_test e = true /\ (8 <= String.length p)%nat /\
                select_email_or_username e u (users w) = [] /\
                snd (register cfg ev rq w) = registered_world ev u e p w.
Proof.
  destruct rq as [[u|] [e|] [p|] [cp|]]; cbn -[js_truthy register_valid missing_fields]; auto.
  destruct (js_truthy (Some u)) eqn:Hu; [|auto]. simpl.
  destruct (_ && _); [|auto]. unfold register_valid, register_checks.
  destruct (Regex.email_test e) eqn:He; [|auto].
  destruct (Nat.ltb_spec (String.length p) 8); [auto|].
  destruct (negb (String.eqb p cp)); [auto|].
  destruct (read_error (db_error ev)); [auto|].
  destruct (select_email_or_username e u (users w)) as [|a rest] eqn:Hsel; [|auto].
  destruct (write_error (db_error ev)) eqn:Hw; [rewrite (register_insert_fails _ _ _ _ _ _ Hw); auto|].
  right. exists u, e, p. rewrite register_insert_fresh by done.
  apply js_truthy_true in Hu as (? & [= <-] & ?). done.
Qed.

Lemma login_google_insert_world (ev : env) (email : string) (gid : option string) (w : world) :
  snd (login_google_insert cfg ev email gid w) = w.
Proof.
  unfold login_google_insert. destruct (write_error (db_error ev)); [done|].
  rewrite insert_users_count_mismatch; simpl; try lia; done.
Qed.

(** The Google login never changes the world. *)
Lemma login_google_world (ev : env) (ti : string -> tokeninfo_answer) (tk : option string) (w : world) :
  snd (login_google cfg ev ti tk w) = w.
Proof.
  destruct tk as [tk|]; cbn -[js_truthy login_google_insert]; [|done].
  destruct (js_truthy (Some tk)); [|done]. destruct (ti tk) as [| |gu]; [done|done|].
  destruct (read_error (db_error ev)); [done|]. destruct (g_email gu) as [em|]; [|done].
  destruct (select_by_email em (users w)) as [|a [|b rest]]; try apply login_google_insert_world; done.
Qed.

(** The verification request only hands one code for the caller's id to
    Resend, addressed to the caller's row. *)
Lemma verify_email_request_effect (ev : env) (bearer : option token) (out : option string) (w : world) :
  snd (verify_email_request cfg ev bearer out w) = w \/
  exists uid a, select_by_id uid (users w) = [a] /\
    snd (verify_email_request cfg ev bearer out w) =
      mkWorld (users w) (outbox w ++ [mkMail (acc_email a) (sign (secret cfg) uid (now_ms ev) (Some one_hour))]).
Proof.
  unfold verify_email_request.
  destruct (verifyUserLogged (secret cfg) (now_ms ev) bearer) as [uid|]; [|auto].
  destruct (read_error (db_error ev)); [auto|].
  destruct (select_by_id uid (users w)) as [|a [|b rest]] eqn:Hsel; auto.
  right. exists uid, a. done.
Qed.

Lemma verify_email_redeem_effect (ev : env) (code : token) (w : world) :
  snd (verify_email_redeem cfg ev code w) = w \/
  exists id, snd (verify_email_redeem cfg ev code w) = set_users w (snd (update_verified id (users w))).
Proof.
  unfold verify_email_redeem.
  destruct (verify (secret cfg) (now_ms ev) code) as [c|]; [|auto].
  destruct (match cl_exp c with Some e => _ | None => false end); [auto|].
  destruct (write_error (db_error ev)); [auto|].
  right. exists (cl_id c). destruct (update_verified (cl_id c) (users w)) as [n t'].
  destruct (n =? 0)%Z; done.
Qed.

End Lemmas.

End Auth.
