(* ===== verification/AuthProps.v ===== *)
(** * End-to-end properties of the authentication handlers

    The registration/login round trip, the rejections of the registration
    checks, the uniform answer of failed logins, the e-mail verification
    handshake with its expiry, and the behaviours in which the code departs
    from the spec (unreachable [Token expired!], login tokens accepted as
    verification codes, the Google sign-up statement that always fails,
    the ignored Resend result, the partial duplicate report). All theorems
    hold for every keyed hash, password hasher and collation. *)

From S2P Require Import Prelude JsString Regex Jwt Password UsersDb Auth.
From Stdlib Require Import QArith Qround.

Module AuthProps.
Import Jwt Password UsersDb Auth.

Section Props.
Context {HS : Hs256} {PH : PasswordHasher} {CO : Collation}.
Variable cfg : config.

(** ** Helper lemmas *)

Lemma email_test_nonempty (e : string) : Regex.email_test e = true -> e <> "".
Proof. intros H ->. discriminate H. Qed.

Lemma length_nonempty (p : string) : (1 <= String.length p)%nat -> p <> "".
Proof. intros H ->. simpl in H. lia. Qed.

(** The row a registration appends. *)
Definition new_row (ev : env) (u e p : string) (w : world) : account :=
  inserted_row (auto_inc (users w)) u e (pw_hash (bcrypt_salt ev) p)
    (toLocaleDateString_enGB (today ev)) (JsString.user_url u) (avatar_path (random ev)).

Lemma select_by_email_registered (ev : env) (u e p : string) (w : world) :
  select_email_or_username e u (users w) = [] ->
  select_by_email e (users (registered_world ev u e p w)) = [new_row ev u e p w].
Proof.
  intros Hsel. unfold select_by_email. simpl.
  rewrite filter_app_single; [simpl; rewrite coll_refl; done|].
  apply (filter_nil_weaken _ _ _ Hsel). intros a Ha. rewrite Ha. done.
Qed.

Lemma select_by_username_registered (ev : env) (u e p : string) (w : world) :
  select_email_or_username e u (users w) = [] ->
  select_by_username u (users (registered_world ev u e p w)) = [new_row ev u e p w].
Proof.
  intros Hsel. unfold select_by_username. simpl.
  rewrite filter_app_single; [simpl; rewrite coll_refl; done|].
  apply (filter_nil_weaken _ _ _ Hsel). intros a Ha. rewrite Ha, orb_true_r. done.
Qed.

(** ** Registration and login *)

(** (C1) While the database answers: register then log in: a registration
    with a well-formed e-mail, a password of at least 8 characters
    confirmed identically, and a user name and e-mail that no row matches
    answers 201 with a token for the new id and the derived handle;
    afterwards a login with the e-mail and the password answers 200 with a
    token for the same id, so does a login with the user name when it does
    not look like an e-mail, and the middleware accepts the issued token
    at any later time. *)
Theorem register_then_login (ev ev' : env) (u e p : string) (w : world) :
  db_error ev = None -> db_error ev' = None ->
  u <> "" -> Regex.email_test e = true -> (8 <= String.length p)%nat ->
  select_email_or_username e u (users w) = [] ->
  let id := auto_inc (users w) in
  let w' := registered_world ev u e p w in
  register cfg ev (mkRegReq (Some u) (Some e) (Some p) (Some p)) w =
    (mkResponse 201 (BAuth (sign (secret cfg) id (now_ms ev) None) (JsString.user_url u)), w') /\
  login cfg ev' (mkLoginReq (Some e) (Some p)) w' =
    (mkResponse 200 (BAuth (sign (secret cfg) id (now_ms ev') None) (JsString.user_url u)), w') /\
  (JsString.isValidEmail u = false ->
   login cfg ev' (mkLoginReq (Some u) (Some p)) w' =
    (mkResponse 200 (BAuth (sign (secret cfg) id (now_ms ev') None) (JsString.user_url u)), w')) /\
  (forall now, verifyUserLogged (secret cfg) now (Some (sign (secret cfg) id (now_ms ev) None)) = Some id).
Proof.
  intros Hdb Hdb' Hu He Hp Hsel. cbv zeta.
  assert (p <> "") by (apply length_nonempty; lia).
  pose proof (email_test_nonempty e He).
  split; [|split; [|split]].
  - rewrite register_fields by done. apply register_valid_fresh; done.
  - rewrite login_fields by done. f_equal. unfold login_valid. rewrite Hdb'.
    rewrite (Regex.email_test_isValidEmail e He), select_by_email_registered by done.
    simpl. rewrite pw_verify_hash. done.
  - intros Hnot. rewrite login_fields by done. f_equal. unfold login_valid. rewrite Hdb'.
    rewrite Hnot, select_by_username_registered by done.
    simpl. rewrite pw_verify_hash. done.
  - intros now. apply verifyUserLogged_spec. eexists. split; [done|]. split; [done|].
    simpl. done.
Qed.

(** (C2) While the database answers: a registration whose user name or
    e-mail matches an existing row (under the table's collation) is
    refused with 400 and leaves the world unchanged. The fields flagged in
    [errorValues] are those that equal, as JavaScript strings, the user
    name and e-mail of the FIRST matching row only. *)
Theorem register_duplicate_rejected (ev : env) (u e p : string) (w : world) (a : account) :
  db_error ev = None -> u <> "" -> Regex.email_test e = true -> (8 <= String.length p)%nat ->
  In a (rows (users w)) -> (coll_eq (acc_email a) e || coll_eq (acc_username a) u) = true ->
  exists b rest, select_email_or_username e u (users w) = b :: rest /\
  register cfg ev (mkRegReq (Some u) (Some e) (Some p) (Some p)) w =
    (mkResponse 400 (BErrors "User already exists!"
       [("username", if String.eqb (acc_username b) u then Some u else None);
        ("email", if String.eqb (acc_email b) e then Some e else None)]), w).
Proof.
  intros Hdb Hu He Hp Ha Hm.
  assert (p <> "") by (apply length_nonempty; lia).
  pose proof (email_test_nonempty e He).
  destruct (select_email_or_username e u (users w)) as [|b rest] eqn:Hsel.
  - unfold select_email_or_username in Hsel. rewrite (filter_nil_false _ _ Hsel a Ha) in Hm. done.
  - exists b, rest. split; [done|].
    rewrite register_fields by done. apply (register_valid_taken _ _ _ _ _ _ _ _ rest); done.
Qed.

(** A password shorter than 8 characters is refused with 400 whatever
    the table holds and whatever the confirmation is, once the fields are
    present and the e-mail is well formed; the world is unchanged. *)
Theorem register_short_password (ev : env) (u e p cp : string) (w : world) :
  u <> "" -> p <> "" -> cp <> "" -> Regex.email_test e = true -> (String.length p < 8)%nat ->
  register cfg ev (mkRegReq (Some u) (Some e) (Some p) (Some cp)) w =
    (mkResponse 400 (BErrors "Password must be at least 8 characters long!" [("password", Some p)]), w).
Proof.
  intros Hu Hp Hcp He Hlen. rewrite register_fields by auto using email_test_nonempty.
  unfold register_valid, register_checks. rewrite He. simpl.
  destruct (Nat.ltb_spec (String.length p) 8); [done|lia].
Qed.

(** (C3) No account enumeration: every failed password login (any answer
    other than 200) is the same response whatever the table holds, so an
    unknown user name and a wrong password are answered identically. *)
Theorem login_failure_uniform (ev : env) (rq : login_req) (w1 w2 : world) :
  status (fst (login cfg ev rq w1)) <> 200%Z ->
  status (fst (login cfg ev rq w2)) <> 200%Z ->
  fst (login cfg ev rq w1) = fst (login cfg ev rq w2).
Proof.
  intros H1 H2. destruct rq as [[u|] [p|]]; unfold login in *; try done.
  destruct (js_truthy (Some u) && js_truthy (Some p)); [|done]. simpl in *.
  destruct (read_error (db_error ev)) eqn:Hdb; [unfold login_valid; rewrite Hdb; done|].
  destruct (login_valid_cases cfg ev u p w1 Hdb) as [->|[a1 Ha1]]; [|rewrite Ha1 in H1; done].
  destruct (login_valid_cases cfg ev u p w2 Hdb) as [->|[a2 Ha2]]; [|rewrite Ha2 in H2]; done.
Qed.

(** A wrong password for an existing account is refused with the
    generic 401. *)
Theorem login_wrong_password (ev : env) (u p q : string) (salt : Z) (a : account) (w : world) :
  db_error ev = None -> u <> "" -> p <> "" -> q <> p ->
  (if JsString.isValidEmail u then select_by_email u (users w) else select_by_username u (users w)) = [a] ->
  acc_hashPassword a = pw_hash salt q ->
  login cfg ev (mkLoginReq (Some u) (Some p)) w = (auth_failed u p, w).
Proof.
  intros Hdb Hu Hp Hq Hsel Hh. rewrite login_fields by done. f_equal.
  unfold login_valid. rewrite Hdb, Hsel, Hh, pw_verify_other; done.
Qed.

(** (C30) While the database answers: a user name that looks like an
    e-mail ([includes('@')], [includes('.')], first ['@'] before the last
    ['.']) is accepted at registration, but the login looks such a name up
    in the [email] column: when no row has that e-mail, the user cannot
    log in with the user name and the right password. *)
Theorem email_shaped_username_cannot_login (ev ev' : env) (u e p : string) (w : world) :
  db_error ev = None -> db_error ev' = None ->
  u <> "" -> Regex.email_test e = true -> (8 <= String.length p)%nat ->
  select_email_or_username e u (users w) = [] ->
  JsString.isValidEmail u = true -> coll_eq e u = false ->
  select_by_email u (users w) = [] ->
  fst (register cfg ev (mkRegReq (Some u) (Some e) (Some p) (Some p)) w) =
    mkResponse 201 (BAuth (sign (secret cfg) (auto_inc (users w)) (now_ms ev) None) (JsString.user_url u)) /\
  login cfg ev' (mkLoginReq (Some u) (Some p)) (registered_world ev u e p w) =
    (auth_failed u p, registered_world ev u e p w).
Proof.
  intros Hdb Hdb' Hu He Hp Hsel Hv Hcoll Hem.
  assert (p <> "") by (apply length_nonempty; lia).
  split.
  - rewrite register_fields by auto using email_test_nonempty.
    rewrite register_valid_fresh; done.
  - rewrite login_fields by done. f_equal. unfold login_valid. rewrite Hdb', Hv.
    unfold select_by_email. simpl. rewrite filter_app_single by done. simpl.
    rewrite Hcoll. done.
Qed.

(** The 400 answer for missing fields cannot tell a missing user
    name from a valid one: [!username ? username : undefined] echoes
    [undefined] for both, although the comment of line 78 reads
    [undefined] as "correct". *)
Theorem missing_username_reported_as_valid (ev : env) (u : string) (e p cp : option string) (w : world) :
  u <> "" -> js_truthy e = false ->
  register cfg ev (mkRegReq None e p cp) w = register cfg ev (mkRegReq (Some u) e p cp) w.
Proof.
  intros Hu He.
  assert (missing_fields (mkRegReq None e p cp) = missing_fields (mkRegReq (Some u) e p cp)) as Hm.
  { unfold missing_fields. simpl. replace (js_falsy_echo (Some u)) with (@None string); [done|].
    unfold js_falsy_echo. rewrite js_truthy_Some; done. }
  unfold register. destruct e as [e'|]; [|rewrite Hm; destruct p, cp; done].
  rewrite He, andb_false_r. simpl. rewrite Hm. destruct p, cp; done.
Qed.

(** ** The e-mail verification handshake *)

Lemma verify_code_Ok (uid now now' : Z) :
  (now' / 1000 < now / 1000 + one_hour)%Z ->
  verify (secret cfg) now' (sign (secret cfg) uid now (Some one_hour)) =
    Ok (mkClaims uid (now / 1000) (Some (now / 1000 + one_hour)%Z)).
Proof.
  intros H. apply verify_Ok. split; [done|]. intros e [= <-]. done.
Qed.

(** (C4) While the database answers: the verification handshake: a
    logged-in user whose account exists asks for a code; the handler
    answers 200 and hands Resend one e-mail, to the account's address,
    holding a one-hour code for the user's id. Redeeming that code within
    the hour answers 200 and sets [verifiedEmail] on the account;
    redeeming it again answers 200 and changes nothing. *)
Theorem verify_email_handshake (ev ev' : env) (bearer : option token) (outcome : option string)
    (uid : Z) (a : account) (w : world) :
  db_error ev = None -> db_error ev' = None ->
  verifyUserLogged (secret cfg) (now_ms ev) bearer = Some uid ->
  select_by_id uid (users w) = [a] ->
  (now_ms ev' / 1000 < now_ms ev / 1000 + one_hour)%Z ->
  let code := sign (secret cfg) uid (now_ms ev) (Some one_hour) in
  let w1 := mkWorld (users w) (outbox w ++ [mkMail (acc_email a) code]) in
  let w2 := set_users w1 (snd (update_verified uid (users w))) in
  verify_email_request cfg ev bearer outcome w =
    (Ok (mkResponse 200 (BMessage "Verification email sent!")), w1) /\
  verify_email_redeem cfg ev' code w1 = (mkResponse 200 (BMessage "Email verified!"), w2) /\
  (forall b, In b (rows (users w2)) -> acc_id b = uid -> acc_verifiedEmail b = true) /\
  verify_email_redeem cfg ev' code w2 = (mkResponse 200 (BMessage "Email verified!"), w2).
Proof.
  intros Hdb Hdb' Hauth Hsel Hnow. cbv zeta.
  split; [|split; [|split]].
  - unfold verify_email_request. rewrite Hauth, Hdb, Hsel. done.
  - rewrite (verify_email_redeem_Ok cfg ev' _ _ _ (verify_code_Ok uid _ _ Hnow)), Hdb'.
    simpl. rewrite Hsel. done.
  - intros b Hb Hid. eapply update_verified_sets; [exact Hb|done].
  - rewrite (verify_email_redeem_Ok cfg ev' _ _ _ (verify_code_Ok uid _ _ Hnow)), Hdb'.
    cbn [users set_users write_error]. rewrite update_verified_idem.
    unfold update_verified at 1. rewrite Hsel. done.
Qed.

(** (C5) A verification code redeemed once its hour has passed is
    refused (with 500: [jwt.verify] throws [TokenExpiredError]) and the
    world, [verifiedEmail] included, is unchanged. *)
Theorem verify_code_expired (ev ev' : env) (uid : Z) (w : world) :
  (now_ms ev / 1000 + one_hour <= now_ms ev' / 1000)%Z ->
  verify_email_redeem cfg ev' (sign (secret cfg) uid (now_ms ev) (Some one_hour)) w =
    (mkResponse 500 (BCaught "Error verifying email!"
                       (ThrownJwt (TokenExpiredError (now_ms ev / 1000 + one_hour)))), w).
Proof. intros H. unfold verify_email_redeem. rewrite verify_sign_expired by done. done. Qed.

(** (C15) The redemption route never answers 400: [jwt.verify] already
    rejects an expired token, so the [Token expired!] branch of line 248
    is unreachable and expired codes get the 500 of the [catch]. *)
Theorem redeem_never_400 (ev : env) (code : token) (w : world) :
  status (fst (verify_email_redeem cfg ev code w)) <> 400%Z.
Proof.
  destruct (verify (secret cfg) (now_ms ev) code) as [c|err] eqn:Hv.
  - rewrite (verify_email_redeem_Ok cfg ev code c w Hv).
    destruct (write_error (db_error ev)); [done|].
    destruct (update_verified (cl_id c) (users w)) as [n t'].
    destruct (n =? 0)%Z; done.
  - unfold verify_email_redeem. rewrite Hv. done.
Qed.

(** (C14) While the database answers: any token without expiry, such as
    the token [register] and [login] return, is accepted as a verification
    code at any time: it verifies the e-mail of its account without any
    e-mail being sent. *)
Theorem login_token_verifies_email (ev ev' : env) (uid : Z) (w : world) :
  db_error ev' = None -> List.length (select_by_id uid (users w)) <> 0%nat ->
  verify_email_redeem cfg ev' (sign (secret cfg) uid (now_ms ev) None) w =
    (mkResponse 200 (BMessage "Email verified!"), set_users w (snd (update_verified uid (users w)))).
Proof.
  intros Hdb Hn. rewrite (verify_email_redeem_Ok cfg ev' _ (mkClaims uid (now_ms ev / 1000) None)), Hdb.
  - simpl. destruct (Z.eqb_spec (Z.of_nat (List.length (select_by_id uid (users w)))) 0); [lia|done].
  - apply verify_Ok. split; [done|]. done.
Qed.

(** ** Google login and the Resend call *)

(** (C8) While the database answers: a Google login whose e-mail does not
    match exactly one row never creates the account: the INSERT of line
    204 lists six columns with five placeholders, the server rejects it,
    and the handler answers 500 with the world unchanged. *)
Theorem login_google_new_user_fails (ev : env) (tokeninfo : string -> tokeninfo_answer)
    (tk email : string) (gu : google_user) (w : world) :
  db_error ev = None -> tk <> "" -> tokeninfo tk = TOk gu -> g_email gu = Some email ->
  List.length (select_by_email email (users w)) <> 1%nat ->
  login_google cfg ev tokeninfo (Some tk) w =
    (mkResponse 500 (BCaught "Something went wrong during login!" (ThrownSql ER_WRONG_VALUE_COUNT_ON_ROW)), w).
Proof.
  intros Hdb Htk Hti Hem Hlen. unfold login_google. rewrite js_truthy_Some by done.
  rewrite Hti, Hdb, Hem.
  assert (login_google_insert cfg ev email (g_id gu) w =
          (mkResponse 500 (BCaught "Something went wrong during login!" (ThrownSql ER_WRONG_VALUE_COUNT_ON_ROW)), w))
    as Hins.
  { unfold login_google_insert. rewrite Hdb. cbn [write_error]. rewrite insert_users_count_mismatch; simpl; try lia; done. }
  destruct (select_by_email email (users w)) as [|a [|b rest]]; simpl in Hlen; try done; lia.
Qed.

(** (C16) While the database answers: the answer to a verification request
    does not depend on what the Resend API reports: even when it refuses
    the e-mail, the handler answers 200 (the promise is not awaited and
    [error] is read from the promise itself). *)
Theorem verify_email_request_ignores_resend_error (ev : env) (bearer : option token) (err : string)
    (uid : Z) (a : account) (w : world) :
  db_error ev = None ->
  verifyUserLogged (secret cfg) (now_ms ev) bearer = Some uid ->
  select_by_id uid (users w) = [a] ->
  fst (verify_email_request cfg ev bearer (Some err) w) =
    Ok (mkResponse 200 (BMessage "Verification email sent!")).
Proof. intros Hdb Hauth Hsel. unfold verify_email_request. rewrite Hauth, Hdb, Hsel. done. Qed.

(** ** The registration's random avatar *)

(** [Math.floor(Math.random() * 6)] is one of the six avatars 0..5:
    for [0 <= r < 1], the index lies in [[0, 5]]. *)
Theorem avatar_index_bounds (r : Q) :
  (0 <= r)%Q -> (r < 1)%Q -> (0 <= avatar_index r <= 5)%Z.
Proof.
  intros H0 H1. unfold avatar_index. split.
  - assert (0 <= r * 6)%Q as H6.
    { apply (Qmult_le_0_compat r 6); [done|discriminate]. }
    apply (Qfloor_resp_le 0 (r * 6)) in H6. done.
  - assert (r * 6 < 6)%Q as H6.
    { rewrite <- (Qmult_1_l 6) at 2. apply Qmult_lt_r; [reflexivity|done]. }
    pose proof (Qfloor_le (r * 6)) as Hf.
    assert (inject_Z (Qfloor (r * 6)) < inject_Z 6)%Q as Hlt by (eapply Qle_lt_trans; eauto).
    rewrite <- Zlt_Qlt in Hlt. lia.
Qed.

(** Login answers with the same status for two names the table's
    collation does not tell apart, when both are e-mail shaped or neither
    is. *)
Lemma login_valid_status_coll (ev : env) (x y q : string) (w : world) :
  coll_equiv x y -> JsString.isValidEmail x = JsString.isValidEmail y ->
  status (login_valid cfg ev x q w) = status (login_valid cfg ev y q w).
Proof.
  intros Hxy Hv. unfold login_valid. destruct (read_error (db_error ev)); [done|]. rewrite Hv.
  assert (select_by_email x (users w) = select_by_email y (users w)) as -> by (rewrite Hxy; done).
  assert (select_by_username x (users w) = select_by_username y (users w)) as -> by (rewrite Hxy; done).
  destruct (JsString.isValidEmail y); repeat case_match; done.
Qed.

End Props.

(** ** Examples: the handlers run on concrete requests

    With the concrete keyed hash [toy_hs256], the hasher [toy_hasher] and
    the binary collation. *)

Definition cfg0 : config := mkConfig "s3cret".
Definition ev0 : env := mkEnv 1700000000000 42 (1#3) (5, 3, 2024)%Z None.
Definition ev1 : env := mkEnv 1700001800000 7 (5#6) (5, 3, 2024)%Z None.
Definition ev2 : env := mkEnv 1700003600000 9 (0#1) (5, 3, 2024)%Z None.
Definition w0 : world := mkWorld (mkTable [] 1) [].
Definition alice_row : account := new_row ev0 "alice" "a@b.com" "longpass1" w0.
Definition w1 : world := registered_world ev0 "alice" "a@b.com" "longpass1" w0.

(** The token [register] returned to alice, and the code of her
    verification e-mail. *)
Definition alice_token : token := sign "s3cret" 1 (now_ms ev0) None.
Definition alice_code : token := sign "s3cret" 1 (now_ms ev0) (Some one_hour).

(** Two rows, one holding the e-mail and a later one the user name of
    the request. *)
Definition carol_row : account :=
  inserted_row 1 "carol" "a@b.com" "h1" "01/01/2024" "carol" "uploads/defaultAvatars/0.svg".
Definition alice_row2 : account :=
  inserted_row 2 "alice" "z@y.com" "h2" "01/01/2024" "alice" "uploads/defaultAvatars/1.svg".
Definition wdup : world := mkWorld (mkTable [carol_row; alice_row2] 3) [].

Lemma register_then_login_witness :
  login cfg0 ev1 (mkLoginReq (Some "a@b.com") (Some "longpass1")) w1 =
    (mkResponse 200 (BAuth (sign "s3cret" 1 (now_ms ev1) None) "alice"), w1).
Proof.
  destruct (register_then_login cfg0 ev0 ev1 "alice" "a@b.com" "longpass1" w0
              ltac:(reflexivity) ltac:(reflexivity) ltac:(discriminate) ltac:(reflexivity) ltac:(simpl; lia) ltac:(reflexivity))
    as (_ & H & _).
  exact H.
Defined.

Lemma register_duplicate_rejected_witness :
  register cfg0 ev0 (mkRegReq (Some "alice") (Some "a@b.com") (Some "longpass1") (Some "longpass1")) wdup =
    (mkResponse 400 (BErrors "User already exists!" [("username", None); ("email", Some "a@b.com")]), wdup).
Proof.
  destruct (register_duplicate_rejected cfg0 ev0 "alice" "a@b.com" "longpass1" wdup alice_row2
              ltac:(reflexivity) ltac:(discriminate) ltac:(reflexivity) ltac:(simpl; lia) ltac:(simpl; auto) ltac:(reflexivity))
    as (b & rest & Hsel & Hreg).
  rewrite Hreg. vm_compute in Hsel. injection Hsel as <- <-. reflexivity.
Defined.

Lemma register_short_password_witness :
  register cfg0 ev0 (mkRegReq (Some "alice") (Some "a@b.com") (Some "short") (Some "other")) w1 =
    (mkResponse 400 (BErrors "Password must be at least 8 characters long!" [("password", Some "short")]), w1).
Proof.
  exact (register_short_password cfg0 ev0 "alice" "a@b.com" "short" "other" w1
           ltac:(discriminate) ltac:(discriminate) ltac:(discriminate) ltac:(reflexivity) ltac:(simpl; lia)).
Defined.

Lemma login_failure_uniform_witness :
  fst (login cfg0 ev1 (mkLoginReq (Some "alice") (Some "wrongpass")) w0) =
  fst (login cfg0 ev1 (mkLoginReq (Some "alice") (Some "wrongpass")) w1).
Proof.
  exact (login_failure_uniform cfg0 ev1 (mkLoginReq (Some "alice") (Some "wrongpass")) w0 w1
           ltac:(vm_compute; discriminate) ltac:(vm_compute; discriminate)).
Defined.

Lemma login_wrong_password_witness :
  login cfg0 ev1 (mkLoginReq (Some "alice") (Some "wrongpass")) w1 = (auth_failed "alice" "wrongpass", w1).
Proof.
  exact (login_wrong_password cfg0 ev1 "alice" "wrongpass" "longpass1" 42 alice_row w1
           ltac:(reflexivity) ltac:(discriminate) ltac:(discriminate) ltac:(discriminate) ltac:(reflexivity) ltac:(reflexivity)).
Defined.

Lemma verify_email_handshake_witness :
  verify_email_redeem cfg0 ev1 (sign "s3cret" 1 (now_ms ev0) (Some one_hour))
    (mkWorld (users w1) (outbox w1 ++ [mkMail "a@b.com" (sign "s3cret" 1 (now_ms ev0) (Some one_hour))])) =
  (mkResponse 200 (BMessage "Email verified!"),
   set_users (mkWorld (users w1) (outbox w1 ++ [mkMail "a@b.com" (sign "s3cret" 1 (now_ms ev0) (Some one_hour))]))
             (snd (update_verified 1 (users w1)))).
Proof.
  destruct (verify_email_handshake (HS:=toy_hs256) cfg0 ev0 ev1 (Some alice_token) None 1 alice_row w1
              ltac:(reflexivity) ltac:(reflexivity) ltac:(vm_compute; reflexivity) ltac:(vm_compute; reflexivity) ltac:(vm_compute; reflexivity))
    as (_ & H & _).
  exact H.
Defined.

Lemma verify_code_expired_witness :
  verify_email_redeem cfg0 ev2 (sign "s3cret" 1 (now_ms ev0) (Some one_hour)) w1 =
    (mkResponse 500 (BCaught "Error verifying email!" (ThrownJwt (TokenExpiredError (now_ms ev0 / 1000 + one_hour)))),
     w1).
Proof.
  exact (verify_code_expired cfg0 ev0 ev2 1 w1 ltac:(vm_compute; discriminate)).
Defined.

Lemma login_token_verifies_email_witness :
  verify_email_redeem cfg0 ev2 (sign "s3cret" 1 (now_ms ev0) None) w1 =
    (mkResponse 200 (BMessage "Email verified!"), set_users w1 (snd (update_verified 1 (users w1)))).
Proof.
  exact (login_token_verifies_email cfg0 ev0 ev2 1 w1 ltac:(reflexivity) ltac:(vm_compute; discriminate)).
Defined.

Definition google_answer (tk : string) : tokeninfo_answer :=
  if String.eqb tk "ya29.token" then TOk (mkGoogleUser (Some "zed@gmail.com") (Some "1234")) else TNotOk.

Lemma login_google_new_user_fails_witness :
  login_google cfg0 ev0 google_answer (Some "ya29.token") w1 =
    (mkResponse 500 (BCaught "Something went wrong during login!" (ThrownSql ER_WRONG_VALUE_COUNT_ON_ROW)), w1).
Proof.
  exact (login_google_new_user_fails cfg0 ev0 google_answer "ya29.token" "zed@gmail.com"
           (mkGoogleUser (Some "zed@gmail.com") (Some "1234")) w1
           ltac:(reflexivity) ltac:(discriminate) ltac:(reflexivity) ltac:(reflexivity) ltac:(vm_compute; discriminate)).
Defined.

Lemma verify_email_request_ignores_resend_error_witness :
  fst (verify_email_request cfg0 ev0 (Some alice_token) (Some "domain not verified") w1) =
    Ok (mkResponse 200 (BMessage "Verification email sent!")).
Proof.
  exact (verify_email_request_ignores_resend_error (HS:=toy_hs256) cfg0 ev0 (Some alice_token)
           "domain not verified" 1 alice_row w1 ltac:(reflexivity) ltac:(vm_compute; reflexivity) ltac:(vm_compute; reflexivity)).
Defined.

Lemma avatar_index_bounds_witness : (0 <= avatar_index (1#3) <= 5)%Z.
Proof. exact (avatar_index_bounds (1#3) ltac:(vm_compute; discriminate) ltac:(reflexivity)). Defined.

Lemma email_shaped_username_cannot_login_witness :
  login cfg0 ev1 (mkLoginReq (Some "bob@x.y") (Some "longpass1"))
        (registered_world ev0 "bob@x.y" "bob@mail.com" "longpass1" w0) =
    (auth_failed "bob@x.y" "longpass1", registered_world ev0 "bob@x.y" "bob@mail.com" "longpass1" w0).
Proof.
  destruct (email_shaped_username_cannot_login cfg0 ev0 ev1 "bob@x.y" "bob@mail.com" "longpass1" w0
              ltac:(reflexivity) ltac:(reflexivity) ltac:(discriminate) ltac:(reflexivity) ltac:(simpl; lia) ltac:(reflexivity)
              ltac:(reflexivity) ltac:(reflexivity) ltac:(reflexivity))
    as (_ & H).
  exact H.
Defined.

Lemma missing_username_reported_as_valid_witness :
  register cfg0 ev0 (mkRegReq None None (Some "longpass1") (Some "longpass1")) w0 =
  register cfg0 ev0 (mkRegReq (Some "alice") None (Some "longpass1") (Some "longpass1")) w0.
Proof.
  exact (missing_username_reported_as_valid cfg0 ev0 "alice" None (Some "longpass1") (Some "longpass1") w0
           ltac:(discriminate) ltac:(reflexivity)).
Defined.

(** Under a case-insensitive collation (MySQL's default), alice logs in
    with her e-mail in capitals. *)
Example login_case_insensitive :
  status (login_valid (CO:=ascii_ci_collation) cfg0 ev0 "A@B.COM" "longpass1" w1) = 200%Z.
Proof.
  rewrite (login_valid_status_coll (CO:=ascii_ci_collation) cfg0 ev0 "A@B.COM" "a@b.com");
    [vm_compute; reflexivity..].
Qed.

End AuthProps.
