(* ===== verification/Server.v ===== *)
(** * The authentication router as a transition system

    [handle] dispatches a request to the handler of its route, as the
    [router.post]/[router.get] registrations of auth.js do. [step] lets any
    request, at any time and with any answer from Google, run to
    completion on the world; [reachable] is the closure from the empty
    table. Requests run one after the other here (the interleaving of
    their awaited phases is not part of this file). The theorems: the
    table stays well formed and the login keys stay unique, every code in
    the outbox is addressed to the owner of its id, and a step only ever
    extends the table, never renaming, re-keying or un-verifying a row. *)

From S2P Require Import Prelude JsString Regex Jwt Password UsersDb Auth AuthProps.

Module Server.
Import Jwt Password UsersDb Auth.

Inductive request :=
| RqRegister (rq : reg_req)
| RqLogin (rq : login_req)
| RqLoginGoogle (token : option string)
| RqVerifyEmail (bearer : option token) (resend_outcome : option string)
| RqVerifyEmailCode (code : token).

Section Server.
Context {HS : Hs256} {PH : PasswordHasher} {CO : Collation}.
Variable cfg : config.

(** A handler that always sends an answer. *)
Definition answered (p : response * world) : result response string * world := (Ok (fst p), snd p).

(** The routes of auth.js (lines 71, 157, 186, 220 and 243): the answer
    sent, or the error the handler's promise rejects with. *)
Definition handle (tokeninfo : string -> tokeninfo_answer) (ev : env) (rq : request) (w : world)
    : result response string * world :=
  match rq with
  | RqRegister r => answered (register cfg ev r w)
  | RqLogin r => answered (login cfg ev r w)
  | RqLoginGoogle tk => answered (login_google cfg ev tokeninfo tk w)
  | RqVerifyEmail bearer out => verify_email_request cfg ev bearer out w
  | RqVerifyEmailCode code => answered (verify_email_redeem cfg ev code w)
  end.

Inductive step : world -> world -> Prop :=
| Step tokeninfo ev rq w : step w (snd (handle tokeninfo ev rq w)).

Definition init_world : world := mkWorld (mkTable [] 1) [].

Inductive reachable : world -> Prop :=
| reach_init : reachable init_world
| reach_step w w' : reachable w -> step w w' -> reachable w'.

(** ** The response contract

    The shape of each answer of the router, as the route table of the API
    describes it: a token and a handle only with 200 or 201, a plain
    message with 200 or an error status, error details with a 4xx, the
    middleware's rejection with 401, the caught exception with 500. *)
Inductive resp_typed : response -> Prop :=
| rt_auth (s : Z) (tok : token) (url : string) :
    s = 200%Z \/ s = 201%Z -> resp_typed (mkResponse s (BAuth tok url))
| rt_message (s : Z) (m : string) :
    s = 200%Z \/ (400 <= s < 600)%Z -> resp_typed (mkResponse s (BMessage m))
| rt_errors (s : Z) (m : string) (ev : list (string * option string)) :
    (400 <= s < 500)%Z -> resp_typed (mkResponse s (BErrors m ev))
| rt_text (s : Z) (m : string) : (400 <= s < 500)%Z -> resp_typed (mkResponse s (BText m))
| rt_unauthorized : resp_typed (mkResponse 401 BUnauthorized)
| rt_caught (m : string) (err : thrown) : resp_typed (mkResponse 500 (BCaught m err)).

#[local] Hint Constructors resp_typed : ff.

(** An answer has its shape; a rejection sends nothing. *)
Definition answer_typed (o : result response string) : Prop :=
  match o with Ok r => resp_typed r | Err _ => True end.

(** ** Invariants *)

(** Every e-mail handed to Resend holds a one-hour code for the id of a
    row and is addressed to that row's e-mail. *)
Definition outbox_addressed (w : world) : Prop :=
  Forall (fun m => exists a t0, In a (rows (users w)) /\ mail_to m = acc_email a /\
                               mail_code m = sign (secret cfg) (acc_id a) t0 (Some one_hour))
         (outbox w).

(** What every interleaving of requests keeps: a well-formed table and
    an addressed outbox. *)
Definition core_inv (w : world) : Prop := table_wf (users w) /\ outbox_addressed w.

(** What requests run one at a time keep in addition: unique logins. *)
Definition world_inv (w : world) : Prop := core_inv w /\ logins_unique (rows (users w)).

(** A row of the old table and its image in the new one: same id, same
    keys, and verified if it was. *)
Definition row_le (a b : account) : Prop :=
  acc_id b = acc_id a /\ acc_email b = acc_email a /\ acc_username b = acc_username a /\
  (acc_verifiedEmail a = true -> acc_verifiedEmail b = true).

Definition table_grows (t t' : table) : Prop :=
  exists pre post, rows t' = (pre ++ post)%list /\ Forall2 row_le (rows t) pre /\ (auto_inc t <= auto_inc t')%Z.

(** ** Lemmas *)

Lemma row_le_refl (a : account) : row_le a a.
Proof. unfold row_le. auto. Qed.

Lemma row_le_update (id : Z) (a : account) :
  row_le a (if Z.eqb (acc_id a) id then set_verified a else a).
Proof.
  destruct (Z.eqb (acc_id a) id); [|apply row_le_refl].
  destruct a. unfold row_le. simpl. auto.
Qed.

#[local] Hint Resolve row_le_refl row_le_update : ff.
#[local] Hint Resolve table_wf_insert table_wf_update : ff.

Lemma table_grows_refl (t : table) : table_grows t t.
Proof.
  exists (rows t), []. rewrite app_nil_r. split; [done|]. split; [|lia].
  apply Forall2_same_length_lookup. split; [done|]. intros i a b -> [= ->]. apply row_le_refl.
Qed.

Lemma table_grows_insert (t : table) (a : account) :
  table_grows t (mkTable (rows t ++ [a]) (auto_inc t + 1)).
Proof.
  exists (rows t), [a]. split; [done|]. split; [|simpl; lia].
  apply Forall2_same_length_lookup. split; [done|]. intros i b c -> [= ->]. apply row_le_refl.
Qed.

Lemma table_grows_update (id : Z) (t : table) : table_grows t (snd (update_verified id t)).
Proof.
  exists (rows (snd (update_verified id t))), []. rewrite app_nil_r. split; [done|]. split; [|simpl; lia].
  simpl. apply Forall2_fmap_r. apply Forall_Forall2_diag. apply Forall_forall. intros a _.
  apply row_le_update.
Qed.

(** A row kept by a growing table is still there, with the same id and
    e-mail. *)
Lemma table_grows_in (t t' : table) (a : account) :
  table_grows t t' -> In a (rows t) -> exists b, In b (rows t') /\ row_le a b.
Proof.
  intros (pre & post & Hrows & Hle & _) Ha. rewrite Hrows. clear Hrows.
  induction Hle as [|x y l l' Hxy Hll IH]; [done|].
  destruct Ha as [->|Ha]; [exists y; simpl; auto|].
  destruct (IH Ha) as (b & Hb & Hab). exists b. simpl. auto.
Qed.

Lemma outbox_addressed_grows (w w' : world) :
  table_grows (users w) (users w') -> outbox w' = outbox w ->
  outbox_addressed w -> outbox_addressed w'.
Proof.
  intros Hg Ho Hf. unfold outbox_addressed in *. rewrite Ho. eapply Forall_impl; [exact Hf|].
  intros m (a & t0 & Ha & Hto & Hcode).
  destruct (table_grows_in _ _ _ Hg Ha) as (b & Hb & Hid & He & _).
  exists b, t0. rewrite Hid, He. done.
Qed.

(** ** The step only extends the table *)

(** (C7) Every request leaves the table grown: the old rows are kept in
    order with their ids, e-mails and user names, a verified row stays
    verified, rows are only ever appended, and the AUTO_INCREMENT counter
    never decreases, so an id is never reused. *)
Theorem step_grows (w w' : world) : step w w' -> table_grows (users w) (users w').
Proof.
  intros [ti ev rq w0]. destruct rq as [r|r|tk|bearer out|code]; simpl.
  - destruct (register_effect cfg ev r w0) as [->|(u & e & p & _ & _ & _ & _ & ->)];
      [apply table_grows_refl|apply table_grows_insert].
  - rewrite login_world. apply table_grows_refl.
  - rewrite login_google_world. apply table_grows_refl.
  - destruct (verify_email_request_effect cfg ev bearer out w0) as [->|(uid & a & _ & ->)];
      apply table_grows_refl.
  - destruct (verify_email_redeem_effect cfg ev code w0) as [->|[id ->]];
      [apply table_grows_refl|apply table_grows_update].
Qed.

(** (C22) Every answer of the router has the shape of the route table:
    tokens only with 200 or 201, error details only with a 4xx, the
    middleware's rejection only with 401, a caught exception only with
    500. *)
Theorem handle_typed (tokeninfo : string -> tokeninfo_answer) (ev : env) (rq : request) (w : world) :
  answer_typed (fst (handle tokeninfo ev rq w)).
Proof.
  destruct rq; simpl; unfold answered;
    unfold register, register_valid, register_checks, register_insert, missing_fields, login,
      login_valid, auth_failed, login_google, login_google_insert, verify_email_request,
      verify_email_redeem;
    repeat case_match; simplify_eq/=; constructor; lia.
Qed.

(** The same request against a database that answers. *)
Definition db_ok (ev : env) : env := mkEnv (now_ms ev) (bcrypt_salt ev) (random ev) (today ev) None.

(** (C34) A failing database leaves the [users] table as it was. When
    the pool is down, no auth request changes the world or succeeds:
    every route answers with an error status after the checks that
    precede its first query, except [POST /verifyEmail], whose SELECT is
    outside any [try]: its promise rejects with the database's error and
    the route sends nothing. When only the writes fail, every request
    answers as against a database that answers (logins and the
    verification request included), except that a registration that
    would have got 201 gets 500 'Something went wrong during
    registration!' and a redemption that would have got 200 gets 500
    'Error verifying email!', the world unchanged; a first Google login,
    whose INSERT the server refuses anyway, and a redemption for an id
    no row has, whose 500 reports a [ReferenceError], report the
    database's error instead. Each of these 500s carries the database's
    error to the client. *)
Theorem db_error_no_effect (tokeninfo : string -> tokeninfo_answer) (ev : env) (rq : request) (w : world)
    (e : string) :
  (db_error ev = Some (PoolDown e) ->
   snd (handle tokeninfo ev rq w) = w /\
   match fst (handle tokeninfo ev rq w) with
   | Ok r => (400 <= status r < 600)%Z
   | Err e' => e' = e /\ exists bearer out, rq = RqVerifyEmail bearer out
   end) /\
  (db_error ev = Some (WriteFails e) ->
   users (snd (handle tokeninfo ev rq w)) = users w /\
   handle tokeninfo ev rq w =
     match rq, fst (handle tokeninfo (db_ok ev) rq w) with
     | RqRegister _, Ok r =>
         if (status r =? 201)%Z
         then (Ok (mkResponse 500 (BCaught "Something went wrong during registration!" (ThrownDb e))), w)
         else handle tokeninfo (db_ok ev) rq w
     | RqLoginGoogle _, Ok (mkResponse st (BCaught m (ThrownSql _))) =>
         (Ok (mkResponse st (BCaught m (ThrownDb e))), w)
     | RqVerifyEmailCode _, Ok (mkResponse st (BCaught m (ThrownOther _))) =>
         (Ok (mkResponse st (BCaught m (ThrownDb e))), w)
     | RqVerifyEmailCode _, Ok r =>
         if (status r =? 200)%Z
         then (Ok (mkResponse 500 (BCaught "Error verifying email!" (ThrownDb e))), w)
         else handle tokeninfo (db_ok ev) rq w
     | _, _ => handle tokeninfo (db_ok ev) rq w
     end).
Proof.
  split; intros Hdb.
  - destruct rq; simpl; unfold answered;
      unfold register, register_valid, register_checks, register_insert, missing_fields, login, login_valid,
        auth_failed, login_google, login_google_insert, verify_email_request, verify_email_redeem;
      rewrite ?Hdb; cbn [read_error write_error]; repeat case_match; simplify_eq/=; eauto with lia.
  - destruct ev as [n salt rnd td dbe]; cbn [db_error] in Hdb; subst dbe.
    destruct rq; cbn [handle]; unfold answered;
      unfold register, register_valid, register_checks, register_insert, missing_fields, login, login_valid,
        auth_failed, login_google, login_google_insert, verify_email_request, verify_email_redeem;
      cbn [db_ok now_ms bcrypt_salt random today db_error read_error write_error]; rewrite ?insert_users_six;
      repeat case_match; simplify_eq/=; try done.
    all: rewrite ?insert_users_six in *; simplify_eq/=; try done.
Qed.

Lemma core_inv_init : core_inv init_world.
Proof. split; [split; constructor|constructor]. Qed.

Lemma core_inv_register (ev : env) (u e p : string) (w : world) :
  core_inv w -> core_inv (registered_world ev u e p w).
Proof.
  intros (Hwf & Ho). split; [apply table_wf_insert; done|].
  eapply outbox_addressed_grows; [apply table_grows_insert|done|done].
Qed.

Lemma core_inv_update (id : Z) (w : world) :
  core_inv w -> core_inv (set_users w (snd (update_verified id (users w)))).
Proof.
  intros (Hwf & Ho). split; [cbn [users set_users]; auto with ff|].
  eapply outbox_addressed_grows; [apply table_grows_update|done|done].
Qed.

Lemma core_inv_mail (w : world) (uid : Z) (a : account) (t0 : Z) :
  core_inv w -> select_by_id uid (users w) = [a] ->
  core_inv (mkWorld (users w) (outbox w ++ [mkMail (acc_email a) (sign (secret cfg) uid t0 (Some one_hour))])).
Proof.
  intros (Hwf & Ho) Hsel. split; [done|].
  apply Forall_app. split; [done|]. constructor; [|constructor].
  assert (In a (select_by_id uid (users w))) as Ha by (rewrite Hsel; left; done).
  apply filter_In in Ha as [Ha Hid%Z.eqb_eq]. exists a, t0. simpl. rewrite Hid. done.
Qed.

#[local] Hint Resolve core_inv_register core_inv_update core_inv_mail : ff.

(** Every request keeps the table well formed and the outbox addressed,
    whatever the state of the other users' requests. *)
Lemma core_inv_step (w w' : world) : core_inv w -> step w w' -> core_inv w'.
Proof.
  intros Hinv Hstep. revert Hinv. destruct Hstep as [ti ev rq w0]. intros Hinv.
  destruct rq as [r|r|tk|bearer out|code]; simpl.
  - destruct (register_effect cfg ev r w0) as [->|(u & e & p & _ & _ & _ & _ & ->)]; auto with ff.
  - rewrite login_world. done.
  - rewrite login_google_world. done.
  - destruct (verify_email_request_effect cfg ev bearer out w0) as [->|(uid & a & Hsel & ->)]; eauto with ff.
  - destruct (verify_email_redeem_effect cfg ev code w0) as [->|[id ->]]; auto with ff.
Qed.

Lemma logins_unique_step (w w' : world) :
  logins_unique (rows (users w)) -> step w w' -> logins_unique (rows (users w')).
Proof.
  intros Hu Hstep. revert Hu. destruct Hstep as [ti ev rq w0]. intros Hu.
  destruct rq as [r|r|tk|bearer out|code]; simpl.
  - destruct (register_effect cfg ev r w0) as [->|(u & e & p & _ & _ & _ & Hsel & ->)]; [done|].
    simpl. apply logins_unique_snoc; [done|]. eapply select_nil_distinct; done.
  - rewrite login_world. done.
  - rewrite login_google_world. done.
  - destruct (verify_email_request_effect cfg ev bearer out w0) as [->|(uid & a & _ & ->)]; done.
  - destruct (verify_email_redeem_effect cfg ev code w0) as [->|[id ->]]; [done|].
    apply logins_unique_update. done.
Qed.

(** (C6) In every reachable world, row ids are distinct and below the
    AUTO_INCREMENT counter, no two rows share an e-mail or a user name
    (under the table's collation) when requests run one at a time, and
    every verification e-mail handed to Resend is addressed to the
    account whose id its code carries. *)
Theorem reachable_inv (w : world) : reachable w -> world_inv w.
Proof.
  induction 1 as [|w w' _ (Hcore & Hu) Hstep]; [split; [apply core_inv_init|constructor]|].
  split; [eapply core_inv_step|eapply logins_unique_step]; eauto.
Qed.

End Server.

(** ** Examples: two requests from the empty table *)

Import AuthProps.

Definition alice_register : request :=
  RqRegister (mkRegReq (Some "alice") (Some "a@b.com") (Some "longpass1") (Some "longpass1")).

Definition alice_asks_code : request := RqVerifyEmail (Some alice_token) None.

Definition no_google (tk : string) : tokeninfo_answer := TNotOk.

Definition world_1 : world := snd (handle cfg0 no_google ev0 alice_register init_world).
Definition world_2 : world := snd (handle cfg0 no_google ev0 alice_asks_code world_1).

Lemma step_grows_witness : table_grows (users world_1) (users world_2).
Proof. exact (step_grows cfg0 world_1 world_2 (Step cfg0 no_google ev0 alice_asks_code world_1)). Defined.

Lemma reachable_inv_witness : world_inv cfg0 world_2.
Proof.
  exact (reachable_inv cfg0 world_2
           (reach_step cfg0 _ _
              (reach_step cfg0 _ _ (reach_init cfg0) (Step cfg0 no_google ev0 alice_register init_world))
              (Step cfg0 no_google ev0 alice_asks_code world_1))).
Defined.

Example world_2_outbox :
  outbox world_2 = [mkMail "a@b.com" alice_code] /\ rows (users world_2) = [alice_row].
Proof. vm_compute. split; reflexivity. Qed.

(** The same request while the MySQL pool refuses connections. *)
Definition ev_db_down : env :=
  mkEnv (now_ms ev0) (bcrypt_salt ev0) (random ev0) (today ev0) (Some (PoolDown "ECONNREFUSED")).

(** The registration of [alice] while the pool refuses writes. *)
Definition ev_read_only : env :=
  mkEnv (now_ms ev0) (bcrypt_salt ev0) (random ev0) (today ev0)
    (Some (WriteFails "ER_OPTION_PREVENTS_STATEMENT")).

Lemma db_error_no_effect_witness :
  db_error ev_db_down = Some (PoolDown "ECONNREFUSED") /\
  snd (handle cfg0 no_google ev_db_down alice_asks_code world_1) = world_1 /\
  fst (handle cfg0 no_google ev_db_down alice_asks_code world_1) = Err "ECONNREFUSED" /\
  db_error ev_read_only = Some (WriteFails "ER_OPTION_PREVENTS_STATEMENT") /\
  handle cfg0 no_google ev_read_only alice_register init_world =
    (Ok (mkResponse 500 (BCaught "Something went wrong during registration!"
                           (ThrownDb "ER_OPTION_PREVENTS_STATEMENT"))), init_world) /\
  handle cfg0 no_google ev_read_only (RqVerifyEmailCode alice_code) world_2 =
    (Ok (mkResponse 500 (BCaught "Error verifying email!" (ThrownDb "ER_OPTION_PREVENTS_STATEMENT"))), world_2).
Proof.
  split; [reflexivity|].
  split; [exact (proj1 (proj1 (db_error_no_effect cfg0 no_google ev_db_down alice_asks_code world_1 _) eq_refl))|].
  split; [vm_compute; reflexivity|]. split; [reflexivity|]. split.
  - rewrite (proj2 (proj2 (db_error_no_effect cfg0 no_google ev_read_only alice_register init_world _) eq_refl)).
    vm_compute. reflexivity.
  - rewrite (proj2 (proj2 (db_error_no_effect cfg0 no_google ev_read_only (RqVerifyEmailCode alice_code) world_2 _)
                      eq_refl)).
    vm_compute. reflexivity.
Defined.

End Server.
