(* ===== verification/AuthSpec.v ===== *)
(** * An abstract account service and its refinement by the auth router

    What the authentication core promises (spec, sections 4.4, 4.5 and
    4.8), without tables, digests or tokens: a list of accounts, each
    with an id, a user name, an e-mail, its handle, its password in clear
    and its verification flag. Registration adds an account when the
    input is valid and neither key is taken (under the table's collation),
    with the next id; verification sets the flag of an id; login names an
    account by its e-mail when the name is e-mail shaped and by its user
    name otherwise, and succeeds for exactly one such account with the
    right password.

    [refines w S] relates a world of the implementation to an abstract
    state: the rows and the accounts correspond one to one, in order,
    with the same ids, keys, handles and flags, each digest being a hash
    of the account's password, and the AUTO_INCREMENT counter is the next
    abstract id. Every world that sequential requests reach refines an
    abstract state that abstract steps reach (each request is matched by
    zero or one abstract step), and on related states the password login
    answers what the abstract login says. *)

From S2P Require Import Prelude JsString Regex Jwt Password UsersDb Auth AuthProps Server.

Module AuthSpec.
Import Jwt Password UsersDb Auth Server.

Record abs_account := mkAbs {
  ab_id : Z; ab_user : string; ab_email : string; ab_url : string; ab_password : string; ab_verified : bool
}.

Record abs_state := mkAbsState { accounts : list abs_account; next_id : Z }.

Definition abs_init : abs_state := mkAbsState [] 1.

Section Spec.
Context {CO : Collation}.

(** A registration's input is valid (spec 4.4). *)
Definition reg_valid (u e p : string) : Prop :=
  u <> "" /\ Regex.email_test e = true /\ (8 <= String.length p)%nat.

Definition abs_taken (u e : string) (S : abs_state) : bool :=
  existsb (fun k => coll_eq (ab_email k) e || coll_eq (ab_user k) u) (accounts S).

Definition abs_register (u e p : string) (S : abs_state) : abs_state :=
  mkAbsState (accounts S ++ [mkAbs (next_id S) u e (JsString.user_url u) p false]) (next_id S + 1).

Definition abs_verify (id : Z) (S : abs_state) : abs_state :=
  mkAbsState (map (fun k => if Z.eqb (ab_id k) id
                            then mkAbs (ab_id k) (ab_user k) (ab_email k) (ab_url k) (ab_password k) true
                            else k) (accounts S))
             (next_id S).

Inductive astep : abs_state -> abs_state -> Prop :=
| AsRegister u e p S : reg_valid u e p -> abs_taken u e S = false -> astep S (abs_register u e p S)
| AsVerify id S : astep S (abs_verify id S).

Inductive areachable : abs_state -> Prop :=
| areach_init : areachable abs_init
| areach_step S S' : areachable S -> astep S S' -> areachable S'.

(** The accounts a login name designates (spec 4.5). *)
Definition abs_lookup (x : string) (S : abs_state) : list abs_account :=
  List.filter (fun k => if JsString.isValidEmail x then coll_eq (ab_email k) x else coll_eq (ab_user k) x)
              (accounts S).

Definition abs_login (x q : string) (S : abs_state) : option abs_account :=
  match abs_lookup x S with
  | [k] => if String.eqb (ab_password k) q then Some k else None
  | _ => None
  end.

End Spec.

(** ** The refinement relation *)

Section Refinement.
Context {HS : Hs256} {PH : PasswordHasher} {CO : Collation}.

Definition refines_acc (a : account) (k : abs_account) : Prop :=
  acc_id a = ab_id k /\ acc_username a = ab_user k /\ acc_email a = ab_email k /\
  acc_url a = ab_url k /\ acc_verifiedEmail a = ab_verified k /\
  exists salt, acc_hashPassword a = pw_hash salt (ab_password k).

Definition refines (w : world) (S : abs_state) : Prop :=
  Forall2 refines_acc (rows (users w)) (accounts S) /\ auto_inc (users w) = next_id S.

End Refinement.

(** ** Lemmas *)

Section Lemmas.
Context {HS : Hs256} {PH : PasswordHasher} {CO : Collation}.

Lemma refines_users (w w' : world) (S : abs_state) :
  users w' = users w -> refines w S -> refines w' S.
Proof. unfold refines. intros ->. done. Qed.

Lemma refines_init : refines init_world abs_init.
Proof. split; [constructor|done]. Qed.

(** The uniqueness query finds nothing exactly when no account has
    either key. *)
Lemma refines_taken (w : world) (S : abs_state) (u e : string) :
  refines w S -> select_email_or_username e u (users w) = [] -> abs_taken u e S = false.
Proof.
  intros [HF _]. unfold select_email_or_username, abs_taken.
  induction HF as [|a k l1 l2 (_ & Hu & He & _) _ IH]; simpl; [done|].
  rewrite Hu, He. destruct (_ || _); [discriminate|done].
Qed.

Lemma refines_register (ev : env) (u e p : string) (w : world) (S : abs_state) :
  refines w S -> refines (registered_world ev u e p w) (abs_register u e p S).
Proof.
  intros [HF Hn]. split; simpl; [|rewrite Hn; done].
  apply Forall2_app; [done|]. constructor; [|constructor].
  unfold refines_acc, inserted_row. simpl. rewrite Hn. repeat split. eauto.
Qed.

Lemma refines_verify (id : Z) (w : world) (S : abs_state) :
  refines w S -> refines (set_users w (snd (update_verified id (users w)))) (abs_verify id S).
Proof.
  intros [HF Hn]. split; [simpl|done].
  induction HF as [|a k l1 l2 Hak _ IH]; simpl; constructor; [|done].
  destruct Hak as (Hid & Hrest). rewrite Hid.
  destruct (Z.eqb (ab_id k) id); [|split; done].
  destruct a. unfold refines_acc in *. simpl in *. intuition.
Qed.

(** A digest of [p] accepts exactly [p]. *)
Lemma pw_verify_hash_iff (salt : Z) (p q : string) :
  pw_verify q (pw_hash salt p) = String.eqb p q.
Proof.
  destruct (String.eqb_spec p q) as [<-|Hne]; [apply pw_verify_hash|].
  apply pw_verify_other. congruence.
Qed.

End Lemmas.

(** ** The refinement theorems *)

Section Props.
Context {HS : Hs256} {PH : PasswordHasher} {CO : Collation}.
Variable cfg : config.

(** (C9) Refinement: every world that requests run one at a time reach
    from the empty table refines an abstract state reachable by abstract
    registrations and verifications; each request is matched by no
    abstract step or by one (a registration that inserts, a redemption
    that updates). *)
Theorem reachable_refines (w : world) :
  reachable cfg w -> exists S, areachable S /\ refines w S.
Proof.
  induction 1 as [|w w' _ (S & HSr & HR) Hstep].
  - exists abs_init. split; [constructor|apply refines_init].
  - revert HR. destruct Hstep as [ti ev rq w0]. intros HR.
    destruct rq as [r|r|tk|bearer out|code]; simpl.
    + destruct (register_effect cfg ev r w0) as [->|(u & e & p & Hu & He & Hp & Hsel & ->)]; [eauto|].
      exists (abs_register u e p S). split; [|apply refines_register; done].
      eapply areach_step; [done|]. constructor; [done|]. eapply refines_taken; done.
    + rewrite login_world. eauto.
    + rewrite login_google_world. eauto.
    + destruct (verify_email_request_effect cfg ev bearer out w0) as [->|(uid & a & _ & ->)]; [eauto|].
      exists S. split; [done|]. eapply refines_users; [|exact HR]. done.
    + destruct (verify_email_redeem_effect cfg ev code w0) as [->|[id ->]]; [eauto|].
      exists (abs_verify id S). split; [eapply areach_step; [done|constructor]|apply refines_verify; done].
Qed.

(** (C10) On related states, while the database answers, the password
    login answers what the abstract login says: 200 with a token for the
    id and the handle of the one account the name designates when the
    password is its password, the generic 401 otherwise. *)
Theorem login_refines (ev : env) (x q : string) (w : world) (S : abs_state) :
  refines w S -> db_error ev = None -> x <> "" -> q <> "" ->
  fst (login cfg ev (mkLoginReq (Some x) (Some q)) w) =
    match abs_login x q S with
    | Some k => mkResponse 200 (BAuth (sign (secret cfg) (ab_id k) (now_ms ev) None) (ab_url k))
    | None => auth_failed x q
    end.
Proof.
  intros [HF _] Hdb Hx Hq. unfold login. rewrite !js_truthy_Some by done. simpl.
  unfold login_valid, abs_login, abs_lookup, select_by_email, select_by_username. rewrite Hdb.
  assert (HF' : Forall2 refines_acc
            (List.filter (fun a => if JsString.isValidEmail x then coll_eq (acc_email a) x
                                   else coll_eq (acc_username a) x) (rows (users w)))
            (List.filter (fun k => if JsString.isValidEmail x then coll_eq (ab_email k) x
                                   else coll_eq (ab_user k) x) (accounts S))).
  { apply Forall2_filter; [done|]. intros a k (_ & Hu & He & _). rewrite Hu, He. done. }
  destruct (JsString.isValidEmail x); simpl in HF'.
  all: destruct HF' as [|a k l1 l2 (Hid & _ & _ & Hurl & _ & salt & Hh) [|a2 k2 l1' l2' _ _]]; try done.
  all: rewrite Hh, pw_verify_hash_iff; destruct (String.eqb (ab_password k) q); [rewrite Hid, Hurl|]; done.
Qed.

End Props.

(** ** Examples *)

Import AuthProps.

Definition S1 : abs_state := abs_register "alice" "a@b.com" "longpass1" abs_init.

Lemma refines_w1 : refines w1 S1.
Proof. apply refines_register, refines_init. Qed.

Lemma reachable_refines_witness : exists S, areachable S /\ refines world_2 S.
Proof.
  exact (reachable_refines cfg0 world_2
           (reach_step cfg0 _ _
              (reach_step cfg0 _ _ (reach_init cfg0) (Step cfg0 no_google ev0 alice_register init_world))
              (Step cfg0 no_google ev0 alice_asks_code world_1))).
Defined.

Lemma login_refines_witness :
  refines w1 S1 /\ db_error ev1 = None /\ "a@b.com" <> "" /\ "longpass1" <> "" /\
  fst (login cfg0 ev1 (mkLoginReq (Some "a@b.com") (Some "longpass1")) w1) =
    mkResponse 200 (BAuth (sign (secret cfg0) 1 (now_ms ev1) None) "alice").
Proof.
  split; [exact refines_w1|]. split; [reflexivity|]. split; [discriminate|]. split; [discriminate|].
  rewrite (login_refines cfg0 ev1 "a@b.com" "longpass1" w1 S1 refines_w1 eq_refl ltac:(discriminate) ltac:(discriminate)).
  vm_compute. reflexivity.
Defined.

End AuthSpec.
