(* ===== verification/Race.v ===== *)
(** * Concurrent registrations: the check-then-insert race

    [POST /register] awaits three times (auth.js lines 104, 110 and 112):
    the uniqueness SELECT, the bcrypt hash and the INSERT. Other requests
    run between these points, so the SELECT and the INSERT of one
    registration are separated by arbitrary requests of others. This file
    splits the handler into its phase up to the SELECT's answer
    ([register_start]) and its phase from the hash on ([register_insert]),
    proves that running them back to back is the sequential handler, and
    lets a set of registrations be in flight between their phases
    ([cstep]). Every interleaving keeps the table well formed and the
    outbox addressed; uniqueness of the logins is not kept: two
    registrations of the same user name and e-mail that both pass the
    check before either inserts create two rows, after which neither
    account can log in. The [users] table has no uniqueness constraint
    in this model, as the repository holds no schema and the spec (5, 9)
    describes none. *)

From S2P Require Import Prelude JsString Regex Jwt Password UsersDb Auth AuthProps Server.

Module Race.
Import Jwt Password UsersDb Auth Server.

Section Race.
Context {HS : Hs256} {PH : PasswordHasher} {CO : Collation}.
Variable cfg : config.

(** Lines 71-108: the registration up to the answer of the uniqueness
    query: an answer ([inl]), or the values it goes on to insert
    ([inr]). *)
Definition register_start (ev : env) (rq : reg_req) (w : world) : response + (string * string * string) :=
  match rq with
  | mkRegReq (Some u) (Some e) (Some p) (Some cp) =>
      if js_truthy (Some u) && js_truthy (Some e) && js_truthy (Some p) && js_truthy (Some cp)
      then match register_checks (db_error ev) u e p cp w with
           | Some r => inl r
           | None => inr (u, e, p)
           end
      else inl (missing_fields rq)
  | _ => inl (missing_fields rq)
  end.

(** The server with registrations in flight between their two phases. *)
Record cstate := mkCState { cworld : world; inflight : list (string * string * string) }.

Inductive cstep : cstate -> cstate -> Prop :=
(** Any request runs to completion (a registration included). *)
| CRequest s w' : step cfg (cworld s) w' -> cstep s (mkCState w' (inflight s))
(** A registration passes its checks and awaits the hash. *)
| CStart ev rq s job : register_start ev rq (cworld s) = inr job ->
    cstep s (mkCState (cworld s) (inflight s ++ [job]))
(** A registration in flight hashes and inserts. *)
| CFinish ev s i u e p : inflight s !! i = Some (u, e, p) ->
    cstep s (mkCState (snd (register_insert cfg ev u e p (cworld s))) (delete i (inflight s))).

Inductive creachable : cstate -> Prop :=
| creach_init : creachable (mkCState init_world [])
| creach_step s s' : creachable s -> cstep s s' -> creachable s'.

(** The state after two registrations of the same user both passed their
    check on the empty table and then inserted, in [ev1] and [ev2]. *)
Definition race_state (ev1 ev2 : env) (u e p : string) : cstate :=
  mkCState (snd (register_insert cfg ev2 u e p (snd (register_insert cfg ev1 u e p init_world)))) [].

End Race.

(** ** Lemmas *)

Section Lemmas.
Context {HS : Hs256} {PH : PasswordHasher} {CO : Collation}.
Variable cfg : config.

Lemma register_start_fresh (ev : env) (u e p : string) (w : world) :
  db_error ev = None -> Regex.email_test e = true -> (8 <= String.length p)%nat -> u <> "" ->
  select_email_or_username e u (users w) = [] ->
  register_start ev (mkRegReq (Some u) (Some e) (Some p) (Some p)) w = inr (u, e, p).
Proof.
  intros Hdb He Hp Hu Hsel. unfold register_start.
  rewrite !js_truthy_Some by auto using AuthProps.AuthProps.email_test_nonempty, AuthProps.AuthProps.length_nonempty with lia.
  unfold register_checks. rewrite Hdb, He, String.eqb_refl, Hsel. simpl.
  destruct (Nat.ltb_spec (String.length p) 8); [lia|]. done.
Qed.

(** Two rows with the same e-mail and user name answer every lookup
    together or not at all. *)
Lemma filter_twins (f : account -> bool) (a b : account) :
  f b = f a -> List.filter f [a; b] = if f a then [a; b] else [].
Proof. intros Hf. simpl. rewrite Hf. destruct (f a); done. Qed.

Lemma login_valid_twins (ev : env) (x q : string) (w : world) (a b : account) :
  read_error (db_error ev) = None -> rows (users w) = [a; b] -> acc_email b = acc_email a -> acc_username b = acc_username a ->
  login_valid cfg ev x q w = auth_failed x q.
Proof.
  intros Hdb Hrows He Hu. unfold login_valid, select_by_email, select_by_username. rewrite Hdb, Hrows.
  rewrite !filter_twins by (rewrite ?He, ?Hu; done).
  destruct (JsString.isValidEmail x), (coll_eq _ x); done.
Qed.

(** Both registrations pass their check on the empty table, then both
    insert. *)
Lemma race_reachable (ev1 ev2 : env) (u e p : string) :
  Regex.email_test e = true -> (8 <= String.length p)%nat -> u <> "" ->
  creachable cfg (race_state cfg ev1 ev2 u e p).
Proof.
  intros He Hp Hu.
  (* The checks run while the database answers. *)
  set (evc := mkEnv (now_ms ev1) (bcrypt_salt ev1) (random ev1) (today ev1) None).
  assert (Hstart : forall w, rows (users w) = [] ->
            register_start evc (mkRegReq (Some u) (Some e) (Some p) (Some p)) w = inr (u, e, p)).
  { intros w Hw. apply register_start_fresh; [done..|]. unfold select_email_or_username. rewrite Hw. done. }
  set (rq := mkRegReq (Some u) (Some e) (Some p) (Some p)).
  set (s0 := mkCState init_world []). set (s1 := mkCState init_world [(u, e, p)]).
  set (s2 := mkCState init_world [(u, e, p); (u, e, p)]).
  set (s3 := mkCState (snd (register_insert cfg ev1 u e p init_world)) [(u, e, p)]).
  apply (creach_step cfg s3); [apply (creach_step cfg s2);
    [apply (creach_step cfg s1); [apply (creach_step cfg s0); [apply creach_init|]|]|]|].
  - exact (CStart cfg evc rq s0 (u, e, p) (Hstart init_world eq_refl)).
  - exact (CStart cfg evc rq s1 (u, e, p) (Hstart init_world eq_refl)).
  - exact (CFinish cfg ev1 s2 0 u e p eq_refl).
  - exact (CFinish cfg ev2 s3 0 u e p eq_refl).
Qed.

End Lemmas.

(** ** Properties of concurrent registrations *)

Section Props.
Context {HS : Hs256} {PH : PasswordHasher} {CO : Collation}.
Variable cfg : config.

(** The two phases compose to the handler: running the phase up to
    the SELECT and, when it passes, the insert phase right after it is
    [POST /register] as one request. *)
Theorem register_phases (ev : env) (rq : reg_req) (w : world) :
  register cfg ev rq w =
    match register_start ev rq w with
    | inl r => (r, w)
    | inr (u, e, p) => register_insert cfg ev u e p w
    end.
Proof.
  destruct rq as [[u|] [e|] [p|] [cp|]]; cbn -[js_truthy register_valid missing_fields]; try done.
  destruct (_ && _); [|done]. unfold register_valid. destruct (register_checks (db_error ev) u e p cp w); done.
Qed.

(** (C12) Under every interleaving of requests and of the two phases of
    registrations, the table keeps distinct ids below the
    AUTO_INCREMENT counter and every code handed to Resend is addressed
    to the owner of its id. *)
Theorem creachable_core_inv (s : cstate) : creachable cfg s -> core_inv cfg (cworld s).
Proof.
  induction 1 as [|s s' _ IH Hstep]; [apply core_inv_init|].
  destruct Hstep as [s w' Hstep|ev rq s job _|ev s i u e p _]; cbn [cworld].
  - eapply core_inv_step; eauto.
  - done.
  - destruct (register_insert_world cfg ev u e p (cworld s)) as [Hw|Hw]; rewrite Hw; [done|].
    apply core_inv_register. done.
Qed.

(** (C11) The check-then-insert race, while the database answers: two
    registrations of the same user
    name and e-mail whose checks both run before either insert create
    two rows with distinct ids and the same keys, so the uniqueness that
    sequential requests keep is lost, and from then on no login request
    answers 200: every lookup finds both rows or none. *)
Theorem register_race (ev1 ev2 : env) (u e p : string) :
  db_error ev1 = None -> db_error ev2 = None ->
  Regex.email_test e = true -> (8 <= String.length p)%nat -> u <> "" ->
  creachable cfg (race_state cfg ev1 ev2 u e p) /\
  (exists a b, rows (users (cworld (race_state cfg ev1 ev2 u e p))) = [a; b] /\
     acc_id a <> acc_id b /\ acc_email b = acc_email a /\ acc_username b = acc_username a) /\
  forall ev rq, status (fst (login cfg ev rq (cworld (race_state cfg ev1 ev2 u e p)))) <> 200%Z.
Proof.
  intros Hdb1 Hdb2 He Hp Hu.
  assert (Hrows : exists a b, rows (users (cworld (race_state cfg ev1 ev2 u e p))) = [a; b] /\
            acc_id a <> acc_id b /\ acc_email b = acc_email a /\ acc_username b = acc_username a).
  { unfold race_state. rewrite !register_insert_fresh by (rewrite ?Hdb1, ?Hdb2; done). simpl. eexists _, _. split; [done|]. simpl. done. }
  split; [|split; [done|]].
  - apply race_reachable; done.
  - destruct Hrows as (a & b & Hr & _ & Hem & Hun). intros ev [[x|] [q|]]; simpl; try done.
    destruct (_ && _); [|done]. simpl.
    destruct (read_error (db_error ev)) eqn:Hdb; [unfold login_valid; rewrite Hdb; done|].
    rewrite (login_valid_twins cfg ev x q _ a b Hdb Hr Hem Hun). done.
Qed.



End Props.

(** ** Examples: alice registers twice, concurrently *)

Import AuthProps.

Definition alice_race : cstate := race_state cfg0 ev0 ev1 "alice" "a@b.com" "longpass1".

Lemma alice_race_reachable : creachable cfg0 alice_race.
Proof.
  apply race_reachable; [vm_compute; reflexivity|vm_compute; lia|discriminate].
Qed.

Lemma creachable_core_inv_witness : core_inv cfg0 (cworld alice_race).
Proof. exact (creachable_core_inv cfg0 alice_race alice_race_reachable). Defined.

Lemma register_race_witness :
  db_error ev0 = None /\ db_error ev1 = None /\
  Regex.email_test "a@b.com" = true /\ (8 <= String.length "longpass1")%nat /\ "alice" <> "" /\
  forall ev rq, status (fst (login cfg0 ev rq (cworld alice_race))) <> 200%Z.
Proof.
  assert (He : Regex.email_test "a@b.com" = true) by (vm_compute; reflexivity).
  assert (Hp : (8 <= String.length "longpass1")%nat) by (vm_compute; lia).
  assert (Hu : "alice" <> "") by discriminate.
  split; [reflexivity|]. split; [reflexivity|].
  split; [exact He|]. split; [exact Hp|]. split; [exact Hu|].
  exact (proj2 (proj2 (register_race cfg0 ev0 ev1 "alice" "a@b.com" "longpass1" eq_refl eq_refl He Hp Hu))).
Defined.

Example alice_race_rows :
  List.length (rows (users (cworld alice_race))) = 2%nat /\ inflight alice_race = [].
Proof. vm_compute. split; reflexivity. Qed.

End Race.
