(* ===== verification/Reviews.v ===== *)
(** * The reviews router: [src/src/routes/projectReviews.js]

    The MongoDB collection of [ReviewsProjects] documents, whose schema is
    [src/src/models/reviewsProjects.js]: eight required paths and an
    immutable [creationDate] defaulting to [Date.now()]. A document is
    built by casting each value to its path's type and checking
    [required]; a failure rejects [save()] and the route answers 500.
    Documents are kept in insertion order with their [_id] (an ObjectId,
    here a counter). The routes: three listings (by project, by author,
    by project creator), the creation of a review, and its deletion by its
    author. The [:idReview] parameter is passed after its ObjectId cast
    ([None] when the string is not an ObjectId, which makes [findOne]
    throw). Every handler takes the driver calls that reject during the
    request ([faults]); a rejection lands in the route's catch block, which
    answers 500 and writes nothing. *)

From S2P Require Import Prelude Jwt JsValue.

Module Reviews.
Import Jwt JsValue.

(** reviewsProjects.js lines 5-43, after casting. *)
Record review := mkReview {
  rv_id : Z;
  rv_idUser : Z;
  rv_userUrl : string;
  rv_projectName : string;
  rv_idProjectCreator : Z;
  rv_idProject : Z;
  rv_projectUrl : string;
  rv_body : string;
  rv_rating : bool;
  rv_creationDate : Z
}.

Record collection := mkCollection { docs : list review; next_oid : Z }.

Inductive rv_payload :=
| RList (l : list review)                  (** [res.json(reviews)] *)
| RDoc (r : review)                        (** [res.json(newReview)] *)
| RMsg (m : string) (code : option Z)      (** [{ message, code }] *)
| RUnauthorized.                           (** the middleware's rejection *)

Record rv_response := mkRvResponse { rv_status : Z; rv_body_of : rv_payload }.

Definition internal_error : rv_response := mkRvResponse 500 (RMsg "Internal Server Error" None).

(** The 500 of the deletion route's catch block (line 87), with a code. *)
Definition delete_error : rv_response := mkRvResponse 500 (RMsg "Internal Server Error" (Some 500%Z)).

(** ** Casting and validation of one path *)

Definition req_string (path : string) (v : jsval) : result string cast_error :=
  match cast_string v with
  | Some (SStr s) => if String.eqb s "" then Err (ValidatorError path) else Ok s
  | _ => Err (ValidatorError path)
  end.

Definition req_bool (path : string) (v : jsval) : result bool cast_error :=
  match cast_boolean path v with
  | Ok (Some (SBool b)) => Ok b
  | Ok _ => Err (ValidatorError path)
  | Err e => Err e
  end.

(** A number computed by the handler ([Number(x)], [None] for [NaN]). *)
Definition req_number (path : string) (v : option Z) : result Z cast_error :=
  match v with
  | Some n => Ok n
  | None => Err (CastError path)
  end.

Section WithRuntime.
Context {HS : Hs256} {TN : JsToNumber}.

(** [new ReviewsProjects({...})] then the validation of [save()]. *)
Definition build_review (oid now idUser : Z) (userUrl projectName : jsval)
    (idProjectCreator idProject : option Z) (projectUrl body rating : jsval)
    : result review cast_error :=
  u <- req_string "userUrl" userUrl ;;
  pn <- req_string "projectName" projectName ;;
  c <- req_number "idProjectCreator" idProjectCreator ;;
  pr <- req_number "idProject" idProject ;;
  pu <- req_string "projectUrl" projectUrl ;;
  b <- req_string "body" body ;;
  r <- req_bool "rating" rating ;;
  Ok (mkReview oid idUser u pn c pr pu b r now).

Definition find_by (f : review -> Z) (q : option Z) (c : collection) : list review :=
  match q with
  | Some n => List.filter (fun r => Z.eqb (f r) n) (docs c)
  | None => []
  end.

(** Lines 9-20: [GET /:id/reviews]. [Number(req.params.id)] is [NaN]
    for a non-numeric id, and mongoose refuses to cast [NaN]. [find]
    resolves to an array, never to a falsy value, so the 404 branch does
    not run. A [find] that rejects lands in the catch block. *)
Definition get_project_reviews (mf : faults) (id : string) (c : collection) : rv_response :=
  match js_Number (JStr id) with
  | None => internal_error
  | Some n =>
      if fails MFind mf then internal_error
      else mkRvResponse 200 (RList (find_by rv_idProject (Some n) c))
  end.

(** Lines 22-34: [GET /reviewing/byUser/:id]. *)
Definition get_reviews_by_user (mf : faults) (id : string) (c : collection) : rv_response :=
  match query_number "idUser" (JStr id) with
  | Err _ => internal_error
  | Ok q => if fails MFind mf then internal_error else mkRvResponse 200 (RList (find_by rv_idUser q c))
  end.

(** Lines 36-48: [GET /reviewed/byUser/:id]. *)
Definition get_reviews_of_creator (mf : faults) (id : string) (c : collection) : rv_response :=
  match query_number "idProjectCreator" (JStr id) with
  | Err _ => internal_error
  | Ok q =>
      if fails MFind mf then internal_error
      else mkRvResponse 200 (RList (find_by rv_idProjectCreator q c))
  end.

(** The fields of the body of [POST /:id/reviews] (line 52). *)
Record review_req := mkReviewReq {
  q_body : jsval; q_rating : jsval; q_userUrl : jsval;
  q_projectName : jsval; q_idCreator : jsval; q_projectUrl : jsval
}.

(** Lines 50-72, after the middleware attached [userId]. [save()]
    validates the document, then inserts it; either step can reject. *)
Definition post_review (mf : faults) (now userId : Z) (id : string) (rq : review_req) (c : collection)
    : rv_response * collection :=
  if negb (truthy (q_body rq)) || negb (truthy (q_userUrl rq)) || negb (truthy (q_projectName rq))
     || negb (truthy (q_idCreator rq)) || negb (truthy (q_projectUrl rq))
  then (mkRvResponse 400 (RMsg "Missing required fields" (Some 400%Z)), c)
  else match build_review (next_oid c) now userId (q_userUrl rq) (q_projectName rq)
               (js_Number (q_idCreator rq)) (js_Number (JStr id))
               (q_projectUrl rq) (q_body rq) (q_rating rq) with
       | Err _ => (internal_error, c)
       | Ok r =>
           if fails MSave mf then (internal_error, c)
           else (mkRvResponse 201 (RDoc r), mkCollection (docs c ++ [r]) (next_oid c + 1))
       end.

(** Lines 74-89, after the middleware attached [userId]: a [findOne],
    the checks, then a [deleteOne]; a rejection of either call, or of the
    cast of [:idReview], lands in the catch block. *)
Definition delete_review (mf : faults) (userId : Z) (idReview : option Z) (c : collection)
    : rv_response * collection :=
  match idReview with
  | None => (delete_error, c)
  | Some oid =>
      if fails MFindOne mf then (delete_error, c) else
      match List.find (fun r => Z.eqb (rv_id r) oid) (docs c) with
      | None => (mkRvResponse 404 (RMsg "Review not found" (Some 404%Z)), c)
      | Some r =>
          if negb (Z.eqb (rv_idUser r) userId)
          then (mkRvResponse 403 (RMsg "Forbidden" (Some 403%Z)), c)
          else if fails MDeleteOne mf then (delete_error, c)
          else (mkRvResponse 200 (RMsg "Review deleted" (Some 200%Z)),
                mkCollection (List.filter (fun d => negb (Z.eqb (rv_id d) oid)) (docs c)) (next_oid c))
      end
  end.

(** ** The router *)

Inductive rv_request :=
| RvGetProject (id : string)
| RvGetByUser (id : string)
| RvGetOfCreator (id : string)
| RvPost (bearer : option token) (id : string) (rq : review_req)
| RvDelete (bearer : option token) (id : string) (idReview : option Z).

(** The five routes (lines 9, 22, 36, 50 and 74), the last two behind
    [verifyUserLogged]. The [:id] of the deletion route is not read. *)
Definition handle_reviews (secret : string) (now : Z) (mf : faults) (rq : rv_request) (c : collection)
    : rv_response * collection :=
  match rq with
  | RvGetProject id => (get_project_reviews mf id c, c)
  | RvGetByUser id => (get_reviews_by_user mf id c, c)
  | RvGetOfCreator id => (get_reviews_of_creator mf id c, c)
  | RvPost bearer id r =>
      match verifyUserLogged secret now bearer with
      | None => (mkRvResponse 401 RUnauthorized, c)
      | Some uid => post_review mf now uid id r c
      end
  | RvDelete bearer _ idr =>
      match verifyUserLogged secret now bearer with
      | None => (mkRvResponse 401 RUnauthorized, c)
      | Some uid => delete_review mf uid idr c
      end
  end.

Inductive rv_step (secret : string) : collection -> collection -> Prop :=
| RvStep now mf rq c : rv_step secret c (snd (handle_reviews secret now mf rq c)).

Inductive rv_reachable (secret : string) : collection -> Prop :=
| rv_reach_init : rv_reachable secret (mkCollection [] 1)
| rv_reach_step c c' : rv_reachable secret c -> rv_step secret c c' -> rv_reachable secret c'.

End WithRuntime.

(** ** Invariant and lemmas *)

(** A stored review satisfies the schema's [required] strings. *)
Definition review_valid (r : review) : Prop :=
  rv_userUrl r <> "" /\ rv_projectName r <> "" /\ rv_projectUrl r <> "" /\ rv_body r <> "".

Definition coll_wf (c : collection) : Prop :=
  NoDup (map rv_id (docs c)) /\ Forall (fun r => (rv_id r < next_oid c)%Z) (docs c) /\
  Forall review_valid (docs c).

Lemma req_string_ok (path : string) (v : jsval) (s : string) :
  req_string path v = Ok s -> s <> "".
Proof.
  unfold req_string. destruct (cast_string v) as [[n|s'|b|]|]; try done.
  destruct (String.eqb_spec s' ""); [done|]. intros [= <-]. done.
Qed.

(** Unfolds the five routes of the router. *)
Ltac unfold_routes :=
  unfold get_project_reviews, get_reviews_by_user, get_reviews_of_creator, post_review, delete_review.

Section Lemmas.
Context {HS : Hs256} {TN : JsToNumber}.

Lemma build_review_Ok (oid now uid : Z) (uu pn : jsval) (ic ip : option Z) (pu b rt : jsval) (r : review) :
  build_review oid now uid uu pn ic ip pu b rt = Ok r ->
  rv_id r = oid /\ rv_idUser r = uid /\ ip = Some (rv_idProject r) /\ review_valid r.
Proof.
  unfold build_review.
  destruct (req_string "userUrl" uu) as [u|] eqn:Hu; [|done]. simpl.
  destruct (req_string "projectName" pn) as [p|] eqn:Hp; [|done]. simpl.
  destruct (req_number "idProjectCreator" ic) as [k|]; [|done]. simpl.
  destruct ip as [pr|]; [|done]. simpl.
  destruct (req_string "projectUrl" pu) as [q|] eqn:Hq; [|done]. simpl.
  destruct (req_string "body" b) as [bd|] eqn:Hb; [|done]. simpl.
  destruct (req_bool "rating" rt) as [x|]; [|done]. simpl.
  intros [= <-]. simpl. repeat split; eauto using req_string_ok.
Qed.

Lemma post_review_effect (mf : faults) (now uid : Z) (id : string) (rq : review_req) (c : collection) :
  snd (post_review mf now uid id rq c) = c \/
  exists r, fst (post_review mf now uid id rq c) = mkRvResponse 201 (RDoc r) /\
            snd (post_review mf now uid id rq c) = mkCollection (docs c ++ [r]) (next_oid c + 1) /\
            rv_id r = next_oid c /\ rv_idUser r = uid /\
            js_Number (JStr id) = Some (rv_idProject r) /\ review_valid r.
Proof.
  unfold post_review. destruct (_ || _); [auto|].
  destruct (build_review _ _ _ _ _ _ _ _ _ _) as [r|] eqn:Hb; [|auto].
  destruct (fails MSave mf); [auto|]. right. exists r. apply build_review_Ok in Hb as (? & ? & ? & ?). done.
Qed.

(** An answer 201 appends the document it sends. *)
Lemma post_review_201 (mf : faults) (now uid : Z) (id : string) (rq : review_req) (c c' : collection)
    (r : review) :
  post_review mf now uid id rq c = (mkRvResponse 201 (RDoc r), c') ->
  c' = mkCollection (docs c ++ [r]) (next_oid c + 1) /\ rv_idUser r = uid /\
  js_Number (JStr id) = Some (rv_idProject r).
Proof.
  unfold post_review. intros Hp. repeat case_match; simplify_eq.
  match goal with H : build_review _ _ _ _ _ _ _ _ _ _ = Ok _ |- _ =>
    apply build_review_Ok in H as (_ & ? & ? & _) end.
  done.
Qed.

Lemma delete_review_effect (mf : faults) (uid : Z) (idr : option Z) (c : collection) :
  snd (delete_review mf uid idr c) = c \/
  exists oid r, idr = Some oid /\ In r (docs c) /\ rv_id r = oid /\ rv_idUser r = uid /\
    fst (delete_review mf uid idr c) = mkRvResponse 200 (RMsg "Review deleted" (Some 200%Z)) /\
    snd (delete_review mf uid idr c) =
      mkCollection (List.filter (fun d => negb (Z.eqb (rv_id d) oid)) (docs c)) (next_oid c).
Proof.
  unfold delete_review. destruct idr as [oid|]; [|auto]. destruct (fails MFindOne mf); [auto|].
  destruct (List.find (fun r => Z.eqb (rv_id r) oid) (docs c)) as [r|] eqn:Hf; [|auto].
  destruct (Z.eqb_spec (rv_idUser r) uid) as [Hu|]; simpl; [|auto].
  destruct (fails MDeleteOne mf); [auto|]. right. exists oid, r. apply find_some in Hf as [Hin Hid%Z.eqb_eq]. done.
Qed.

Lemma coll_wf_post (c : collection) (r : review) :
  coll_wf c -> rv_id r = next_oid c -> review_valid r ->
  coll_wf (mkCollection (docs c ++ [r]) (next_oid c + 1)).
Proof.
  intros (Hnd & Hlt & Hv) Hid Hr. split; [|split]; simpl.
  - rewrite map_app. apply NoDup_app. split; [done|]. split; [|apply NoDup_singleton].
    intros i Hi ->%list_elem_of_singleton. apply list_elem_of_In, in_map_iff in Hi as (d & Hd & Hin).
    rewrite List.Forall_forall in Hlt. specialize (Hlt d Hin). lia.
  - apply Forall_app. split; [|constructor; [lia|constructor]].
    eapply Forall_impl; [exact Hlt|]. simpl. lia.
  - apply Forall_app. split; [done|]. constructor; [done|constructor].
Qed.

Lemma coll_wf_filter (c : collection) (f : review -> bool) :
  coll_wf c -> coll_wf (mkCollection (List.filter f (docs c)) (next_oid c)).
Proof.
  intros (Hnd & Hlt & Hv). split; [|split]; simpl.
  - apply NoDup_map_filter. done.
  - apply List.Forall_forall. intros d Hd%filter_In. rewrite List.Forall_forall in Hlt. apply Hlt, Hd.
  - apply List.Forall_forall. intros d Hd%filter_In. rewrite List.Forall_forall in Hv. apply Hv, Hd.
Qed.

Lemma coll_wf_init : coll_wf (mkCollection [] 1).
Proof. split; [constructor|split; constructor]. Qed.

(** Every request of the router keeps the collection well formed. *)
Lemma coll_wf_handle (secret : string) (now : Z) (mf : faults) (rq : rv_request) (c : collection) :
  coll_wf c -> coll_wf (snd (handle_reviews secret now mf rq c)).
Proof.
  intros Hwf. destruct rq as [id|id|id|bearer id r|bearer id idr]; cbn [handle_reviews snd]; try done.
  - destruct (verifyUserLogged secret now bearer) as [uid|]; [|done].
    destruct (post_review_effect mf now uid id r c) as [->|(r' & _ & -> & Hid & _ & _ & Hv)]; [done|].
    apply coll_wf_post; done.
  - destruct (verifyUserLogged secret now bearer) as [uid|]; [|done].
    destruct (delete_review_effect mf uid idr c) as [->|(oid & r & _ & _ & _ & _ & _ & ->)]; [done|].
    apply coll_wf_filter. done.
Qed.

(** Only a 200 or 201 answer changes the collection. *)
Lemma handle_reviews_atomic (secret : string) (now : Z) (mf : faults) (rq : rv_request) (c : collection) :
  snd (handle_reviews secret now mf rq c) <> c ->
  rv_status (fst (handle_reviews secret now mf rq c)) = 200%Z \/
  rv_status (fst (handle_reviews secret now mf rq c)) = 201%Z.
Proof. destruct rq; cbn [handle_reviews fst snd]; unfold_routes; repeat case_match; simplify_eq/=; tauto. Qed.

(** With the server unreachable, a request changes nothing and is
    answered 400, 401 or 500. *)
Lemma handle_reviews_down (secret : string) (now : Z) (rq : rv_request) (c : collection) :
  snd (handle_reviews secret now mongo_down rq c) = c /\
  In (rv_status (fst (handle_reviews secret now mongo_down rq c))) [400; 401; 500]%Z.
Proof.
  destruct rq; cbn [handle_reviews fst snd]; unfold_routes; rewrite ?fails_down;
    repeat case_match; simplify_eq/=; tauto.
Qed.

End Lemmas.

(** ** Properties of the reviews router *)

Section Props.
Context {HS : Hs256} {TN : JsToNumber}.

(** (C17) Only its author deletes a review: a deletion request that
    changes the collection carries a valid token for the user who wrote
    the review named by [:idReview], and removes exactly the documents
    with that [_id]; the project [:id] of the route plays no part. *)
Theorem delete_only_by_author (secret : string) (now : Z) (mf : faults) (bearer : option token) (id : string)
    (idr : option Z) (c : collection) :
  snd (handle_reviews secret now mf (RvDelete bearer id idr) c) <> c ->
  exists uid oid r, verifyUserLogged secret now bearer = Some uid /\ idr = Some oid /\
    In r (docs c) /\ rv_id r = oid /\ rv_idUser r = uid /\
    snd (handle_reviews secret now mf (RvDelete bearer id idr) c) =
      mkCollection (List.filter (fun d => negb (Z.eqb (rv_id d) oid)) (docs c)) (next_oid c).
Proof.
  simpl. destruct (verifyUserLogged secret now bearer) as [uid|]; [|done].
  destruct (delete_review_effect mf uid idr c) as [->|(oid & r & ? & ? & ? & ? & _ & ->)]; [done|].
  intros _. exists uid, oid, r. done.
Qed.

(** (C18) Post then list: a review accepted with 201 was written by the
    caller for the project [Number(:id)], and a later listing of the
    project whose [find] resolves returns the earlier reviews of the
    project followed by the new one. *)
Theorem post_then_list (secret : string) (now now' : Z) (mf mf' : faults) (bearer : option token)
    (id : string) (rq : review_req) (c c' : collection) (r : review) :
  handle_reviews secret now mf (RvPost bearer id rq) c = (mkRvResponse 201 (RDoc r), c') ->
  fails MFind mf' = false ->
  exists uid n, verifyUserLogged secret now bearer = Some uid /\ rv_idUser r = uid /\
    js_Number (JStr id) = Some n /\ rv_idProject r = n /\
    fst (handle_reviews secret now' mf' (RvGetProject id) c') =
      mkRvResponse 200 (RList (find_by rv_idProject (Some n) c ++ [r])).
Proof.
  simpl. destruct (verifyUserLogged secret now bearer) as [uid|]; [|done].
  intros (-> & Hu & Hn)%post_review_201 Hmf. exists uid, (rv_idProject r). repeat split; [done..|].
  unfold get_project_reviews. rewrite Hn, Hmf. simpl. rewrite List.filter_app. simpl.
  rewrite Z.eqb_refl. done.
Qed.

(** (C19) Every collection the router can reach holds documents with
    distinct [_id]s below the ObjectId counter, each satisfying the
    schema's required strings. *)
Theorem reviews_reachable_wf (secret : string) (c : collection) :
  rv_reachable secret c -> coll_wf c.
Proof.
  induction 1 as [|c c' _ IH Hstep]; [apply coll_wf_init|].
  destruct Hstep as [now rq c0]. apply coll_wf_handle; done.
Qed.


(** (C38) A review without [rating] passes the handler's own check (which
    does not look at [rating]) and is refused by the schema's [required]
    validator inside [save()]: the answer is the generic 500, not a 400,
    and nothing is stored, whatever the database would have answered,
    since validation runs before the insert. *)
Theorem post_without_rating_500 (mf : faults) (now uid : Z) (id : string) (rq : review_req) (c : collection) :
  truthy (q_body rq) = true -> truthy (q_userUrl rq) = true -> truthy (q_projectName rq) = true ->
  truthy (q_idCreator rq) = true -> truthy (q_projectUrl rq) = true -> q_rating rq = JUndef ->
  post_review mf now uid id rq c = (internal_error, c).
Proof.
  intros Hb Hu Hp Hi Hq Hr. unfold post_review. rewrite Hb, Hu, Hp, Hi, Hq, Hr. simpl.
  unfold build_review.
  destruct (req_string "userUrl" _); [|done]. simpl.
  destruct (req_string "projectName" _); [|done]. simpl.
  destruct (req_number "idProjectCreator" _); [|done]. simpl.
  destruct (req_number "idProject" _); [|done]. simpl.
  destruct (req_string "projectUrl" _); [|done]. simpl.
  destruct (req_string "body" _); done.
Qed.

(** (C25) A failing database leaves no partial write: a request that
    changes the collection was answered 200 or 201, so every error answer
    (a rejected [find], [findOne], [save()] or [deleteOne] included)
    leaves it as it was; and with the server unreachable no request
    changes it, each being answered 400, 401 or 500. *)
Theorem reviews_failure_no_effect (secret : string) (now : Z) (mf : faults) (rq : rv_request)
    (c : collection) :
  (snd (handle_reviews secret now mf rq c) <> c ->
   rv_status (fst (handle_reviews secret now mf rq c)) = 200%Z \/
   rv_status (fst (handle_reviews secret now mf rq c)) = 201%Z) /\
  snd (handle_reviews secret now mongo_down rq c) = c /\
  In (rv_status (fst (handle_reviews secret now mongo_down rq c))) [400; 401; 500]%Z.
Proof. split; [apply handle_reviews_atomic|apply handle_reviews_down]. Qed.

End Props.

(** ** Examples *)

Definition rq_ok : review_req :=
  mkReviewReq (JStr "Great project") (JBool true) (JStr "alice") (JStr "Solar kit") (JNum 3) (JStr "solar-kit").

Definition token_7 : token := sign "s3cret" 7 1700000000000 None.

Definition coll_1 : collection :=
  snd (handle_reviews "s3cret" 1700000000000 [] (RvPost (Some token_7) "12" rq_ok) (mkCollection [] 1)).

Lemma post_then_list_witness :
  fst (handle_reviews "s3cret" 1700000005000 [MSave] (RvGetProject "12") coll_1) =
  mkRvResponse 200 (RList [mkReview 1 7 "alice" "Solar kit" 3 12 "solar-kit" "Great project" true 1700000000000]).
Proof.
  destruct (post_then_list (HS:=toy_hs256) (TN:=decimal_to_number) "s3cret" 1700000000000 1700000005000
              [] [MSave] (Some token_7) "12" rq_ok
              (mkCollection [] 1) coll_1 (mkReview 1 7 "alice" "Solar kit" 3 12 "solar-kit" "Great project" true 1700000000000)
              ltac:(vm_compute; reflexivity) ltac:(vm_compute; reflexivity))
    as (uid & n & _ & _ & _ & _ & H).
  rewrite H. vm_compute. reflexivity.
Defined.

Lemma delete_only_by_author_witness :
  snd (handle_reviews "s3cret" 1700000009000 [MAggregate] (RvDelete (Some token_7) "12" (Some 1%Z)) coll_1) =
  mkCollection [] 2.
Proof.
  destruct (delete_only_by_author (HS:=toy_hs256) (TN:=decimal_to_number) "s3cret" 1700000009000 [MAggregate]
              (Some token_7) "12" (Some 1%Z) coll_1
              ltac:(vm_compute; discriminate))
    as (uid & oid & r & _ & Hoid & _ & _ & _ & H).
  injection Hoid as <-. rewrite H. vm_compute. reflexivity.
Defined.

Lemma reviews_reachable_wf_witness : coll_wf coll_1.
Proof.
  exact (reviews_reachable_wf (HS:=toy_hs256) (TN:=decimal_to_number) "s3cret" coll_1
           (rv_reach_step "s3cret" _ _ (rv_reach_init "s3cret")
              (RvStep "s3cret" 1700000000000 [] (RvPost (Some token_7) "12" rq_ok) (mkCollection [] 1)))).
Defined.

Lemma post_without_rating_500_witness :
  post_review [] 1700000000000 7 "12"
    (mkReviewReq (JStr "Great project") JUndef (JStr "alice") (JStr "Solar kit") (JNum 3) (JStr "solar-kit"))
    coll_1 = (internal_error, coll_1).
Proof.
  exact (post_without_rating_500 (TN:=decimal_to_number) [] 1700000000000 7 "12"
           (mkReviewReq (JStr "Great project") JUndef (JStr "alice") (JStr "Solar kit") (JNum 3) (JStr "solar-kit"))
           coll_1 eq_refl eq_refl eq_refl eq_refl eq_refl eq_refl).
Defined.

(** A [deleteOne] that rejects after the author check: the route answers
    500 and the review stays. *)
Example delete_fails_keeps :
  handle_reviews (HS:=toy_hs256) (TN:=decimal_to_number) "s3cret" 1700000009000 [MDeleteOne]
    (RvDelete (Some token_7) "12" (Some 1%Z)) coll_1 = (delete_error, coll_1).
Proof. vm_compute. reflexivity. Qed.

End Reviews.
