(* ===== verification/Stats.v ===== *)
(** * The statistics router: [src/src/routes/projectStats.js]

    One MongoDB document per engagement of a user with a project:
    [idUser], [idProject], [idCategory] and the flags [view], [like],
    [dislike], [collaborator] with the running [funded] amount. The schema
    file ([models/statsProjects]) is not part of the repository: the paths
    are taken from the router's reads and writes, typed as the router uses
    them (numbers and booleans), and the schema's defaults are a parameter
    ([schema_defaults]) of every definition and theorem. The aggregation
    of [GET /:id/stats] lives in [controllers/getProjectStats], also
    outside the repository: it is an input function.

    Documents are kept in insertion order with their [_id] (a counter);
    [findOne] returns the first document that matches its filter, and
    [save()] on a found document replaces it in place. A filter value
    [None] (an empty value) matches a missing path, as a mongoose [null]
    filter does. Flags read [null] and missing alike ([None]). Numbers
    are integers: fractional amounts are not represented. Every handler
    takes the driver calls that reject during the request ([faults]); the
    catch blocks answer 500, except that of [PUT /:id/stats/views], which
    throws. *)

From S2P Require Import Prelude Jwt JsValue.

Module Stats.
Import Jwt JsValue.

(** The document, after casting. *)
Record stats_doc := mkStats {
  st_id : Z;
  st_idUser : option Z;
  st_idProject : option Z;
  st_idCategory : option Z;
  st_view : option bool;
  st_like : option bool;
  st_dislike : option bool;
  st_funded : option Z;
  st_collaborator : option bool
}.

Record store := mkStore { sdocs : list stats_doc; s_next : Z }.

(** The defaults the schema gives the paths a handler does not set. *)
Record schema_defaults := mkDefaults {
  d_view : option bool;
  d_like : option bool;
  d_dislike : option bool;
  d_funded : option Z;
  d_collaborator : option bool
}.

(** ** Field updates, as the handlers' assignments [stats.path = v] *)

Definition set_view (v : option bool) (d : stats_doc) : stats_doc :=
  mkStats (st_id d) (st_idUser d) (st_idProject d) (st_idCategory d) v
          (st_like d) (st_dislike d) (st_funded d) (st_collaborator d).

Definition set_like (v : option bool) (d : stats_doc) : stats_doc :=
  mkStats (st_id d) (st_idUser d) (st_idProject d) (st_idCategory d) (st_view d)
          v (st_dislike d) (st_funded d) (st_collaborator d).

Definition set_dislike (v : option bool) (d : stats_doc) : stats_doc :=
  mkStats (st_id d) (st_idUser d) (st_idProject d) (st_idCategory d) (st_view d)
          (st_like d) v (st_funded d) (st_collaborator d).

Definition set_funded (v : option Z) (d : stats_doc) : stats_doc :=
  mkStats (st_id d) (st_idUser d) (st_idProject d) (st_idCategory d) (st_view d)
          (st_like d) (st_dislike d) v (st_collaborator d).

Definition set_collaborator (v : option bool) (d : stats_doc) : stats_doc :=
  mkStats (st_id d) (st_idUser d) (st_idProject d) (st_idCategory d) (st_view d)
          (st_like d) (st_dislike d) (st_funded d) v.

(** [new StatsProjects({ idUser, idProject, idCategory })]: the remaining
    paths take the schema's defaults. *)
Definition fresh_stats (D : schema_defaults) (oid uid : Z) (proj cat : option Z) : stats_doc :=
  mkStats oid (Some uid) proj cat (d_view D) (d_like D) (d_dislike D) (d_funded D) (d_collaborator D).

(** ** Store operations *)

(** The filter [{ idUser, idProject }]. *)
Definition owned_by (uid : Z) (proj : option Z) (d : stats_doc) : bool :=
  bool_decide (st_idUser d = Some uid) && bool_decide (st_idProject d = proj).

(** The filter [{ idUser, idProject, idCategory }]. *)
Definition owned_in (uid : Z) (proj cat : option Z) (d : stats_doc) : bool :=
  owned_by uid proj d && bool_decide (st_idCategory d = cat).

Definition find_one (f : stats_doc -> bool) (s : store) : option stats_doc :=
  List.find f (sdocs s).

(** [save()] of a new document. *)
Definition save_new (d : stats_doc) (s : store) : store :=
  mkStore (sdocs s ++ [d]) (s_next s + 1).

(** [save()] of a document read from the store: it replaces the stored
    document with its [_id]. *)
Definition save_found (d : stats_doc) (s : store) : store :=
  mkStore (map (fun x => if Z.eqb (st_id x) (st_id d) then d else x) (sdocs s)) (s_next s).

(** [$sum: { $cond: [{ $eq: ['$view', true] }, 1, 0] }] for one document. *)
Definition view_count (d : stats_doc) : Z :=
  if bool_decide (st_view d = Some true) then 1 else 0.

(** The [$group] stage by [idCategory]: one entry per category, with
    its number of viewed documents. MongoDB does not specify the order of
    [$group]'s output; this model fixes one, the order of first
    appearance, and the theorems about the answer ([percentage_views_spec],
    [percentage_views_range]) hold of the set of entries, whatever their
    order. *)
Fixpoint bump (k : option Z) (v : Z) (acc : list (option Z * Z)) : list (option Z * Z) :=
  match acc with
  | [] => [(k, v)]
  | (k', n) :: rest => if bool_decide (k = k') then (k', n + v)%Z :: rest else (k', n) :: bump k v rest
  end.

Definition group_views (l : list stats_doc) : list (option Z * Z) :=
  fold_left (fun acc d => bump (st_idCategory d) (view_count d) acc) l [].

(** [result.map(c => c.views).reduce((a, b) => a + b, 0)]. *)
Definition total_views (g : list (option Z * Z)) : Z :=
  fold_left (fun acc c => acc + snd c)%Z g 0%Z.

(** [((views / total) * 100).toFixed(2)] in hundredths of a percent:
    [None] is ["NaN"] ([0 / 0]); otherwise the nearest integer to
    [10000 * views / total], ties upwards, on exact rationals. *)
Definition percentage (views total : Z) : option Z :=
  if Z.eqb total 0 then None else Some ((20000 * views + total) / (2 * total))%Z.

(** ** Responses *)

Section Router.
(** The documents produced by the aggregation of [getProjectStats]. *)
Variable Summary : Type.

Inductive st_payload :=
| SDoc (d : stats_doc)                         (** [res.send(stats)] *)
| SResult (d : stats_doc) (code : Z)           (** [{ result, code }] *)
| SMsg (m : string) (code : option Z)          (** [{ message, code }] *)
| SFirst (x : option Summary)                  (** [res.send(stats[0])] *)
| SPercent (l : list (option Z * option Z))    (** [{ idCategory, percentage }] *)
| SUnauthorized.                               (** the middleware's rejection *)

Record st_response := mkStResponse { st_status : Z; st_body : st_payload }.

(** A route either sends a response or its promise rejects: the catch
    block of [PUT /:id/stats/views] reads the unbound name [error], and
    the [ReferenceError] leaves the route without an answer of its own. *)
Inductive st_outcome :=
| Sent (r : st_response)
| Rejected (what : string).

Definition st_internal_error : st_response := mkStResponse 500 (SMsg "Internal Server Error" None).

Context {HS : Hs256} {TN : JsToNumber}.
Variable D : schema_defaults.
Variable getProjectStats : option Z -> store -> result (option (list Summary)) unit.

(** Lines 8-24: [GET /:id/stats/user/], after the middleware attached
    [userId] (a number, so [Number(req.userId)] is never [NaN]). *)
Definition get_user_stats (mf : faults) (uid : Z) (id : string) (s : store) : st_response :=
  match js_Number (JStr id) with
  | None => mkStResponse 400 (SMsg "Invalid idUser or idProject" (Some 400%Z))
  | Some p =>
      if fails MFindOne mf then st_internal_error else
      match find_one (owned_by uid (Some p)) s with
      | None => mkStResponse 404 (SMsg "Stats not found" (Some 404%Z))
      | Some d => mkStResponse 200 (SDoc d)
      end
  end.

(** Lines 26-37: [GET /:id/stats]; [!stats] is true of a falsy answer
    ([Ok None]); [stats[0]] of an empty array is [undefined]. *)
Definition get_project_stats (id : string) (s : store) : st_response :=
  match getProjectStats (js_Number (JStr id)) s with
  | Err _ => st_internal_error
  | Ok None => mkStResponse 404 (SMsg "Stats not found" None)
  | Ok (Some l) => mkStResponse 200 (SFirst (head l))
  end.

(** Lines 39-62: [POST /:id/stats]. The filter casts [:id] and
    [idCategory] (a failure throws into the catch); the new document is
    built from the same values by the same casts. *)
Definition post_view (mf : faults) (uid : Z) (id : string) (idCategory : jsval) (s : store)
    : st_response * store :=
  if negb (truthy idCategory)
  then (mkStResponse 400 (SMsg "idCategory are required" None), s)
  else match query_number "idProject" (JStr id), query_number "idCategory" idCategory with
       | Ok p, Ok c =>
           if fails MFindOne mf then (st_internal_error, s) else
           match find_one (owned_in uid p c) s with
           | Some _ => (mkStResponse 200 (SMsg "User already viewed this project" (Some 200%Z)), s)
           | None =>
               let d := set_view (Some true) (fresh_stats D (s_next s) uid p c) in
               if fails MSave mf then (st_internal_error, s)
               else (mkStResponse 201 (SResult d 201), save_new d s)
           end
       | _, _ => (st_internal_error, s)
       end.

(** What the catch block of [PUT /:id/stats/views] throws: it logs the
    unbound name [error] (its parameter is [err]). *)
Definition views_catch_error : string := "ReferenceError: error is not defined".

(** Lines 64-77: [PUT /:id/stats/views]. Whatever lands in its catch
    block, a failed cast or a rejected [findOne] or [save()], rejects the
    route's promise with [views_catch_error]. *)
Definition put_views (mf : faults) (uid : Z) (id : string) (s : store) : st_outcome * store :=
  match query_number "idProject" (JStr id) with
  | Err _ => (Rejected views_catch_error, s)
  | Ok p =>
      if fails MFindOne mf then (Rejected views_catch_error, s) else
      match find_one (owned_by uid p) s with
      | None => (Sent (mkStResponse 404 (SMsg "Stats not found" None)), s)
      | Some d =>
          let d' := set_view (Some true) d in
          if fails MSave mf then (Rejected views_catch_error, s)
          else (Sent (mkStResponse 200 (SDoc d')), save_found d' s)
      end
  end.

(** Lines 79-93: [POST /:id/stats/like]: a new document on every call,
    the casts checked by [save()]. *)
Definition post_like (mf : faults) (uid : Z) (id : string) (idCategory : jsval) (s : store)
    : st_response * store :=
  match query_number "idProject" (JStr id), query_number "idCategory" idCategory with
  | Ok p, Ok c =>
      let d := set_like (Some true) (fresh_stats D (s_next s) uid p c) in
      if fails MSave mf then (st_internal_error, s) else (mkStResponse 201 (SDoc d), save_new d s)
  | _, _ => (st_internal_error, s)
  end.

(** [stats.path = v] on a [Boolean] path: mongoose casts on assignment and
    a failed cast makes [save()] reject. *)
Definition assign_flag (path : string) (v : jsval) : result (option bool) cast_error :=
  match cast_boolean path v with
  | Ok (Some (SBool b)) => Ok (Some b)
  | Ok _ => Ok None
  | Err e => Err e
  end.

(** Lines 102-108: the evaluation. *)
Definition apply_evaluation (evaluation evaluationStatus : jsval) (d : stats_doc)
    : result stats_doc cast_error :=
  if bool_decide (evaluation = JStr "likes") then
    b <- assign_flag "like" evaluationStatus ;; Ok (set_dislike (Some false) (set_like b d))
  else if bool_decide (evaluation = JStr "dislikes") then
    b <- assign_flag "dislike" evaluationStatus ;; Ok (set_dislike b (set_like (Some false) d))
  else Ok d.

(** Lines 109-111: [stats.funded += Number(fund)]; [undefined + n] and
    [n + NaN] are [NaN], which the [Number] path refuses on [save()].
    [funded] is a number or unset: the router's documents come from
    [fresh_stats] with the schema's defaults, which [schema_defaults]
    takes to be a number or none, and no route writes [null] (for
    which [null + n] would be [n]). *)
Definition apply_fund (fund : jsval) (d : stats_doc) : result stats_doc cast_error :=
  if truthy fund then
    match st_funded d, js_Number fund with
    | Some f, Some n => Ok (set_funded (Some (f + n)%Z) d)
    | _, _ => Err (CastError "funded")
    end
  else Ok d.

(** Lines 112-114. *)
Definition apply_collaboration (collaboration : jsval) (d : stats_doc) : stats_doc :=
  if truthy collaboration then set_collaborator (Some true) d else d.

(** Lines 95-121: [PUT /:id/stats]. *)
Definition put_stats (mf : faults) (uid : Z) (id : string)
    (evaluation fund collaboration evaluationStatus : jsval) (s : store) : st_response * store :=
  match query_number "idProject" (JStr id) with
  | Err _ => (st_internal_error, s)
  | Ok p =>
      if fails MFindOne mf then (st_internal_error, s) else
      match find_one (owned_by uid p) s with
      | None => (mkStResponse 404 (SMsg "Stats not found" (Some 404%Z)), s)
      | Some d =>
          match (d1 <- apply_evaluation evaluation evaluationStatus d ;;
                 d2 <- apply_fund fund d1 ;;
                 Ok (apply_collaboration collaboration d2)) with
          | Err _ => (st_internal_error, s)
          | Ok d' =>
              if fails MSave mf then (st_internal_error, s)
              else (mkStResponse 200 (SResult d' 200), save_found d' s)
          end
      end
  end.

(** Lines 123-159: [GET /stats/percentageViews]. *)
Definition percentage_views (mf : faults) (s : store) : st_response :=
  if fails MAggregate mf then st_internal_error else
  let g := group_views (sdocs s) in
  match g with
  | [] => mkStResponse 404 (SMsg "No projects found" None)
  | _ :: _ =>
      let total := total_views g in
      mkStResponse 200 (SPercent (map (fun c => (fst c, percentage (snd c) total)) g))
  end.

(** ** The router *)

Inductive st_request :=
| SqGetUser (bearer : option token) (id : string)
| SqGetProject (id : string)
| SqPostView (bearer : option token) (id : string) (idCategory : jsval)
| SqPutViews (bearer : option token) (id : string)
| SqPostLike (bearer : option token) (id : string) (idCategory : jsval)
| SqPutStats (bearer : option token) (id : string) (evaluation fund collaboration evaluationStatus : jsval)
| SqPercentages.

(** [verifyUserLogged] in front of a route: 401 without a valid token. *)
Definition with_user (secret : string) (now : Z) (bearer : option token) (s : store)
    (k : Z -> st_outcome * store) : st_outcome * store :=
  match verifyUserLogged secret now bearer with
  | None => (Sent (mkStResponse 401 SUnauthorized), s)
  | Some uid => k uid
  end.

Definition sent (p : st_response * store) : st_outcome * store := (Sent (fst p), snd p).

(** The routes of lines 8, 26, 39, 64, 79, 95 and 123. *)
Definition handle_stats (secret : string) (now : Z) (mf : faults) (rq : st_request) (s : store)
    : st_outcome * store :=
  match rq with
  | SqGetUser bearer id => with_user secret now bearer s (fun uid => (Sent (get_user_stats mf uid id s), s))
  | SqGetProject id => (Sent (get_project_stats id s), s)
  | SqPostView bearer id c => with_user secret now bearer s (fun uid => sent (post_view mf uid id c s))
  | SqPutViews bearer id => with_user secret now bearer s (fun uid => put_views mf uid id s)
  | SqPostLike bearer id c => with_user secret now bearer s (fun uid => sent (post_like mf uid id c s))
  | SqPutStats bearer id ev f col es =>
      with_user secret now bearer s (fun uid => sent (put_stats mf uid id ev f col es s))
  | SqPercentages => (Sent (percentage_views mf s), s)
  end.

(** The user a request is made for, when it carries a valid token. *)
Definition request_user (secret : string) (now : Z) (rq : st_request) : option Z :=
  match rq with
  | SqGetUser b _ | SqPostView b _ _ | SqPutViews b _ | SqPostLike b _ _ | SqPutStats b _ _ _ _ _ =>
      verifyUserLogged secret now b
  | SqGetProject _ | SqPercentages => None
  end.

Inductive st_step (secret : string) : store -> store -> Prop :=
| StStep now mf rq s : st_step secret s (snd (handle_stats secret now mf rq s)).

Inductive st_reachable (secret : string) : store -> Prop :=
| st_reach_init : st_reachable secret (mkStore [] 1)
| st_reach_step s s' : st_reachable secret s -> st_step secret s s' -> st_reachable secret s'.

End Router.

Arguments Sent {Summary} r.
Arguments Rejected {Summary} what.
Arguments mkStResponse {Summary} st_status st_body.
Arguments SDoc {Summary} d.
Arguments SResult {Summary} d code.
Arguments SMsg {Summary} m code.
Arguments SFirst {Summary} x.
Arguments SPercent {Summary} l.
Arguments SUnauthorized {Summary}.
Arguments st_internal_error {Summary}.
Arguments st_status {Summary} _.
Arguments st_body {Summary} _.

(** ** Invariant *)

(** A stored document belongs to a user and is not both liked and
    disliked. *)
Definition doc_ok (d : stats_doc) : Prop :=
  st_idUser d <> None /\ ~ (st_like d = Some true /\ st_dislike d = Some true).

Definition store_wf (s : store) : Prop :=
  NoDup (map st_id (sdocs s)) /\ Forall (fun d => (st_id d < s_next s)%Z) (sdocs s) /\
  Forall doc_ok (sdocs s).

(** How a handler changes the store for the user [uid]: not at all, by
    appending a new document of [uid] under the next [_id], or by saving
    a document of [uid] it found, keeping its [_id] and its owner. *)
Definition store_effect (D : schema_defaults) (uid : Z) (s s' : store) : Prop :=
  s' = s \/
  (exists d, s' = save_new d s /\ st_id d = s_next s /\ st_idUser d = Some uid /\
             (d_dislike D <> Some true -> doc_ok d)) \/
  (exists d0 d', In d0 (sdocs s) /\ st_idUser d0 = Some uid /\ st_id d' = st_id d0 /\
     st_idUser d' = Some uid /\ (doc_ok d0 -> doc_ok d') /\ s' = save_found d' s).

(** ** Lemmas *)

Ltac doc_ok_solve := unfold doc_ok in *; simpl in *; intuition congruence.

Lemma find_one_Some (f : stats_doc -> bool) (s : store) (d : stats_doc) :
  find_one f s = Some d -> In d (sdocs s) /\ f d = true.
Proof. apply find_some. Qed.

Lemma owned_by_true (uid : Z) (p : option Z) (d : stats_doc) :
  owned_by uid p d = true -> st_idUser d = Some uid /\ st_idProject d = p.
Proof. unfold owned_by. rewrite andb_true_iff, !bool_decide_eq_true. done. Qed.

Lemma owned_in_true (uid : Z) (p c : option Z) (d : stats_doc) :
  owned_in uid p c d = true -> st_idUser d = Some uid /\ st_idProject d = p /\ st_idCategory d = c.
Proof. unfold owned_in. rewrite andb_true_iff, bool_decide_eq_true. intros [[? ?]%owned_by_true ?]. done. Qed.

Section Effects.
Context {Summary : Type} {TN : JsToNumber}.
Variable D : schema_defaults.
(** The three steps of [PUT /:id/stats] keep the [_id] and the owner, and
    never leave a document both liked and disliked. *)
Lemma apply_evaluation_Ok (ev es : jsval) (d d' : stats_doc) :
  apply_evaluation ev es d = Ok d' ->
  st_id d' = st_id d /\ st_idUser d' = st_idUser d /\ (doc_ok d -> doc_ok d').
Proof.
  unfold apply_evaluation, result_bind. repeat case_match; simpl; intros; simplify_eq; try done; doc_ok_solve.
Qed.

Lemma apply_fund_Ok (fund : jsval) (d d' : stats_doc) :
  apply_fund fund d = Ok d' ->
  st_id d' = st_id d /\ st_idUser d' = st_idUser d /\ (doc_ok d -> doc_ok d').
Proof. unfold apply_fund. repeat case_match; intros; simplify_eq; done. Qed.

Lemma apply_collaboration_keys (col : jsval) (d : stats_doc) :
  st_id (apply_collaboration col d) = st_id d /\ st_idUser (apply_collaboration col d) = st_idUser d /\
  (doc_ok d -> doc_ok (apply_collaboration col d)).
Proof. unfold apply_collaboration. case_match; done. Qed.

Lemma put_update_Ok (ev f col es : jsval) (d d' : stats_doc) :
  (d1 <- apply_evaluation ev es d ;; d2 <- apply_fund f d1 ;; Ok (apply_collaboration col d2)) = Ok d' ->
  st_id d' = st_id d /\ st_idUser d' = st_idUser d /\ (doc_ok d -> doc_ok d').
Proof.
  destruct (apply_evaluation ev es d) as [d1|] eqn:H1; [|done]. simpl.
  destruct (apply_fund f d1) as [d2|] eqn:H2; [|done]. simpl. intros [= <-].
  apply apply_evaluation_Ok in H1 as (? & ? & ?). apply apply_fund_Ok in H2 as (? & ? & ?).
  destruct (apply_collaboration_keys col d2) as (? & ? & ?). split; [congruence|]. split; [congruence|]. auto.
Qed.

Lemma fresh_stats_ok (oid uid : Z) (p c : option Z) (f : stats_doc -> stats_doc) :
  d_dislike D <> Some true ->
  (forall d, st_idUser (f d) = st_idUser d) ->
  (forall d, st_dislike (f d) = st_dislike d) ->
  doc_ok (f (fresh_stats D oid uid p c)).
Proof. intros HD Hu Hd. unfold doc_ok. rewrite Hu, Hd. simpl. intuition congruence. Qed.

Lemma post_view_effect (mf : faults) (uid : Z) (id : string) (c : jsval) (s : store) :
  store_effect D uid s (snd (post_view Summary D mf uid id c s)).
Proof.
  unfold post_view. destruct (negb (truthy c)); [left; done|].
  destruct (query_number "idProject" (JStr id)) as [p|], (query_number "idCategory" c) as [k|];
    try (left; done).
  destruct (fails MFindOne mf); [left; done|].
  destruct (find_one (owned_in uid p k) s); [left; done|]. destruct (fails MSave mf); [left; done|].
  right; left. eexists. split; [done|]. split; [done|]. split; [done|]. intros HD. by apply fresh_stats_ok.
Qed.

Lemma post_like_effect (mf : faults) (uid : Z) (id : string) (c : jsval) (s : store) :
  store_effect D uid s (snd (post_like Summary D mf uid id c s)).
Proof.
  unfold post_like.
  destruct (query_number "idProject" (JStr id)) as [p|], (query_number "idCategory" c) as [k|];
    try (left; done).
  destruct (fails MSave mf); [left; done|]. right; left. eexists. split; [done|]. split; [done|]. split; [done|]. intros HD. by apply fresh_stats_ok.
Qed.

Lemma put_views_effect (mf : faults) (uid : Z) (id : string) (s : store) :
  store_effect D uid s (snd (put_views Summary mf uid id s)).
Proof.
  unfold put_views. destruct (query_number "idProject" (JStr id)) as [p|]; [|left; done].
  destruct (fails MFindOne mf); [left; done|].
  destruct (find_one (owned_by uid p) s) as [d|] eqn:Hf; [|left; done]. destruct (fails MSave mf); [left; done|].
  apply find_one_Some in Hf as [Hin [Hu _]%owned_by_true].
  right; right. exists d, (set_view (Some true) d). doc_ok_solve.
Qed.

Lemma put_stats_effect (mf : faults) (uid : Z) (id : string) (ev f col es : jsval) (s : store) :
  store_effect D uid s (snd (put_stats Summary mf uid id ev f col es s)).
Proof.
  unfold put_stats. destruct (query_number "idProject" (JStr id)) as [p|]; [|left; done].
  destruct (fails MFindOne mf); [left; done|].
  destruct (find_one (owned_by uid p) s) as [d|] eqn:Hf; [|left; done].
  apply find_one_Some in Hf as [Hin [Hu _]%owned_by_true].
  destruct (_ <- _ ;; _) as [d'|] eqn:Hput; [|left; done]. destruct (fails MSave mf); [left; done|].
  apply put_update_Ok in Hput as (Hid & Hu' & Hok).
  right; right. exists d, d'. rewrite Hu' in *. done.
Qed.

Lemma handle_stats_effect (gps : option Z -> store -> result (option (list Summary)) unit)
    {HS : Hs256} (secret : string) (now : Z) (mf : faults) (rq : st_request) (s : store) :
  snd (handle_stats Summary D gps secret now mf rq s) = s \/
  exists uid, request_user secret now rq = Some uid /\
              store_effect D uid s (snd (handle_stats Summary D gps secret now mf rq s)).
Proof.
  destruct rq; cbn [handle_stats request_user]; try (left; done); unfold with_user;
    destruct (verifyUserLogged secret now _) as [uid|]; try (left; done); right; exists uid;
    split; try done; cbn [snd sent];
    first [apply post_view_effect | apply put_views_effect | apply post_like_effect | apply put_stats_effect].
Qed.

End Effects.

(** ** Saving keeps the invariant *)

Lemma save_found_ids (d : stats_doc) (s : store) :
  map st_id (sdocs (save_found d s)) = map st_id (sdocs s).
Proof. apply map_key_preserving. intros x. destruct (Z.eqb_spec (st_id x) (st_id d)); done. Qed.

Lemma in_save_found (d y : stats_doc) (s : store) :
  In y (sdocs (save_found d s)) -> y = d \/ (In y (sdocs s) /\ st_id y <> st_id d).
Proof.
  simpl. intros (x & <- & Hx)%in_map_iff.
  destruct (Z.eqb_spec (st_id x) (st_id d)); [left|right]; done.
Qed.

Lemma save_found_keeps (d x : stats_doc) (s : store) :
  In x (sdocs s) -> st_id x <> st_id d -> In x (sdocs (save_found d s)).
Proof.
  intros Hx Hne. simpl. apply in_map_iff. exists x. split; [|done].
  destruct (Z.eqb_spec (st_id x) (st_id d)); done.
Qed.

Lemma store_wf_save_new (d : stats_doc) (s : store) :
  store_wf s -> st_id d = s_next s -> doc_ok d -> store_wf (save_new d s).
Proof.
  intros (Hnd & Hlt & Hok) Hid Hd. split; [|split]; simpl.
  - rewrite map_app. apply NoDup_app. split; [done|]. split; [|apply NoDup_singleton].
    intros i Hi ->%list_elem_of_singleton. apply list_elem_of_In, in_map_iff in Hi as (x & Hx & Hin).
    rewrite List.Forall_forall in Hlt. specialize (Hlt x Hin). lia.
  - apply Forall_app. split; [|constructor; [lia|constructor]].
    eapply Forall_impl; [exact Hlt|]. simpl. lia.
  - apply Forall_app. split; [done|]. constructor; [done|constructor].
Qed.

Lemma store_wf_save_found (d0 d : stats_doc) (s : store) :
  store_wf s -> In d0 (sdocs s) -> st_id d = st_id d0 -> doc_ok d -> store_wf (save_found d s).
Proof.
  intros (Hnd & Hlt & Hok) Hin Hid Hd. rewrite List.Forall_forall in Hlt, Hok.
  split; [|split]; [rewrite save_found_ids; done| |]; apply List.Forall_forall;
    intros y [->|[Hy _]]%in_save_found; simpl; auto.
  rewrite Hid. auto.
Qed.

Lemma store_wf_effect (D : schema_defaults) (uid : Z) (s s' : store) :
  d_dislike D <> Some true -> store_wf s -> store_effect D uid s s' -> store_wf s'.
Proof.
  intros HD Hwf [->|[(d & -> & Hid & _ & Hd)|(d0 & d & Hin & _ & Hid & _ & Hok & ->)]]; [done| |].
  - apply store_wf_save_new; auto.
  - eapply store_wf_save_found; [done|exact Hin|done|]. apply Hok.
    destruct Hwf as (_ & _ & Hall). rewrite List.Forall_forall in Hall. auto.
Qed.

(** A change of the store for [uid] keeps every document of another user
    and adds only documents of [uid]. *)
Lemma store_effect_frame (D : schema_defaults) (uid : Z) (s s' : store) :
  NoDup (map st_id (sdocs s)) -> store_effect D uid s s' ->
  (forall d, In d (sdocs s) -> st_idUser d <> Some uid -> In d (sdocs s')) /\
  (forall d, In d (sdocs s') -> ~ In d (sdocs s) -> st_idUser d = Some uid).
Proof.
  intros Hnd [->|[(d & -> & _ & Hu & _)|(d0 & d & Hin & Hu0 & Hid & Hu & _ & ->)]]; [done| |]; split.
  - intros x Hx _. simpl. apply in_or_app. left. done.
  - intros x [Hx|[<-|[]]]%in_app_or Hn; [done|done].
  - intros x Hx Hxu. apply save_found_keeps; [done|]. rewrite Hid. intros Heq.
    assert (x = d0) as -> by (eapply NoDup_map_inj_in; eauto). done.
  - intros x [->|[Hx _]]%in_save_found Hn; done.
Qed.

(** ** The [$group] stage and the percentages *)

(** The number of documents whose [view] is [true]. *)
Definition count_viewed (l : list stats_doc) : Z :=
  Z.of_nat (List.length (List.filter (fun d => bool_decide (st_view d = Some true)) l)).

(** The number of viewed documents of the category [k]. *)
Definition cat_views (k : option Z) (l : list stats_doc) : Z :=
  count_viewed (List.filter (fun d => bool_decide (st_idCategory d = k)) l).

(** What the grouping has computed after reading the documents [l0]: one
    entry per category that occurs in [l0], holding its viewed count. *)
Definition group_inv (l0 : list stats_doc) (acc : list (option Z * Z)) : Prop :=
  NoDup (map fst acc) /\
  (forall k, In k (map fst acc) <-> exists d, In d l0 /\ st_idCategory d = k) /\
  (forall k n, In (k, n) acc -> n = cat_views k l0).

Lemma count_viewed_app (l1 l2 : list stats_doc) :
  count_viewed (l1 ++ l2) = (count_viewed l1 + count_viewed l2)%Z.
Proof. unfold count_viewed. rewrite List.filter_app, length_app. lia. Qed.

Lemma count_viewed_single (d : stats_doc) : count_viewed [d] = view_count d.
Proof. unfold count_viewed, view_count. simpl. case_bool_decide; done. Qed.

Lemma count_viewed_filter (f : stats_doc -> bool) (l : list stats_doc) :
  (0 <= count_viewed (List.filter f l) <= count_viewed l)%Z.
Proof.
  unfold count_viewed. split; [lia|]. apply inj_le.
  induction l as [|d l IH]; simpl; [lia|].
  destruct (f d); simpl; destruct (bool_decide (st_view d = Some true)); simpl; lia.
Qed.

Lemma cat_views_snoc (k : option Z) (l0 : list stats_doc) (d : stats_doc) :
  cat_views k (l0 ++ [d]) =
    (cat_views k l0 + if bool_decide (st_idCategory d = k) then view_count d else 0)%Z.
Proof.
  unfold cat_views. rewrite List.filter_app, count_viewed_app. simpl.
  case_bool_decide; [rewrite count_viewed_single|]; done.
Qed.

Lemma cat_views_absent (k : option Z) (l0 : list stats_doc) :
  (forall d, In d l0 -> st_idCategory d <> k) -> cat_views k l0 = 0%Z.
Proof.
  intros Hk. unfold cat_views. induction l0 as [|d l0 IH]; [done|]. simpl.
  rewrite bool_decide_false by (apply Hk; left; done). apply IH. intros d' Hd'. apply Hk. right. done.
Qed.

Lemma bump_keys (k0 : option Z) (v : Z) (acc : list (option Z * Z)) (k : option Z) :
  In k (map fst (bump k0 v acc)) <-> k = k0 \/ In k (map fst acc).
Proof.
  induction acc as [|[k' n'] acc IH]; simpl; [intuition congruence|].
  case_bool_decide as Hk; simpl; [subst k'; intuition congruence|]. rewrite IH. intuition.
Qed.

Lemma bump_NoDup (k0 : option Z) (v : Z) (acc : list (option Z * Z)) :
  NoDup (map fst acc) -> NoDup (map fst (bump k0 v acc)).
Proof.
  induction acc as [|[k' n'] acc IH]; simpl; intros Hnd; [apply NoDup_singleton|].
  apply NoDup_cons in Hnd as [Hn Hnd]. case_bool_decide; simpl; apply NoDup_cons; [done|].
  split; [|auto]. intros Hin%list_elem_of_In. apply bump_keys in Hin as [->|Hin]; [done|].
  apply Hn, list_elem_of_In. done.
Qed.

(** With distinct keys, [bump] adds [v] to the entry of [k0], or appends
    a new entry [(k0, v)], and keeps the other entries. *)
Lemma bump_in (k0 : option Z) (v : Z) (acc : list (option Z * Z)) (k : option Z) (n : Z) :
  NoDup (map fst acc) -> In (k, n) (bump k0 v acc) ->
  (k = k0 /\ ((exists n0, In (k0, n0) acc /\ n = (n0 + v)%Z) \/ (~ In k0 (map fst acc) /\ n = v))) \/
  (k <> k0 /\ In (k, n) acc).
Proof.
  induction acc as [|[k' n'] acc IH]; simpl; intros Hnd Hin.
  - destruct Hin as [[= -> ->]|[]]. left. auto.
  - apply NoDup_cons in Hnd as [Hn Hnd]. case_bool_decide as Hk; simpl in Hin.
    + subst k'. destruct Hin as [[= -> <-]|Hin]; [left; split; [done|left; exists n'; split; [left|]; done]|].
      right. split; [|auto]. intros ->. apply Hn, list_elem_of_In, in_map_iff. exists (k0, n). done.
    + destruct Hin as [[= -> ->]|Hin]; [right; auto|].
      destruct (IH Hnd Hin) as [(-> & [(n0 & Hn0 & ->)|(Hnk & ->)])|(Hk' & Hin')].
      * left. split; [done|]. left. exists n0. split; [right|]; done.
      * left. split; [done|]. right. split; [|done]. intros [?|?]; [congruence|done].
      * right. split; [done|]. right. done.
Qed.

Lemma bump_total (k0 : option Z) (v : Z) (acc : list (option Z * Z)) :
  total_views (bump k0 v acc) = (total_views acc + v)%Z.
Proof.
  assert (Hf : forall g a, fold_left (fun acc c => acc + snd c)%Z g a = (a + total_views g)%Z).
  { unfold total_views. induction g as [|c g IH]; intros a; simpl; [lia|]. rewrite !(IH (_ + _)%Z). lia. }
  induction acc as [|[k' n'] acc IH]; simpl; [unfold total_views; simpl; lia|].
  case_bool_decide; unfold total_views; simpl; rewrite !Hf; [lia|]. fold (total_views (bump k0 v acc)). lia.
Qed.

Lemma group_inv_step (l0 : list stats_doc) (acc : list (option Z * Z)) (d : stats_doc) :
  group_inv l0 acc -> group_inv (l0 ++ [d]) (bump (st_idCategory d) (view_count d) acc).
Proof.
  intros (Hnd & Hkeys & Hcnt). split; [|split].
  - apply bump_NoDup. done.
  - intros k. rewrite bump_keys, Hkeys. setoid_rewrite in_app_iff. simpl. split.
    + intros [->|(d' & ? & ?)]; eauto.
    + intros (d' & [?|[<-|[]]] & <-); eauto.
  - intros k n Hin. rewrite cat_views_snoc.
    destruct (bump_in _ _ _ _ _ Hnd Hin) as [(-> & [(n0 & Hn0 & ->)|(Hnk & ->)])|(Hk & Hin')].
    + rewrite bool_decide_true by done. rewrite (Hcnt _ _ Hn0). done.
    + rewrite bool_decide_true by done. rewrite cat_views_absent; [done|].
      intros d' Hd' Hc. apply Hnk, Hkeys. eauto.
    + rewrite bool_decide_false by congruence. rewrite (Hcnt _ _ Hin'). lia.
Qed.

Lemma group_fold_inv (l0 l : list stats_doc) (acc : list (option Z * Z)) :
  group_inv l0 acc ->
  group_inv (l0 ++ l) (fold_left (fun acc d => bump (st_idCategory d) (view_count d) acc) l acc).
Proof.
  revert l0 acc. induction l as [|d l IH]; intros l0 acc Hinv; simpl; [rewrite app_nil_r; done|].
  replace (l0 ++ d :: l)%list with ((l0 ++ [d]) ++ l)%list by (rewrite <- app_assoc; done).
  apply IH, group_inv_step. done.
Qed.

Lemma group_views_inv (l : list stats_doc) : group_inv l (group_views l).
Proof.
  apply (group_fold_inv [] l []). split; [constructor|]. split; [|done].
  intros k. simpl. split; [done|]. intros (? & [] & _).
Qed.

Lemma group_fold_total (l : list stats_doc) (acc : list (option Z * Z)) :
  total_views (fold_left (fun acc d => bump (st_idCategory d) (view_count d) acc) l acc) =
    (total_views acc + count_viewed l)%Z.
Proof.
  revert acc. induction l as [|d l IH]; intros acc; simpl; [unfold count_viewed; simpl; lia|].
  rewrite IH, bump_total. replace (d :: l)%list with ([d] ++ l)%list by done.
  rewrite count_viewed_app, count_viewed_single. lia.
Qed.

Lemma group_views_total (l : list stats_doc) : total_views (group_views l) = count_viewed l.
Proof. unfold group_views. rewrite group_fold_total. done. Qed.

Lemma group_views_nil (l : list stats_doc) : group_views l = [] <-> l = [].
Proof.
  split; [|intros ->; done]. intros Hg. destruct l as [|d l]; [done|].
  destruct (group_views_inv (d :: l)) as (_ & Hkeys & _). rewrite Hg in Hkeys.
  destruct (proj2 (Hkeys (st_idCategory d))) as []. exists d. split; [left|]; done.
Qed.

(** [toFixed(2)] of a share of the views is a number of hundredths
    between 0 and 10000 (0.00% to 100.00%). *)
Lemma percentage_range (v t : Z) :
  (0 <= v <= t)%Z -> (0 < t)%Z -> exists h, percentage v t = Some h /\ (0 <= h <= 10000)%Z.
Proof.
  intros Hv Ht. unfold percentage. rewrite (proj2 (Z.eqb_neq t 0)) by lia. eexists. split; [done|].
  split; [apply Z.div_pos; lia|]. apply Z.lt_succ_r, Z.div_lt_upper_bound; lia.
Qed.

Lemma find_one_save_new (f : stats_doc -> bool) (d : stats_doc) (s : store) :
  find_one f s = None -> f d = true -> find_one f (save_new d s) = Some d.
Proof.
  unfold find_one, save_new. simpl. generalize (sdocs s). intros l Hl Hd.
  induction l as [|x l IH]; simpl in *; [rewrite Hd; done|]. destruct (f x); [done|]. auto.
Qed.

Lemma find_one_save_new_some (f : stats_doc -> bool) (d : stats_doc) (s : store) :
  f d = true -> exists x, find_one f (save_new d s) = Some x.
Proof.
  unfold find_one, save_new. simpl. generalize (sdocs s). intros l Hd.
  induction l as [|x l IH]; simpl; [rewrite Hd; eauto|]. destruct (f x); eauto.
Qed.

(** mongoose casts a non-empty string for a [Number] path as [Number]
    does. *)
Lemma query_number_JStr {TN : JsToNumber} (path str : string) :
  str <> "" ->
  query_number path (JStr str) =
    match js_Number (JStr str) with Some n => Ok (Some n) | None => Err (CastError path) end.
Proof.
  intros Hs. destruct str as [|a str]; [done|]. unfold query_number, cast_number. simpl.
  destruct (string_to_number (String a str)); done.
Qed.

Section Funds.
Context {TN : JsToNumber}.

(** [PUT /:id/stats] adds [Number(fund)] to a [funded] number it finds,
    and leaves [funded] alone when [fund] is falsy. *)
Lemma put_update_funded (ev f col es : jsval) (d d' : stats_doc) :
  (d1 <- apply_evaluation ev es d ;; d2 <- apply_fund f d1 ;; Ok (apply_collaboration col d2)) = Ok d' ->
  if truthy f
  then exists a n, st_funded d = Some a /\ js_Number f = Some n /\ st_funded d' = Some (a + n)%Z
  else st_funded d' = st_funded d.
Proof.
  assert (He : forall d1, apply_evaluation ev es d = Ok d1 -> st_funded d1 = st_funded d).
  { unfold apply_evaluation, result_bind. repeat case_match; intros; simplify_eq; done. }
  assert (Hc : forall d2, st_funded (apply_collaboration col d2) = st_funded d2).
  { unfold apply_collaboration. intros d2. case_match; done. }
  destruct (apply_evaluation ev es d) as [d1|] eqn:H1; [|done]. simpl.
  destruct (apply_fund f d1) as [d2|] eqn:H2; [|done]. simpl. intros [= <-].
  rewrite Hc, <- (He d1 eq_refl). unfold apply_fund in H2. destruct (truthy f); [|congruence].
  destruct (st_funded d1) as [a|], (js_Number f) as [n|]; try done. injection H2 as <-. eauto.
Qed.

End Funds.

(** ** Properties of the statistics router *)

Section Props.
Context {Summary : Type} {HS : Hs256} {TN : JsToNumber}.
Variable D : schema_defaults.
Variable gps : option Z -> store -> result (option (list Summary)) unit.

(** (C20) Every store the router can reach holds documents with distinct
    [_id]s below the counter, each belonging to a user and never both
    liked and disliked, provided the schema does not default [dislike]
    to [true]. *)
Theorem stats_reachable_wf (secret : string) (s : store) :
  d_dislike D <> Some true -> st_reachable Summary D gps secret s -> store_wf s.
Proof.
  intros HD. induction 1 as [|s s' _ IH Hstep].
  - split; [constructor|split; constructor].
  - revert IH. destruct Hstep as [now mf rq s0]. intros IH.
    destruct (handle_stats_effect D gps secret now mf rq s0) as [->|(uid & _ & Heff)]; [done|].
    eapply store_wf_effect; eauto.
Qed.

(** (C21) A request changes only its own user's documents: a request that
    changes the store carries a valid token for some user; every document
    of any other user is still there, unchanged, and every document that
    was not there before belongs to the requesting user. *)
Theorem stats_only_own_documents (secret : string) (now : Z) (mf : faults) (rq : st_request) (s : store) :
  store_wf s ->
  snd (handle_stats Summary D gps secret now mf rq s) = s \/
  exists uid, request_user secret now rq = Some uid /\
    (forall d, In d (sdocs s) -> st_idUser d <> Some uid ->
               In d (sdocs (snd (handle_stats Summary D gps secret now mf rq s)))) /\
    (forall d, In d (sdocs (snd (handle_stats Summary D gps secret now mf rq s))) -> ~ In d (sdocs s) ->
               st_idUser d = Some uid).
Proof.
  intros (Hnd & _ & _). destruct (handle_stats_effect D gps secret now mf rq s) as [?|(uid & Hu & Heff)];
    [left; done|right]. exists uid. split; [done|]. eapply store_effect_frame; eauto.
Qed.

(** Registering a view is idempotent: a second identical
    [POST /:id/stats], to which the database answers as it did to the
    first, leaves the store as the first one left it and does not answer
    201 again. *)
Theorem post_view_idempotent (mf : faults) (uid : Z) (id : string) (c : jsval) (s : store) :
  snd (post_view Summary D mf uid id c (snd (post_view Summary D mf uid id c s))) =
    snd (post_view Summary D mf uid id c s) /\
  st_status (fst (post_view Summary D mf uid id c (snd (post_view Summary D mf uid id c s)))) <> 201%Z.
Proof.
  unfold post_view. destruct (negb (truthy c)); [done|].
  destruct (query_number "idProject" (JStr id)) as [p|], (query_number "idCategory" c) as [k|]; try done.
  destruct (fails MFindOne mf) eqn:Hfo; [done|].
  destruct (find_one (owned_in uid p k) s) as [d|] eqn:Hf; simpl; rewrite ?Hfo; [rewrite Hf; done|].
  destruct (fails MSave mf) eqn:Hsv; simpl; rewrite ?Hfo; [rewrite Hf; done|].
  rewrite (find_one_save_new _ _ _ Hf); [done|].
  unfold owned_in, owned_by. simpl. rewrite !bool_decide_true by done. done.
Qed.

(** Likes are not idempotent: each [POST /:id/stats/like] whose
    values cast appends a new liked document of the caller for the
    project, so two likes leave two more documents with distinct [_id]s. *)
Theorem post_like_duplicates (mf : faults) (uid : Z) (id : string) (c : jsval) (p k : option Z) (s : store) :
  query_number "idProject" (JStr id) = Ok p -> query_number "idCategory" c = Ok k -> fails MSave mf = false ->
  exists d1 d2,
    sdocs (snd (post_like Summary D mf uid id c (snd (post_like Summary D mf uid id c s)))) =
      (sdocs s ++ [d1; d2])%list /\
    owned_in uid p k d1 = true /\ owned_in uid p k d2 = true /\
    st_like d1 = Some true /\ st_like d2 = Some true /\ st_id d1 <> st_id d2.
Proof.
  intros Hp Hk Hs. unfold post_like. rewrite Hp, Hk, Hs. simpl. eexists _, _.
  split; [rewrite <- app_assoc; done|].
  unfold owned_in, owned_by. simpl. rewrite !bool_decide_true by done. repeat split; simpl; lia.
Qed.

(** (C37) A contribution is added to the total: when [PUT /:id/stats]
    answers 200 with a truthy [fund], the caller's document for the
    project had a [funded] number [a], [Number(fund)] is a number [n] (of
    either sign: nothing refuses a negative amount), and the saved
    document holds [a + n]. *)
Theorem put_stats_fund (mf : faults) (uid : Z) (id : string) (ev fund col es : jsval) (s s' : store)
    (d' : stats_doc) :
  truthy fund = true ->
  put_stats Summary mf uid id ev fund col es s = (mkStResponse 200 (SResult d' 200), s') ->
  exists p d a n, query_number "idProject" (JStr id) = Ok p /\ find_one (owned_by uid p) s = Some d /\
    st_funded d = Some a /\ js_Number fund = Some n /\ st_funded d' = Some (a + n)%Z /\
    s' = save_found d' s.
Proof.
  intros Hf. unfold put_stats.
  destruct (query_number "idProject" (JStr id)) as [p|]; [|done]. destruct (fails MFindOne mf); [done|].
  destruct (find_one (owned_by uid p) s) as [d|] eqn:Hd; [|done].
  destruct (_ <- _ ;; _) as [d''|] eqn:Hput; [|done]. destruct (fails MSave mf); [done|]. intros [= <- <-].
  apply put_update_funded in Hput. rewrite Hf in Hput. destruct Hput as (a & n & ? & ? & ?).
  exists p, d, a, n. done.
Qed.

(** A [:id] that does not cast to a number makes
    [PUT /:id/stats/views] reject with a [ReferenceError] from its catch
    block, sending no response of its own, where [PUT /:id/stats] answers
    the generic 500; neither changes the store. *)
Theorem put_views_rejects (mf : faults) (uid : Z) (id : string) (e : cast_error) (ev fund col es : jsval)
    (s : store) :
  query_number "idProject" (JStr id) = Err e ->
  put_views Summary mf uid id s = (Rejected views_catch_error, s) /\
  put_stats Summary mf uid id ev fund col es s = (st_internal_error, s).
Proof. intros He. unfold put_views, put_stats. rewrite He. done. Qed.

(** The cases of the view percentages, from [group_views_inv]. *)
Lemma percentage_views_cases (s : store) :
  (sdocs s = [] -> percentage_views Summary [] s = mkStResponse 404 (SMsg "No projects found" None)) /\
  (sdocs s <> [] -> exists g,
     percentage_views Summary [] s =
       mkStResponse 200 (SPercent (map (fun c => (fst c, percentage (snd c) (count_viewed (sdocs s)))) g)) /\
     NoDup (map fst g) /\
     (forall k, In k (map fst g) <-> exists d, In d (sdocs s) /\ st_idCategory d = k) /\
     (forall k n, In (k, n) g -> n = cat_views k (sdocs s))).
Proof.
  unfold percentage_views. split.
  - intros Hs. rewrite Hs. done.
  - intros Hs. destruct (group_views (sdocs s)) as [|c g] eqn:Hg; [apply group_views_nil in Hg; done|].
    exists (c :: g). rewrite <- Hg, group_views_total. split; [done|]. apply group_views_inv.
Qed.

(** (C36) The view percentages: with no document the route answers 404;
    otherwise it answers 200 with one entry per category occurring in the
    collection (each once), and the entry of category [k] is
    [toFixed(2)] of [100 * v / t], where [v] counts the viewed documents of
    [k] and [t] all viewed documents. *)
Theorem percentage_views_spec (s : store) :
  (sdocs s = [] -> percentage_views Summary [] s = mkStResponse 404 (SMsg "No projects found" None)) /\
  (sdocs s <> [] -> exists g,
     percentage_views Summary [] s =
       mkStResponse 200 (SPercent (map (fun c => (fst c, percentage (snd c) (count_viewed (sdocs s)))) g)) /\
     NoDup (map fst g) /\
     (forall k, In k (map fst g) <-> exists d, In d (sdocs s) /\ st_idCategory d = k) /\
     (forall k n, In (k, n) g -> n = cat_views k (sdocs s))).
Proof. apply percentage_views_cases. Qed.

(** (C29) Every percentage is a number between 0.00 and 100.00 when some
    document is viewed; when documents exist but none is viewed, the
    route still answers 200 and every percentage is ["NaN"] ([0 / 0]). *)
Theorem percentage_views_range (mf : faults) (s : store) (l : list (option Z * option Z)) :
  percentage_views Summary mf s = mkStResponse 200 (SPercent l) ->
  if Z.eqb (count_viewed (sdocs s)) 0 then Forall (fun c => snd c = None) l
  else Forall (fun c => exists h, snd c = Some h /\ (0 <= h <= 10000)%Z) l.
Proof.
  intros H. assert (Hmf : fails MAggregate mf = false).
  { unfold percentage_views in H. destruct (fails MAggregate mf); done. }
  replace (percentage_views Summary mf s) with (percentage_views Summary [] s) in H
    by (unfold percentage_views; rewrite Hmf; done).
  destruct (decide (sdocs s = [])) as [Hs|Hs].
  { rewrite (proj1 (percentage_views_cases s) Hs) in H. done. }
  destruct (proj2 (percentage_views_cases s) Hs) as (g & Hr & _ & _ & Hcnt).
  rewrite Hr in H. injection H as <-.
  destruct (Z.eqb_spec (count_viewed (sdocs s)) 0) as [Hz|Hz]; apply List.Forall_forall;
    intros x ([k n] & <- & Hin)%in_map_iff; simpl; rewrite (Hcnt k n Hin).
  - rewrite Hz. done.
  - apply percentage_range; [apply count_viewed_filter|].
    pose proof (count_viewed_filter (fun _ => true) (sdocs s)). lia.
Qed.

(** A registered view is found: after [POST /:id/stats] answered
    201, [GET /:id/stats/user/] by the same user for the same project,
    whose [findOne] resolves, answers 200. *)
Theorem view_then_get (mf mf' : faults) (uid : Z) (id : string) (c : jsval) (s : store) :
  id <> "" -> fails MFindOne mf' = false -> st_status (fst (post_view Summary D mf uid id c s)) = 201%Z ->
  st_status (get_user_stats Summary mf' uid id (snd (post_view Summary D mf uid id c s))) = 200%Z.
Proof.
  intros Hid Hmf. unfold post_view. destruct (negb (truthy c)); [done|].
  rewrite (query_number_JStr _ _ Hid). unfold get_user_stats.
  destruct (js_Number (JStr id)) as [n|]; [|done].
  destruct (query_number "idCategory" c) as [k|]; [|done]. destruct (fails MFindOne mf); [done|].
  destruct (find_one (owned_in uid (Some n) k) s); [done|].
  destruct (fails MSave mf); [done|]. intros _. simpl. rewrite Hmf.
  destruct (find_one_save_new_some (owned_by uid (Some n))
              (set_view (Some true) (fresh_stats D (s_next s) uid (Some n) k)) s) as [x ->]; [|done].
  unfold owned_by. simpl. rewrite !bool_decide_true by done. done.
Qed.

Ltac unfold_routes :=
  unfold with_user, sent, get_user_stats, post_view, put_views, post_like, put_stats, percentage_views.

(** Only a 200 or 201 answer changes the store. *)
Lemma handle_stats_atomic (secret : string) (now : Z) (mf : faults) (rq : st_request) (s : store) :
  snd (handle_stats Summary D gps secret now mf rq s) <> s ->
  exists r, fst (handle_stats Summary D gps secret now mf rq s) = Sent r /\
            (st_status r = 200%Z \/ st_status r = 201%Z).
Proof. destruct rq; cbn [handle_stats fst snd]; unfold_routes; repeat case_match; simplify_eq/=; naive_solver. Qed.

(** With the server unreachable, a request changes nothing. *)
Lemma handle_stats_down (secret : string) (now : Z) (rq : st_request) (s : store) :
  snd (handle_stats Summary D gps secret now mongo_down rq s) = s.
Proof. destruct rq; cbn [handle_stats fst snd]; unfold_routes; rewrite ?fails_down; repeat case_match; done. Qed.

(** (C31) A failing database leaves no partial write: a request that
    changes the store was answered 200 or 201. With the server
    unreachable no request changes the store; [PUT /:id/stats/views]
    rejects with the [ReferenceError] of its catch block and sends
    nothing; every other route answers 400, 401 or 500, except
    [GET /:id/stats], whose aggregation belongs to [getProjectStats]. *)
Theorem stats_failure_no_effect (secret : string) (now : Z) (mf : faults) (rq : st_request) (s : store) :
  (snd (handle_stats Summary D gps secret now mf rq s) <> s ->
   exists r, fst (handle_stats Summary D gps secret now mf rq s) = Sent r /\
             (st_status r = 200%Z \/ st_status r = 201%Z)) /\
  snd (handle_stats Summary D gps secret now mongo_down rq s) = s /\
  match fst (handle_stats Summary D gps secret now mongo_down rq s) with
  | Sent r => In (st_status r) [400; 401; 500]%Z \/ exists id, rq = SqGetProject id
  | Rejected e => e = views_catch_error /\ exists b id, rq = SqPutViews b id
  end.
Proof.
  split; [apply handle_stats_atomic|]. split; [apply handle_stats_down|].
  destruct rq; cbn [handle_stats fst]; unfold_routes; rewrite ?fails_down; repeat case_match; simplify_eq/=;
    naive_solver.
Qed.

End Props.

(** ** Examples: a view, an evaluation with a negative amount, a like *)

Definition D0 : schema_defaults := mkDefaults (Some false) (Some false) (Some false) (Some 0%Z) (Some false).

Definition gps0 (p : option Z) (s : store) : result (option (list unit)) unit := Ok (Some []).

Definition st_token : token := sign "s3cret" 7 1700000000000 None.

Definition st_0 : store := mkStore [] 1.

Definition rq_view : st_request := SqPostView (Some st_token) "12" (JNum 3).

Definition rq_eval : st_request :=
  SqPutStats (Some st_token) "12" (JStr "likes") (JNum (-50)) JUndef (JBool true).

Definition st_1 : store := snd (handle_stats unit D0 gps0 "s3cret" 1700000001000 [] rq_view st_0).
Definition st_2 : store := snd (handle_stats unit D0 gps0 "s3cret" 1700000002000 [] rq_eval st_1).

(** Decides the invariant on a concrete store. *)
Ltac decide_store_wf := unfold store_wf, doc_ok; apply (bool_decide_unpack _); vm_compute; reflexivity.

Lemma stats_reachable_wf_witness : store_wf st_2.
Proof.
  exact (stats_reachable_wf (HS:=toy_hs256) (TN:=decimal_to_number) D0 gps0 "s3cret" st_2 ltac:(discriminate)
           (st_reach_step _ _ _ _ _ _
              (st_reach_step _ _ _ _ _ _ (st_reach_init _ _ _ _)
                 (StStep _ _ _ _ 1700000001000 [] rq_view st_0))
              (StStep _ _ _ _ 1700000002000 [] rq_eval st_1))).
Defined.

Example st_2_docs :
  sdocs st_2 = [mkStats 1 (Some 7%Z) (Some 12%Z) (Some 3%Z) (Some true) (Some true) (Some false) (Some (-50)%Z) (Some false)].
Proof. vm_compute. reflexivity. Qed.

Definition rq_like : st_request := SqPostLike (Some st_token) "12" (JNum 3).

Definition st_like_only : store := snd (handle_stats unit D0 gps0 "s3cret" 1700000003000 [] rq_like st_0).

Definition d_eval : stats_doc :=
  mkStats 1 (Some 7%Z) (Some 12%Z) (Some 3%Z) (Some true) (Some true) (Some false) (Some (-50)%Z) (Some false).

Lemma stats_only_own_documents_witness :
  store_wf st_1 /\
  (st_2 = st_1 \/
   exists uid, request_user "s3cret" 1700000002000 rq_eval = Some uid /\
     (forall d, In d (sdocs st_1) -> st_idUser d <> Some uid -> In d (sdocs st_2)) /\
     (forall d, In d (sdocs st_2) -> ~ In d (sdocs st_1) -> st_idUser d = Some uid)).
Proof.
  assert (Hwf : store_wf st_1) by decide_store_wf. split; [exact Hwf|].
  exact (stats_only_own_documents (HS:=toy_hs256) (TN:=decimal_to_number) D0 gps0 "s3cret" 1700000002000 [] rq_eval st_1 Hwf).
Defined.

Lemma post_like_duplicates_witness :
  query_number "idProject" (JStr "12") = Ok (Some 12%Z) /\ query_number "idCategory" (JNum 3) = Ok (Some 3%Z) /\
  exists d1 d2,
    sdocs (snd (post_like unit D0 [] 7 "12" (JNum 3) (snd (post_like unit D0 [] 7 "12" (JNum 3) st_2)))) =
      (sdocs st_2 ++ [d1; d2])%list /\
    owned_in 7 (Some 12%Z) (Some 3%Z) d1 = true /\ owned_in 7 (Some 12%Z) (Some 3%Z) d2 = true /\
    st_like d1 = Some true /\ st_like d2 = Some true /\ st_id d1 <> st_id d2.
Proof.
  assert (H1 : query_number (TN:=decimal_to_number) "idProject" (JStr "12") = Ok (Some 12%Z)) by (vm_compute; reflexivity).
  assert (H2 : query_number (TN:=decimal_to_number) "idCategory" (JNum 3) = Ok (Some 3%Z)) by (vm_compute; reflexivity).
  split; [exact H1|]. split; [exact H2|].
  exact (post_like_duplicates (Summary:=unit) D0 [] 7 "12" (JNum 3) (Some 12%Z) (Some 3%Z) st_2 H1 H2 eq_refl).
Defined.

Lemma put_stats_fund_witness :
  truthy (JNum (-50)) = true /\
  put_stats unit [] 7 "12" (JStr "likes") (JNum (-50)) JUndef (JBool true) st_1 =
    (mkStResponse 200 (SResult d_eval 200), st_2) /\
  exists p d a n, query_number "idProject" (JStr "12") = Ok p /\ find_one (owned_by 7 p) st_1 = Some d /\
    st_funded d = Some a /\ js_Number (JNum (-50)) = Some n /\ st_funded d_eval = Some (a + n)%Z /\
    st_2 = save_found d_eval st_1.
Proof.
  assert (Hp : put_stats (TN:=decimal_to_number) unit [] 7 "12" (JStr "likes") (JNum (-50)) JUndef (JBool true) st_1 =
                 (mkStResponse 200 (SResult d_eval 200), st_2)) by (vm_compute; reflexivity).
  split; [reflexivity|]. split; [exact Hp|].
  exact (put_stats_fund (Summary:=unit) [] 7 "12" (JStr "likes") (JNum (-50)) JUndef (JBool true) st_1 st_2 d_eval
           eq_refl Hp).
Defined.

Lemma put_views_rejects_witness :
  query_number "idProject" (JStr "abc") = Err (CastError "idProject") /\
  put_views unit [MFindOne] 7 "abc" st_1 = (Rejected views_catch_error, st_1) /\
  put_stats unit [MFindOne] 7 "abc" JUndef JUndef JUndef JUndef st_1 = (st_internal_error, st_1).
Proof.
  assert (He : query_number (TN:=decimal_to_number) "idProject" (JStr "abc") = Err (CastError "idProject"))
    by (vm_compute; reflexivity).
  split; [exact He|]. exact (put_views_rejects (Summary:=unit) [MFindOne] 7 "abc" _ JUndef JUndef JUndef JUndef st_1 He).
Defined.

Lemma percentage_views_spec_witness :
  sdocs st_2 <> [] /\ exists g,
     percentage_views unit [] st_2 =
       mkStResponse 200 (SPercent (map (fun c => (fst c, percentage (snd c) (count_viewed (sdocs st_2)))) g)) /\
     NoDup (map fst g) /\
     (forall k, In k (map fst g) <-> exists d, In d (sdocs st_2) /\ st_idCategory d = k) /\
     (forall k n, In (k, n) g -> n = cat_views k (sdocs st_2)).
Proof.
  assert (Hne : sdocs st_2 <> []) by (vm_compute; discriminate).
  split; [exact Hne|]. exact (proj2 (percentage_views_spec (Summary:=unit) st_2) Hne).
Defined.

Lemma percentage_views_range_witness :
  percentage_views unit [] st_like_only = mkStResponse 200 (SPercent [(Some 3%Z, None)]) /\
  Forall (fun c => snd c = None) [(Some 3%Z, @None Z)].
Proof.
  assert (Hr : percentage_views unit [] st_like_only = mkStResponse 200 (SPercent [(Some 3%Z, None)]))
    by (vm_compute; reflexivity).
  split; [exact Hr|]. exact (percentage_views_range (Summary:=unit) [] st_like_only _ Hr).
Defined.

Lemma view_then_get_witness :
  "12" <> "" /\ st_status (fst (post_view unit D0 [] 7 "12" (JNum 3) st_0)) = 201%Z /\
  st_status (get_user_stats unit [MSave] 7 "12" (snd (post_view unit D0 [] 7 "12" (JNum 3) st_0))) = 200%Z.
Proof.
  assert (H201 : st_status (fst (post_view (TN:=decimal_to_number) unit D0 [] 7 "12" (JNum 3) st_0)) = 201%Z)
    by (vm_compute; reflexivity).
  split; [discriminate|]. split; [exact H201|].
  exact (view_then_get (Summary:=unit) D0 [] [MSave] 7 "12" (JNum 3) st_0 ltac:(discriminate) eq_refl H201).
Defined.

(** The database goes down after the view was registered: marking it
    viewed again gets no answer from the route. *)
Example put_views_down :
  handle_stats (HS:=toy_hs256) (TN:=decimal_to_number) unit D0 gps0 "s3cret" 1700000004000 [MSave]
    (SqPutViews (Some st_token) "12") st_1 = (Rejected views_catch_error, st_1).
Proof. vm_compute. reflexivity. Qed.

End Stats.
