(* ===== verification/StatsRace.v ===== *)
(** * Concurrent statistics requests: reads and writes that interleave

    Three routes of [src/src/routes/projectStats.js] read a document and
    write it in two awaited calls, and other requests run between them:
    [POST /:id/stats] (a [findOne] that finds nothing, line 45, then
    [save()] of a new document, line 55), [PUT /:id/stats/views] (lines
    66 and 71) and [PUT /:id/stats] (a [findOne], line 98, the
    assignments, then [save()], line 115). [save()] of a document read
    from the collection sends [updateOne({ _id }, { $set })] with only
    the paths the handler modified, a path being modified when it was
    assigned a value other than the one read ([save_modified]); when no
    other write comes between the two calls this is [Stats.save_found]
    ([put_stats_phases]). [rstep] runs whole requests and the two phases
    of these three routes in any interleaving.

    The theorems: the ids stay distinct and every document keeps an
    owner under every interleaving ([rreachable_ids]); two concurrent
    contributions to the same project lose one of them
    ([put_stats_lost_update]); a concurrent like and dislike leave a
    document both liked and disliked ([evaluation_race]), which no
    sequential run does. *)

From S2P Require Import Prelude Jwt JsValue Stats.
From stdpp Require Import relations.

Module StatsRace.
Import Jwt JsValue Stats.

(** ** [save()] of a found document *)

(** The value a path holds after the [$set]: the handler's when it
    modified the path, otherwise the stored one. *)
Definition pick {A : Type} `{EqDecision A} (read assigned stored : A) : A :=
  if bool_decide (assigned = read) then stored else assigned.

Definition merge_modified (d d' x : stats_doc) : stats_doc :=
  mkStats (st_id x)
    (pick (st_idUser d) (st_idUser d') (st_idUser x))
    (pick (st_idProject d) (st_idProject d') (st_idProject x))
    (pick (st_idCategory d) (st_idCategory d') (st_idCategory x))
    (pick (st_view d) (st_view d') (st_view x))
    (pick (st_like d) (st_like d') (st_like x))
    (pick (st_dislike d) (st_dislike d') (st_dislike x))
    (pick (st_funded d) (st_funded d') (st_funded x))
    (pick (st_collaborator d) (st_collaborator d') (st_collaborator x)).

(** [save()] of [d'], read as [d]: [updateOne({ _id: d._id }, { $set })]. *)
Definition save_modified (d d' : stats_doc) (s : store) : store :=
  mkStore (map (fun x => if Z.eqb (st_id x) (st_id d) then merge_modified d d' x else x) (sdocs s))
          (s_next s).

(** ** The two phases of the three routes *)

(** A request between its [findOne] and its [save()]. *)
Inductive job :=
| JPostView (uid : Z) (p c : option Z)      (** [POST /:id/stats], nothing found *)
| JPutViews (d : stats_doc)                 (** [PUT /:id/stats/views], [d] found *)
| JPutStats (d d' : stats_doc).             (** [PUT /:id/stats], [d] found, [d'] assigned *)

(** The job of a phase that ended at a [save()]. *)
Definition in_flight {A : Type} (o : A + job) : option job :=
  match o with inr j => Some j | inl _ => None end.

Section Phases.
Context {Summary : Type} {TN : JsToNumber}.
Variable D : schema_defaults.

(** Lines 41-47 of [POST /:id/stats]: an answer, or the values of the
    document it goes on to create. *)
Definition post_view_start (mf : faults) (uid : Z) (id : string) (idCategory : jsval) (s : store)
    : st_response Summary + job :=
  if negb (truthy idCategory)
  then inl (mkStResponse 400 (SMsg "idCategory are required" None))
  else match query_number "idProject" (JStr id), query_number "idCategory" idCategory with
       | Ok p, Ok c =>
           if fails MFindOne mf then inl st_internal_error else
           match find_one (owned_in uid p c) s with
           | Some _ => inl (mkStResponse 200 (SMsg "User already viewed this project" (Some 200%Z)))
           | None => inr (JPostView uid p c)
           end
       | _, _ => inl st_internal_error
       end.

(** Lines 66-70 of [PUT /:id/stats/views]. *)
Definition put_views_start (mf : faults) (uid : Z) (id : string) (s : store) : st_outcome Summary + job :=
  match query_number "idProject" (JStr id) with
  | Err _ => inl (Rejected views_catch_error)
  | Ok p =>
      if fails MFindOne mf then inl (Rejected views_catch_error) else
      match find_one (owned_by uid p) s with
      | None => inl (Sent (mkStResponse 404 (SMsg "Stats not found" None)))
      | Some d => inr (JPutViews d)
      end
  end.

(** Lines 97-114 of [PUT /:id/stats]. *)
Definition put_stats_start (mf : faults) (uid : Z) (id : string)
    (evaluation fund collaboration evaluationStatus : jsval) (s : store) : st_response Summary + job :=
  match query_number "idProject" (JStr id) with
  | Err _ => inl st_internal_error
  | Ok p =>
      if fails MFindOne mf then inl st_internal_error else
      match find_one (owned_by uid p) s with
      | None => inl (mkStResponse 404 (SMsg "Stats not found" (Some 404%Z)))
      | Some d =>
          match (d1 <- apply_evaluation evaluation evaluationStatus d ;;
                 d2 <- apply_fund fund d1 ;;
                 Ok (apply_collaboration collaboration d2)) with
          | Err _ => inl st_internal_error
          | Ok d' => inr (JPutStats d d')
          end
      end
  end.

(** The [save()] that completes a job, on the store as it is then
    (lines 49-56, 70-72 and 115-116). *)
Definition finish (mf : faults) (j : job) (s : store) : st_outcome Summary * store :=
  match j with
  | JPostView uid p c =>
      let d := set_view (Some true) (fresh_stats D (s_next s) uid p c) in
      if fails MSave mf then (Sent st_internal_error, s)
      else (Sent (mkStResponse 201 (SResult d 201)), save_new d s)
  | JPutViews d =>
      let d' := set_view (Some true) d in
      if fails MSave mf then (Rejected views_catch_error, s)
      else (Sent (mkStResponse 200 (SDoc d')), save_modified d d' s)
  | JPutStats d d' =>
      if fails MSave mf then (Sent st_internal_error, s)
      else (Sent (mkStResponse 200 (SResult d' 200)), save_modified d d' s)
  end.

End Phases.

Section Steps.
Context {Summary : Type} {HS : Hs256} {TN : JsToNumber}.
Variable D : schema_defaults.
Variable gps : option Z -> store -> result (option (list Summary)) unit.
Variable secret : string.

(** The job a request leaves in flight when it reaches its [save()]
    (which answer the request would get instead does not matter). *)
Definition start (now : Z) (mf : faults) (rq : st_request) (s : store) : option job :=
  match rq with
  | SqPostView b id c =>
      match verifyUserLogged secret now b with
      | Some uid => in_flight (post_view_start (Summary:=unit) mf uid id c s)
      | None => None
      end
  | SqPutViews b id =>
      match verifyUserLogged secret now b with
      | Some uid => in_flight (put_views_start (Summary:=unit) mf uid id s)
      | None => None
      end
  | SqPutStats b id ev f col es =>
      match verifyUserLogged secret now b with
      | Some uid => in_flight (put_stats_start (Summary:=unit) mf uid id ev f col es s)
      | None => None
      end
  | _ => None
  end.

Record rstate := mkRState { rstore : store; pending : list job }.

Inductive rstep : rstate -> rstate -> Prop :=
(** Any request runs to completion. *)
| RRequest r s' : st_step Summary D gps secret (rstore r) s' -> rstep r (mkRState s' (pending r))
(** A request reaches its [save()]. *)
| RStart now mf rq r j : start now mf rq (rstore r) = Some j ->
    rstep r (mkRState (rstore r) (pending r ++ [j]))
(** A [save()] in flight completes. *)
| RFinish mf r i j : pending r !! i = Some j ->
    rstep r (mkRState (snd (finish (Summary:=Summary) D mf j (rstore r))) (delete i (pending r))).

Inductive rreachable : rstate -> Prop :=
| rreach_init : rreachable (mkRState (mkStore [] 1) [])
| rreach_step r r' : rreachable r -> rstep r r' -> rreachable r'.

End Steps.

(** ** Lemmas *)

Lemma pick_same {A : Type} `{EqDecision A} (x y : A) : pick x x y = y.
Proof. unfold pick. rewrite bool_decide_true by done. done. Qed.

Lemma pick_read {A : Type} `{EqDecision A} (x y : A) : pick x y x = y.
Proof. unfold pick. case_bool_decide; done. Qed.

Lemma pick_changed {A : Type} `{EqDecision A} (x y z : A) : y <> x -> pick x y z = y.
Proof. intros H. unfold pick. rewrite bool_decide_false by done. done. Qed.

#[local] Hint Rewrite @pick_same @pick_read : ff_str.

(** Saving [d'] over the document it was read from stores [d']. *)
Lemma merge_modified_read (d d' : stats_doc) : st_id d' = st_id d -> merge_modified d d' d = d'.
Proof. destruct d, d'. unfold merge_modified. simpl. intros ->. autorewrite with ff_str. done. Qed.

(** Paths the handler did not modify keep the stored value. *)
Lemma merge_modified_owner (d d' x : stats_doc) :
  st_idUser d' = st_idUser d -> st_idProject d' = st_idProject d ->
  st_idUser (merge_modified d d' x) = st_idUser x /\ st_idProject (merge_modified d d' x) = st_idProject x.
Proof. intros Hu Hp. simpl. rewrite Hu, Hp. autorewrite with ff_str. done. Qed.

Lemma save_modified_ids (d d' : stats_doc) (s : store) :
  map st_id (sdocs (save_modified d d' s)) = map st_id (sdocs s).
Proof. apply map_key_preserving. intros x. destruct (Z.eqb (st_id x) (st_id d)); done. Qed.

(** Without a write in between, the [$set] of the modified paths is the
    replacement of the document. *)
Lemma save_modified_found (d d' : stats_doc) (s : store) :
  NoDup (map st_id (sdocs s)) -> In d (sdocs s) -> st_id d' = st_id d ->
  save_modified d d' s = save_found d' s.
Proof.
  intros Hnd Hin Hid. unfold save_modified, save_found. f_equal. apply map_ext_in. intros x Hx.
  rewrite Hid. destruct (Z.eqb_spec (st_id x) (st_id d)) as [Hx'|]; [|done].
  assert (x = d) as -> by (eapply NoDup_map_inj_in; eauto). apply merge_modified_read. done.
Qed.

(** [findOne] by owner after a [$set] that leaves the owner alone. *)
Lemma find_one_save_modified (f : stats_doc -> bool) (d d' : stats_doc) (s : store) :
  (forall x, f (merge_modified d d' x) = f x) ->
  find_one f (save_modified d d' s) =
    option_map (fun x => if Z.eqb (st_id x) (st_id d) then merge_modified d d' x else x) (find_one f s).
Proof.
  intros Hf. unfold find_one, save_modified. simpl. apply find_map_preserving.
  intros x _. destruct (Z.eqb (st_id x) (st_id d)); done.
Qed.

Lemma owned_by_merge (uid : Z) (p : option Z) (d d' x : stats_doc) :
  st_idUser d' = st_idUser d -> st_idProject d' = st_idProject d ->
  owned_by uid p (merge_modified d d' x) = owned_by uid p x.
Proof. intros Hu Hp. unfold owned_by. destruct (merge_modified_owner d d' x Hu Hp) as [-> ->]. done. Qed.

(** The assignments of [PUT /:id/stats] leave the owner and the project. *)
Lemma put_update_project {TN : JsToNumber} (ev f col es : jsval) (d d' : stats_doc) :
  (d1 <- apply_evaluation ev es d ;; d2 <- apply_fund f d1 ;; Ok (apply_collaboration col d2)) = Ok d' ->
  st_idProject d' = st_idProject d.
Proof.
  unfold apply_evaluation, apply_fund, apply_collaboration, result_bind.
  repeat case_match; intros; simplify_eq; done.
Qed.

Section PhaseLemmas.
Context {Summary : Type} {HS : Hs256} {TN : JsToNumber}.
Variable D : schema_defaults.

(** The phases compose to the handlers: a request whose [save()] follows
    its [findOne] with no write in between is the request of [Stats]. *)
Lemma post_view_phases (mf : faults) (uid : Z) (id : string) (c : jsval) (s : store) :
  sent Summary (post_view Summary D mf uid id c s) =
    match post_view_start mf uid id c s with
    | inl r => (Sent r, s)
    | inr j => finish D mf j s
    end.
Proof. unfold post_view, post_view_start, finish, sent. repeat case_match; simplify_eq/=; done. Qed.

Lemma put_views_phases (mf : faults) (uid : Z) (id : string) (s : store) :
  NoDup (map st_id (sdocs s)) ->
  put_views Summary mf uid id s =
    match put_views_start mf uid id s with
    | inl o => (o, s)
    | inr j => finish D mf j s
    end.
Proof.
  intros Hnd. unfold put_views, put_views_start, finish.
  repeat case_match; simplify_eq/=; try done.
  match goal with H : find_one _ _ = Some _ |- _ => apply find_one_Some in H as [Hin _] end.
  rewrite save_modified_found; done.
Qed.

Lemma put_stats_phases (mf : faults) (uid : Z) (id : string) (ev f col es : jsval) (s : store) :
  NoDup (map st_id (sdocs s)) ->
  sent Summary (put_stats Summary mf uid id ev f col es s) =
    match put_stats_start mf uid id ev f col es s with
    | inl r => (Sent r, s)
    | inr j => finish D mf j s
    end.
Proof.
  intros Hnd. unfold put_stats, put_stats_start, finish, sent.
  repeat case_match; simplify_eq/=; try done.
  match goal with H : find_one _ _ = Some _ |- _ => apply find_one_Some in H as [Hin _] end.
  match goal with H : (_ <- _ ;; _) = Ok _ |- _ => apply put_update_Ok in H as (Hid & _ & _) end.
  rewrite save_modified_found; done.
Qed.

End PhaseLemmas.

(** ** The ids under every interleaving *)

(** Distinct [_id]s below the counter, and an owner for every document. *)
Definition ids_wf (s : store) : Prop :=
  NoDup (map st_id (sdocs s)) /\ Forall (fun d => (st_id d < s_next s)%Z) (sdocs s) /\
  Forall (fun d => st_idUser d <> None) (sdocs s).

(** A [$set] in flight does not modify the owner. *)
Definition job_ok (j : job) : Prop :=
  match j with
  | JPostView _ _ _ | JPutViews _ => True
  | JPutStats d d' => st_idUser d' = st_idUser d
  end.

Definition race_inv (r : rstate) : Prop := ids_wf (rstore r) /\ Forall job_ok (pending r).

Lemma ids_wf_save_new (d : stats_doc) (s : store) :
  ids_wf s -> st_id d = s_next s -> st_idUser d <> None -> ids_wf (save_new d s).
Proof.
  intros (Hnd & Hlt & Hu) Hid Hd. split; [|split]; simpl.
  - rewrite map_app. apply NoDup_app. split; [done|]. split; [|apply NoDup_singleton].
    intros i Hi ->%list_elem_of_singleton. apply list_elem_of_In, in_map_iff in Hi as (x & Hx & Hin).
    rewrite List.Forall_forall in Hlt. specialize (Hlt x Hin). lia.
  - apply Forall_app. split; [|constructor; [lia|constructor]].
    eapply Forall_impl; [exact Hlt|]. simpl. lia.
  - apply Forall_app. split; [done|]. constructor; [done|constructor].
Qed.

Lemma ids_wf_save_modified (d d' : stats_doc) (s : store) :
  st_idUser d' = st_idUser d -> ids_wf s -> ids_wf (save_modified d d' s).
Proof.
  intros Hdu (Hnd & Hlt & Hu). rewrite List.Forall_forall in Hlt, Hu.
  split; [rewrite save_modified_ids; done|]. split; apply List.Forall_forall;
    intros y (x & <- & Hx)%in_map_iff; destruct (Z.eqb (st_id x) (st_id d)); simpl; auto.
  rewrite Hdu, pick_same. auto.
Qed.

Lemma ids_wf_effect (D : schema_defaults) (uid : Z) (s s' : store) :
  ids_wf s -> store_effect D uid s s' -> ids_wf s'.
Proof.
  intros Hwf [->|[(d & -> & Hid & Hu & _)|(d0 & d & Hin & _ & Hid & Hu & _ & ->)]]; [done| |].
  - apply ids_wf_save_new; [done|done|]. rewrite Hu. done.
  - destruct Hwf as (Hnd & Hlt & Hown). rewrite List.Forall_forall in Hlt, Hown.
    split; [rewrite save_found_ids; done|]. split; apply List.Forall_forall;
      intros y [->|[Hy _]]%in_save_found; simpl; auto; [rewrite Hid|rewrite Hu]; auto.
Qed.

Section Invariant.
Context {Summary : Type} {HS : Hs256} {TN : JsToNumber}.
Variable D : schema_defaults.
Variable gps : option Z -> store -> result (option (list Summary)) unit.
Variable secret : string.

Lemma start_ok (now : Z) (mf : faults) (rq : st_request) (s : store) (j : job) :
  start secret now mf rq s = Some j -> job_ok j.
Proof.
  destruct rq; cbn [start]; try done; case_match; try done;
    unfold in_flight, post_view_start, put_views_start, put_stats_start;
    repeat case_match; intros; simplify_eq/=; try done.
  match goal with H : (_ <- _ ;; _) = Ok _ |- _ => apply put_update_Ok in H as (_ & Hu & _) end. done.
Qed.

Lemma finish_ids (mf : faults) (j : job) (s : store) :
  job_ok j -> ids_wf s -> ids_wf (snd (finish (Summary:=Summary) D mf j s)).
Proof.
  intros Hj Hwf. destruct j as [uid p c|d|d d']; cbn [finish]; (destruct (fails MSave mf); [done|]); simpl.
  - apply ids_wf_save_new; [done|done|]. simpl. done.
  - apply ids_wf_save_modified; done.
  - apply ids_wf_save_modified; done.
Qed.

Lemma race_inv_step (r r' : rstate) : rstep D gps secret r r' -> race_inv r -> race_inv r'.
Proof.
  intros Hstep [Hwf Hjobs]. destruct Hstep as [r s' Hst|now mf rq r j Hj|mf r i j Hi]; split; simpl.
  - destruct Hst as [now mf rq s0].
    destruct (handle_stats_effect D gps secret now mf rq s0) as [->|(uid & _ & Heff)]; [done|].
    eapply ids_wf_effect; eauto.
  - done.
  - done.
  - apply Forall_app. split; [done|]. constructor; [eapply start_ok; eauto|constructor].
  - apply finish_ids; [|done]. rewrite List.Forall_forall in Hjobs. apply Hjobs.
    apply list_elem_of_In, list_elem_of_lookup. eauto.
  - apply Forall_delete. done.
Qed.

Lemma rreachable_rtc (r r' : rstate) :
  rreachable D gps secret r -> rtc (rstep D gps secret) r r' -> rreachable D gps secret r'.
Proof. intros Hr Hrtc. induction Hrtc as [|r1 r2 r3 H12 _ IH]; [done|]. apply IH. econstructor; eauto. Qed.

End Invariant.

(** ** Lost contributions and conflicting evaluations *)

(** The [$set] of a contribution computed from a stale read. *)
Lemma merge_funded (d : stats_doc) (a b n : Z) :
  st_funded d = Some a -> n <> 0%Z ->
  merge_modified d (set_funded (Some (a + n)%Z) d) (set_funded (Some b) d) = set_funded (Some (a + n)%Z) d.
Proof.
  destruct d. simpl. intros -> Hn. unfold merge_modified. simpl. autorewrite with ff_str.
  rewrite pick_changed by (intros [=]; lia). done.
Qed.

(** A [$set] of a new evaluation over a document read before another one. *)
Lemma merge_flags (d : stats_doc) (l l' dl dl' : option bool) :
  merge_modified d (set_dislike dl' (set_like l' d)) (set_dislike dl (set_like l d)) =
  set_dislike (pick (st_dislike d) dl' dl) (set_like (pick (st_like d) l' l) d).
Proof. destruct d. unfold merge_modified. simpl. autorewrite with ff_str. done. Qed.

(** After the [$set] of [d'] read as the first match [d], the first
    match is [d']. *)
Lemma find_one_save_read (uid : Z) (p : option Z) (d d' : stats_doc) (s : store) :
  st_idUser d' = st_idUser d -> st_idProject d' = st_idProject d -> st_id d' = st_id d ->
  find_one (owned_by uid p) s = Some d -> find_one (owned_by uid p) (save_modified d d' s) = Some d'.
Proof.
  intros Hu Hp Hid Hs. rewrite find_one_save_modified by (intros; apply owned_by_merge; done).
  rewrite Hs. simpl. rewrite Z.eqb_refl, merge_modified_read; done.
Qed.

Section Races.
Context {Summary : Type} {HS : Hs256} {TN : JsToNumber}.
Variable D : schema_defaults.
Variable gps : option Z -> store -> result (option (list Summary)) unit.
Variable secret : string.

(** A contribution [fund = n] reads the document and assigns [a + n]. *)
Lemma put_fund_start (uid : Z) (id : string) (p : option Z) (d : stats_doc) (a n : Z) (s : store) :
  query_number "idProject" (JStr id) = Ok p -> find_one (owned_by uid p) s = Some d ->
  st_funded d = Some a -> n <> 0%Z ->
  put_stats_start (Summary:=Summary) [] uid id JUndef (JNum n) JUndef JUndef s =
    inr (JPutStats d (set_funded (Some (a + n)%Z) d)).
Proof.
  intros Hq Hf Ha Hn. unfold put_stats_start. rewrite Hq, Hf. simpl.
  unfold apply_fund. simpl. rewrite (proj2 (Z.eqb_neq n 0) Hn), Ha. done.
Qed.

(** An evaluation [likes] or [dislikes] with status [true]. *)
Lemma put_eval_start (uid : Z) (id : string) (p : option Z) (d : stats_doc) (s : store) (which : string)
    (l dl : option bool) :
  query_number "idProject" (JStr id) = Ok p -> find_one (owned_by uid p) s = Some d ->
  (which = "likes" /\ l = Some true /\ dl = Some false \/ which = "dislikes" /\ l = Some false /\ dl = Some true) ->
  put_stats_start (Summary:=Summary) [] uid id (JStr which) JUndef JUndef (JBool true) s =
    inr (JPutStats d (set_dislike dl (set_like l d))).
Proof.
  intros Hq Hf Hw. unfold put_stats_start. rewrite Hq, Hf. simpl.
  destruct Hw as [(-> & -> & ->)|(-> & -> & ->)]; done.
Qed.

(** Two requests that both read before either saves: the run that
    starts both, then completes the first and the second. *)
Lemma rtc_two_saves (now1 now2 : Z) (rq1 rq2 : st_request) (s : store) (j1 j2 : job) :
  start secret now1 [] rq1 s = Some j1 -> start secret now2 [] rq2 s = Some j2 ->
  rtc (rstep D gps secret) (mkRState s [])
    (mkRState (snd (finish (Summary:=Summary) D [] j2 (snd (finish (Summary:=Summary) D [] j1 s)))) []).
Proof.
  intros H1 H2.
  eapply rtc_l; [eapply RStart; exact H1|]. eapply rtc_l; [eapply RStart; exact H2|].
  eapply rtc_l; [apply (RFinish _ _ _ [] _ 0 j1); done|].
  eapply rtc_l; [apply (RFinish _ _ _ [] _ 0 j2); done|]. done.
Qed.

Lemma finish_put_stats (d d' : stats_doc) (s : store) :
  snd (finish (Summary:=Summary) D [] (JPutStats d d') s) = save_modified d d' s.
Proof. reflexivity. Qed.

(** The same request run as a whole: its job completes at once. *)
Lemma handle_put_stats_job (now : Z) (b : option token) (id : string) (ev f col es : jsval) (uid : Z)
    (s : store) (j : job) :
  verifyUserLogged secret now b = Some uid -> NoDup (map st_id (sdocs s)) ->
  put_stats_start (Summary:=Summary) [] uid id ev f col es s = inr j ->
  snd (handle_stats Summary D gps secret now [] (SqPutStats b id ev f col es) s) = snd (finish (Summary:=Summary) D [] j s).
Proof.
  intros Hv Hnd Hj. cbn [handle_stats]. unfold with_user. rewrite Hv.
  rewrite (put_stats_phases D [] uid id ev f col es s Hnd), Hj. done.
Qed.

Lemma start_put_stats (now : Z) (b : option token) (id : string) (ev f col es : jsval) (uid : Z)
    (s : store) (j : job) :
  verifyUserLogged secret now b = Some uid ->
  put_stats_start (Summary:=unit) [] uid id ev f col es s = inr j ->
  start secret now [] (SqPutStats b id ev f col es) s = Some j.
Proof. intros Hv Hj. cbn [start]. rewrite Hv. unfold in_flight. rewrite Hj. done. Qed.

End Races.

(** ** Properties of interleaved statistics requests *)

Section Props.
Context {Summary : Type} {HS : Hs256} {TN : JsToNumber}.
Variable D : schema_defaults.
Variable gps : option Z -> store -> result (option (list Summary)) unit.
Variable secret : string.

(** Under every interleaving of whole requests with the two phases of
    the read-then-save routes, the [_id]s stay distinct and below the
    counter, and every document has an owner. *)
Theorem rreachable_ids (r : rstate) : rreachable D gps secret r -> ids_wf (rstore r).
Proof.
  intros Hr. cut (race_inv r); [intros [? _]; done|].
  induction Hr as [|r r' _ IH Hstep]; [split; [split; [constructor|split; constructor]|constructor]|].
  eapply race_inv_step; eauto.
Qed.

(** (C32) A lost contribution: two [PUT /:id/stats] of the same user for
    the same project with amounts [n1] and [n2] add [n1 + n2] to the
    stored [funded] when they run one after the other; when both read
    the document before either saves, the second [$set] overwrites the
    first and the total grows by [n2] only. *)
Theorem put_stats_lost_update (now1 now2 : Z) (b1 b2 : option token) (id : string) (uid a n1 n2 : Z)
    (p : option Z) (d : stats_doc) (s : store) :
  verifyUserLogged secret now1 b1 = Some uid -> verifyUserLogged secret now2 b2 = Some uid ->
  query_number "idProject" (JStr id) = Ok p -> NoDup (map st_id (sdocs s)) ->
  find_one (owned_by uid p) s = Some d -> st_funded d = Some a -> n1 <> 0%Z -> n2 <> 0%Z ->
  find_one (owned_by uid p)
    (snd (handle_stats Summary D gps secret now2 [] (SqPutStats b2 id JUndef (JNum n2) JUndef JUndef)
       (snd (handle_stats Summary D gps secret now1 [] (SqPutStats b1 id JUndef (JNum n1) JUndef JUndef) s)))) =
    Some (set_funded (Some (a + n1 + n2)%Z) d) /\
  exists r, rtc (rstep D gps secret) (mkRState s []) r /\ pending r = [] /\
    find_one (owned_by uid p) (rstore r) = Some (set_funded (Some (a + n2)%Z) d).
Proof.
  intros Hv1 Hv2 Hq Hnd Hf Ha Hn1 Hn2. split.
  - rewrite (handle_put_stats_job D gps secret now1 b1 id _ _ _ _ uid s _ Hv1 Hnd
               (put_fund_start uid id p d a n1 s Hq Hf Ha Hn1)).
    rewrite finish_put_stats.
    assert (Hf1 : find_one (owned_by uid p) (save_modified d (set_funded (Some (a + n1)%Z) d) s) =
                  Some (set_funded (Some (a + n1)%Z) d)) by (apply find_one_save_read; done).
    rewrite (handle_put_stats_job D gps secret now2 b2 id _ _ _ _ uid _ _ Hv2
               ltac:(rewrite save_modified_ids; done)
               (put_fund_start uid id p _ (a + n1) n2 _ Hq Hf1 eq_refl Hn2)).
    rewrite finish_put_stats,
      (find_one_save_read uid p (set_funded (Some (a + n1)%Z) d)
         (set_funded (Some (a + n1 + n2)%Z) (set_funded (Some (a + n1)%Z) d)) _
         eq_refl eq_refl eq_refl Hf1).
    destruct d. done.
  - eexists. split.
    { eapply (rtc_two_saves D gps secret now1 now2); apply start_put_stats with uid;
        [exact Hv1|exact (put_fund_start uid id p d a n1 s Hq Hf Ha Hn1)
        |exact Hv2|exact (put_fund_start uid id p d a n2 s Hq Hf Ha Hn2)]. }
    split; [done|]. cbn [rstore]. rewrite !finish_put_stats.
    rewrite find_one_save_modified by (intros; apply owned_by_merge; done).
    rewrite (find_one_save_read uid p d (set_funded (Some (a + n1)%Z) d) s eq_refl eq_refl eq_refl Hf).
    simpl. rewrite Z.eqb_refl, merge_funded; done.
Qed.

(** (C33) Conflicting evaluations break the statistics invariant: a
    document neither liked nor disliked, evaluated [likes] and then
    [dislikes] by its owner, ends disliked and not liked; when both
    requests read it before either saves, each [$set] carries only the
    path it changed, and the document ends both liked and disliked, which
    [Stats.doc_ok] forbids and no sequential run produces. *)
Theorem evaluation_race (now1 now2 : Z) (b1 b2 : option token) (id : string) (uid : Z) (p : option Z)
    (d : stats_doc) (s : store) :
  verifyUserLogged secret now1 b1 = Some uid -> verifyUserLogged secret now2 b2 = Some uid ->
  query_number "idProject" (JStr id) = Ok p -> NoDup (map st_id (sdocs s)) ->
  find_one (owned_by uid p) s = Some d -> st_like d = Some false -> st_dislike d = Some false ->
  (exists x, find_one (owned_by uid p)
     (snd (handle_stats Summary D gps secret now2 [] (SqPutStats b2 id (JStr "dislikes") JUndef JUndef (JBool true))
        (snd (handle_stats Summary D gps secret now1 [] (SqPutStats b1 id (JStr "likes") JUndef JUndef (JBool true)) s))))
     = Some x /\ st_like x = Some false /\ st_dislike x = Some true) /\
  exists r, rtc (rstep D gps secret) (mkRState s []) r /\ pending r = [] /\
    exists x, find_one (owned_by uid p) (rstore r) = Some x /\ st_like x = Some true /\ st_dislike x = Some true.
Proof.
  intros Hv1 Hv2 Hq Hnd Hf Hl Hdl.
  set (dA := set_dislike (Some false) (set_like (Some true) d)).
  set (dB := set_dislike (Some true) (set_like (Some false) d)).
  assert (HA : forall S, put_stats_start (Summary:=S) [] uid id (JStr "likes") JUndef JUndef (JBool true) s =
                         inr (JPutStats d dA)) by (intros; apply (put_eval_start uid id p); auto).
  assert (HB : forall S, put_stats_start (Summary:=S) [] uid id (JStr "dislikes") JUndef JUndef (JBool true) s =
                         inr (JPutStats d dB)) by (intros; apply (put_eval_start uid id p); auto).
  split.
  - rewrite (handle_put_stats_job D gps secret now1 b1 id _ _ _ _ uid s _ Hv1 Hnd (HA Summary)).
    rewrite finish_put_stats.
    assert (Hf1 : find_one (owned_by uid p) (save_modified d dA s) = Some dA) by (apply find_one_save_read; done).
    rewrite (handle_put_stats_job D gps secret now2 b2 id _ _ _ _ uid _ _ Hv2
               ltac:(rewrite save_modified_ids; done)
               (put_eval_start uid id p dA _ "dislikes" (Some false) (Some true) Hq Hf1 ltac:(auto))).
    rewrite finish_put_stats,
      (find_one_save_read uid p dA (set_dislike (Some true) (set_like (Some false) dA)) (save_modified d dA s)
         eq_refl eq_refl eq_refl Hf1).
    eexists. split; [done|]. done.
  - eexists. split; [eapply (rtc_two_saves D gps secret now1 now2); apply start_put_stats with uid; [exact Hv1|apply HA|exact Hv2|apply HB]|].
    split; [done|]. cbn [rstore]. rewrite !finish_put_stats.
    rewrite find_one_save_modified by (intros; apply owned_by_merge; done).
    rewrite (find_one_save_read uid p d dA s eq_refl eq_refl eq_refl Hf). simpl. rewrite Z.eqb_refl.
    unfold dA, dB. rewrite merge_flags, Hl, Hdl, pick_same, pick_changed by done.
    eexists. split; [done|]. done.
Qed.

End Props.

(** ** Examples: two contributions and two evaluations on the document of [Stats.st_1] *)

(** The view that user 7 registered for project 12 in [Stats.st_1]. *)
Definition d_view : stats_doc :=
  mkStats 1 (Some 7%Z) (Some 12%Z) (Some 3%Z) (Some true) (Some false) (Some false) (Some 0%Z) (Some false).

Lemma st_1_reachable : rreachable (Summary:=unit) (HS:=toy_hs256) (TN:=decimal_to_number) D0 gps0 "s3cret"
                         (mkRState st_1 []).
Proof.
  apply (rreach_step _ _ _ _ _ (rreach_init _ _ _)).
  exact (RRequest _ _ _ (mkRState (mkStore [] 1) []) st_1 (StStep _ _ _ _ 1700000001000 [] rq_view _)).
Qed.

Lemma st_1_facts :
  verifyUserLogged "s3cret" 1700000005000 (Some st_token) = Some 7%Z /\
  verifyUserLogged "s3cret" 1700000006000 (Some st_token) = Some 7%Z /\
  query_number (TN:=decimal_to_number) "idProject" (JStr "12") = Ok (Some 12%Z) /\
  NoDup (map st_id (sdocs st_1)) /\ find_one (owned_by 7 (Some 12%Z)) st_1 = Some d_view.
Proof.
  split; [vm_compute; reflexivity|]. split; [vm_compute; reflexivity|]. split; [vm_compute; reflexivity|].
  split; [apply (bool_decide_unpack _); vm_compute; reflexivity|vm_compute; reflexivity].
Qed.

(** Contributions of 30 and 50 that read the document before either
    saves leave 50. *)
Lemma put_stats_lost_update_witness :
  exists r, rtc (rstep (Summary:=unit) (HS:=toy_hs256) (TN:=decimal_to_number) D0 gps0 "s3cret")
              (mkRState st_1 []) r /\ pending r = [] /\
    find_one (owned_by 7 (Some 12%Z)) (rstore r) = Some (set_funded (Some 50%Z) d_view).
Proof.
  destruct st_1_facts as (Hv1 & Hv2 & Hq & Hnd & Hf).
  exact (proj2 (put_stats_lost_update D0 gps0 "s3cret" 1700000005000 1700000006000 (Some st_token) (Some st_token)
                  "12" 7 0 30 50 (Some 12%Z) d_view st_1 Hv1 Hv2 Hq Hnd Hf eq_refl
                  ltac:(discriminate) ltac:(discriminate))).
Defined.

(** A like and a dislike that both read the document before either
    saves leave, in a state the server reaches, a document both liked
    and disliked. *)
Lemma evaluation_race_witness :
  exists r, rreachable (Summary:=unit) (HS:=toy_hs256) (TN:=decimal_to_number) D0 gps0 "s3cret" r /\
    pending r = [] /\ exists x, In x (sdocs (rstore r)) /\ ~ doc_ok x.
Proof.
  destruct st_1_facts as (Hv1 & Hv2 & Hq & Hnd & Hf).
  destruct (evaluation_race D0 gps0 "s3cret" 1700000005000 1700000006000 (Some st_token) (Some st_token)
              "12" 7 (Some 12%Z) d_view st_1 Hv1 Hv2 Hq Hnd Hf eq_refl eq_refl)
    as [_ (r & Hrtc & Hp & x & Hx & Hl & Hdl)].
  exists r. split; [exact (rreachable_rtc _ _ _ _ _ st_1_reachable Hrtc)|]. split; [exact Hp|].
  exists x. split; [exact (proj1 (find_one_Some _ _ _ Hx))|]. unfold doc_ok. tauto.
Defined.

End StatsRace.
