(* ===== verification/Bootstrap.v ===== *)
(** * The server bootstrap: [src/server.js]

    The module body builds the Express application: three body and
    header middlewares, four static directories, an error-handling
    middleware, then (line 57) the routes. Express hands a request to the
    layers in order: a layer answers, passes on ([next()]) or raises
    ([next(err)]); once an error is raised, only the error-handling
    layers after it run, and when none is left Express's final handler
    answers with the error's own status. What each layer does with a
    given request is an input ([behave]); the [cors] layer marks the
    response with its headers before passing on.

    The configuration reads [process.env] with [??]: an unset variable
    takes the default, a set one (even empty) is kept as the string it
    is. The start-up effects: [app.listen], [db.connect] (whose callback
    exits the process on an error of the connection or of its first
    query), the require of the routers at line 56 (which throws out of
    the module body when [auth.js] line 11 builds its Resend client
    without a key) and [mongoose.connect], whose promise is not awaited
    inside its [try] and whose rejection, unhandled, ends the process. *)

From S2P Require Import Prelude JsValue.
From stdpp Require Import pretty.

Module Bootstrap.
Import JsValue.

(** ** The middleware stack *)

Inductive layer :=
| LJson                         (** [express.json()] *)
| LCors                         (** [cors()] *)
| LUrlencoded                   (** [express.urlencoded({ extended: true })] *)
| LStatic (mount : string)      (** [express.static(...)] under [mount] *)
| LErrorHandler                 (** lines 20-23 *)
| LRoutes.                      (** [app.use('/', routes)] *)

#[export] Instance layer_eq_dec : EqDecision layer.
Proof. solve_decision. Defined.

(** Lines 10-16: the layers before the error handler. *)
Definition pre_layers : list layer :=
  [LJson; LCors; LUrlencoded; LStatic "/uploads/projects"; LStatic "/uploads/profiles";
   LStatic "/uploads/defaultAvatars"; LStatic "/uploads/defaultBanners"].

(** The application's stack, in registration order (lines 10-23, 57). *)
Definition app_stack : list layer := pre_layers ++ [LErrorHandler; LRoutes].

Record js_error := mkJsError { err_status : option Z; err_message : string }.

Record http_response := mkHttp { h_status : Z; h_body : string; h_cors : bool }.

Inductive layer_result :=
| Next
| Respond (status : Z) (body : string)
| Raise (e : js_error).

(** Lines 20-23: [res.status(500).send('Something went wrong!')]. *)
Definition app_error_body : string := "Something went wrong!".

(** Express's final handler: 404 when no layer answered, and otherwise
    the error's [status] when it is an HTTP error status, else 500. *)
Definition final_not_found (cors : bool) : http_response := mkHttp 404 "Cannot handle request" cors.

Definition final_error (e : js_error) (cors : bool) : http_response :=
  match err_status e with
  | Some s => if (400 <=? s)%Z && (s <? 600)%Z then mkHttp s "finalhandler" cors
              else mkHttp 500 "finalhandler" cors
  | None => mkHttp 500 "finalhandler" cors
  end.

(** Express's dispatch of one request through the stack. [err] is the
    error raised so far, [cors] whether the CORS headers are set. *)
Fixpoint dispatch (behave : layer -> layer_result) (ls : list layer) (err : option js_error)
    (cors : bool) : http_response :=
  match ls, err with
  | [], None => final_not_found cors
  | [], Some e => final_error e cors
  | LErrorHandler :: _, Some _ => mkHttp 500 app_error_body cors
  | LErrorHandler :: ls', None => dispatch behave ls' None cors
  | _ :: ls', Some e => dispatch behave ls' (Some e) cors
  | l :: ls', None =>
      match behave l with
      | Next => dispatch behave ls' None (cors || bool_decide (l = LCors))
      | Respond s b => mkHttp s b (cors || bool_decide (l = LCors))
      | Raise e => dispatch behave ls' (Some e) cors
      end
  end.

Definition handle_request (behave : layer -> layer_result) : http_response :=
  dispatch behave app_stack None false.

(** The first layer of [ls] that does not pass the request on, with
    whether the CORS headers are set by then. *)
Fixpoint run_pre (behave : layer -> layer_result) (ls : list layer) (cors : bool) : layer_result * bool :=
  match ls with
  | [] => (Next, cors)
  | l :: ls' =>
      match behave l with
      | Next => run_pre behave ls' (cors || bool_decide (l = LCors))
      | Respond s b => (Respond s b, cors || bool_decide (l = LCors))
      | Raise e => (Raise e, cors)
      end
  end.

(** ** The configuration (lines 26-37) *)

Record proc_env := mkProcEnv {
  SERVER_PORT : option string; SERVER_HOST : option string;
  DB_HOST : option string; DB_PORT : option string; DB_USER : option string;
  DB_PASSWORD : option string; DB_NAME : option string; MONGO_URL : option string;
  RESEND_API_KEY : option string
}.

(** [v ?? d] on an environment variable: [undefined] takes [d]. *)
Definition nullish (v : option string) (d : jsval) : jsval :=
  match v with Some s => JStr s | None => d end.

Record db_config := mkDbConfig {
  cfg_host : jsval; cfg_port : jsval; cfg_user : jsval; cfg_password : jsval; cfg_database : jsval
}.

(** Lines 31-37. *)
Definition dbConfig (pe : proc_env) : db_config :=
  mkDbConfig (nullish (DB_HOST pe) (JStr "localhost")) (nullish (DB_PORT pe) (JNum 3306))
             (nullish (DB_USER pe) (JStr "some_user")) (nullish (DB_PASSWORD pe) (JStr "some_password"))
             (nullish (DB_NAME pe) (JStr "fundflow")).

(** Lines 26-27. *)
Definition port (pe : proc_env) : jsval := nullish (SERVER_PORT pe) (JNum 3001).
Definition host (pe : proc_env) : jsval := nullish (SERVER_HOST pe) (JStr "http://localhost").

(** [`${v}`] for the values the configuration holds. *)
Definition js_template (v : jsval) : string :=
  match v with
  | JStr s => s
  | JNum n => pretty n
  | JBool b => if b then "true" else "false"
  | JNull => "null"
  | JUndef => "undefined"
  end.

(** Line 28: the message of the [listen] callback. *)
Definition listen_message (pe : proc_env) : string :=
  "URL: " ++ js_template (host pe) ++ ":" ++ js_template (port pe).

(** ** Start-up effects (lines 28, 39-53, 60-66) *)

Inductive boot_event :=
| Log (msg : string)       (** [console.log] *)
| ErrLog (msg : string)    (** [console.error] *)
| Exit (code : Z).         (** [process.exit] *)

(** What [mongoose.connect] does: it throws before returning its
    promise, or the promise resolves, or it rejects (the server refused
    the connection, or the URI is not a string: [MONGO_URL] unset). *)
Inductive mongo_connect :=
| ConnectThrows (stack : string)
| ConnectResolves
| ConnectRejects (stack : string).

(** Lines 60-66. The promise is not awaited inside the [try]: only a
    synchronous throw reaches the [catch], and the success message is
    printed at once. [console.error] joins its arguments with a space,
    hence the two spaces after the colon. *)
Definition mongo_block (m : mongo_connect) : list boot_event :=
  match m with
  | ConnectThrows e => [ErrLog ("Error connecting to MongoDB: " ++ " " ++ e)]
  | _ => [Log "MongoDB: Connected to MongoDB fundflow successfully"]
  end.

(** Nothing handles the promise of line 61: when it rejects, Node
    reports the unhandled rejection on stderr and ends the process with
    code 1 (the default [--unhandled-rejections=throw] since Node 15). *)
Definition mongo_rejection (m : mongo_connect) : list boot_event :=
  match m with
  | ConnectRejects e => [ErrLog e; Exit 1]
  | _ => []
  end.

(** First line of the stack of the [Error] that the Resend constructor
    throws when it has no key. *)
Definition missing_api_key : string := "Error: Missing API key. Pass it to the constructor".

(** Line 56 loads the routers, and with them [auth.js], whose line 11
    runs [new Resend(process.env.RESEND_API_KEY)]. The constructor falls
    back on [process.env.RESEND_API_KEY] and throws when that is not a
    non-empty string: [Some e] is the exception that escapes the module
    body. *)
Definition load_routes (pe : proc_env) : option string :=
  match RESEND_API_KEY pe with
  | Some (String _ _) => None
  | _ => Some missing_api_key
  end.

(** Lines 39-53: the callback of [db.connect], given the connection's
    error and the answer to [SELECT NOW()]. *)
Definition db_callback (pe : proc_env) (conn_err : option string) (query : result string string)
    : list boot_event :=
  match conn_err with
  | Some e => [ErrLog ("Unable to connect to the database (MySQL): " ++ e); Exit 1]
  | None =>
      match query with
      | Err e => [ErrLog ("Unable to execute query to MySQL: " ++ e); Exit 1]
      | Ok date => [Log ("MySQL: Connected to MySQL " ++ js_template (cfg_database (dbConfig pe)) ++
                         " successfully" ++ String "010" ("DATE: " ++ date))]
      end
  end.

(** Line 28: the callback of [app.listen]. *)
Definition listen_callback (pe : proc_env) : list boot_event := [Log (listen_message pe)].

(** Nothing runs after [process.exit]. *)
Fixpoint until_exit (l : list boot_event) : list boot_event :=
  match l with
  | [] => []
  | Exit c :: _ => [Exit c]
  | ev :: l' => ev :: until_exit l'
  end.

(** The module body runs to its end first: [app.listen] and
    [db.connect] only register callbacks, and the require of line 56
    either throws, which Node reports before ending the process with
    code 1 (no callback runs), or returns, after which the MongoDB block
    prints its line. The three asynchronous outcomes (the [listen]
    callback, the [db.connect] callback, the rejection of the MongoDB
    promise) then run in an order fixed by the network and the
    timers: any permutation of them. *)
Inductive boot_trace (pe : proc_env) (m : mongo_connect) (conn_err : option string)
    (query : result string string) : list boot_event -> Prop :=
| boot_load_throws e :
    load_routes pe = Some e -> boot_trace pe m conn_err query [ErrLog e; Exit 1]
| boot_runs cbs :
    load_routes pe = None ->
    Permutation cbs [listen_callback pe; db_callback pe conn_err query; mongo_rejection m] ->
    boot_trace pe m conn_err query (mongo_block m ++ until_exit (concat cbs)).

(** ** Lemmas *)

Section Lemmas.
Variable behave : layer -> layer_result.

(** An error raised before a stack without error handler crosses it. *)
Lemma dispatch_skip (ls rest : list layer) (e : js_error) (c : bool) :
  ~ In LErrorHandler ls -> dispatch behave (ls ++ rest) (Some e) c = dispatch behave rest (Some e) c.
Proof.
  induction ls as [|l ls IH]; intros Hn; [done|].
  destruct l; simpl in *; try (apply IH; tauto). tauto.
Qed.

(** A stack without error handler in front of [rest] acts as its first
    layer that does not pass the request on. *)
Lemma dispatch_pre (ls rest : list layer) (c : bool) :
  ~ In LErrorHandler ls ->
  dispatch behave (ls ++ rest) None c =
    match run_pre behave ls c with
    | (Respond s b, c') => mkHttp s b c'
    | (Raise e, c') => dispatch behave rest (Some e) c'
    | (Next, c') => dispatch behave rest None c'
    end.
Proof.
  revert c. induction ls as [|l ls IH]; intros c Hn; [done|].
  assert (Hl : l <> LErrorHandler) by (intros ->; apply Hn; left; done).
  assert (Hls : ~ In LErrorHandler ls) by (intros H; apply Hn; right; done).
  destruct l; try done; simpl;
    (destruct (behave _); [apply IH, Hls|done|apply dispatch_skip, Hls]).
Qed.

Lemma run_pre_all_next (ls : list layer) (c : bool) :
  (forall l, In l ls -> behave l = Next) ->
  run_pre behave ls c = (Next, c || existsb (fun l => bool_decide (l = LCors)) ls).
Proof.
  revert c. induction ls as [|l ls IH]; intros c Hall; simpl; [rewrite orb_false_r; done|].
  rewrite Hall by (left; done). rewrite IH by (intros l' Hl'; apply Hall; right; done).
  rewrite orb_assoc. done.
Qed.

Lemma pre_layers_no_handler : ~ In LErrorHandler pre_layers.
Proof. simpl. intuition discriminate. Qed.

Lemma in_exit_until (l : list boot_event) :
  (forall c, In (Exit c) l -> c = 1%Z) -> In (Exit 1) (until_exit l) <-> In (Exit 1) l.
Proof.
  induction l as [|ev l IH]; intros Hc; [done|].
  assert (Hl : forall c, In (Exit c) l -> c = 1%Z) by (intros c' Hc'; apply Hc; right; done).
  destruct ev as [m|m|c]; simpl; [rewrite (IH Hl); intuition discriminate..|].
  assert (c = 1%Z) as -> by (apply Hc; left; done). tauto.
Qed.

(** [until_exit] keeps a prefix. *)
Lemma in_until_exit (x : boot_event) (l : list boot_event) : In x (until_exit l) -> In x l.
Proof. induction l as [|[m|m|c] l IH]; simpl; [done|intuition..|intros [<-|[]]; left; done]. Qed.

Lemma mongo_block_no_exit (m : mongo_connect) (c : Z) : ~ In (Exit c) (mongo_block m).
Proof. destruct m; simpl; intuition discriminate. Qed.

Lemma mongo_rejection_exit_iff (m : mongo_connect) (c : Z) :
  In (Exit c) (mongo_rejection m) <-> c = 1%Z /\ exists e, m = ConnectRejects e.
Proof.
  destruct m as [e| |e]; simpl; [split; [done|intros [_ [? ?]]; discriminate]..|].
  split; [intros [?|[?|[]]]; simplify_eq; eauto|intros [-> _]; right; left; done].
Qed.

(** Membership in the events of callbacks run in some order does not
    depend on the order. *)
Lemma in_concat_perm {A : Type} (x : A) (ls ls' : list (list A)) :
  Permutation ls ls' -> In x (concat ls) <-> In x (concat ls').
Proof.
  intros Hp. rewrite !in_concat.
  split; intros (l & Hl & Hx); exists l; split; try done;
    [eapply Permutation_in|eapply Permutation_in; [symmetry|]]; eauto.
Qed.

Lemma listen_no_exit (pe : proc_env) (c : Z) : ~ In (Exit c) (listen_callback pe).
Proof. simpl. intuition discriminate. Qed.

Lemma db_callback_exits (pe : proc_env) (ce : option string) (q : result string string) (c : Z) :
  In (Exit c) (db_callback pe ce q) -> c = 1%Z.
Proof. destruct ce, q; simpl; intuition congruence. Qed.

Lemma db_callback_exit_iff (pe : proc_env) (ce : option string) (q : result string string) :
  In (Exit 1) (db_callback pe ce q) <-> ce <> None \/ exists e, q = Err e.
Proof.
  destruct ce as [m|], q as [d|e]; simpl.
  1,2: split; [intros _; left; discriminate|intros _; right; left; done].
  - split; [intros [H|[]]; discriminate|intros [H|[e H]]; [done|discriminate]].
  - split; [intros _; right; eauto|intros _; right; left; done].
Qed.

End Lemmas.

(** ** Properties of the stack and of the start-up *)

(** (C23) The stack as the code registers it: the first of the body,
    header and static layers that does not pass the request on decides
    the answer, an error it raises being answered by the application's
    handler with 500 'Something went wrong!'; when all pass, the routes
    answer, an error they raise going to Express's final handler and a
    request no route takes getting 404. *)
Theorem stack_spec (behave : layer -> layer_result) :
  handle_request behave =
    match run_pre behave pre_layers false with
    | (Respond s b, c) => mkHttp s b c
    | (Raise _, c) => mkHttp 500 app_error_body c
    | (Next, c) =>
        match behave LRoutes with
        | Next => final_not_found c
        | Respond s b => mkHttp s b c
        | Raise e => final_error e c
        end
    end.
Proof.
  unfold handle_request, app_stack. rewrite dispatch_pre by apply pre_layers_no_handler.
  destruct (run_pre behave pre_layers false) as [[|s b|e] c]; simpl; [|done|done].
  destruct (behave LRoutes); simpl; rewrite ?orb_false_r; done.
Qed.

(** A request body that [express.json()] refuses (malformed JSON,
    which body-parser reports with status 400) is answered by the
    application's handler with 500 'Something went wrong!', and without
    the CORS headers, since [cors()] comes after the parser. *)
Theorem malformed_body_500 (behave : layer -> layer_result) (e : js_error) :
  behave LJson = Raise e -> handle_request behave = mkHttp 500 app_error_body false.
Proof.
  intros He. unfold handle_request, app_stack.
  rewrite dispatch_pre by apply pre_layers_no_handler. simpl. rewrite He. done.
Qed.

(** (C24) The application's error handler never answers an error of the
    routes: it is registered before them, so an error raised by a route
    (passed to [next]) goes to Express's final handler, which answers
    with the error's own status. *)
Theorem route_error_final_handler (behave : layer -> layer_result) (e : js_error) :
  (forall l, In l pre_layers -> behave l = Next) -> behave LRoutes = Raise e ->
  handle_request behave = final_error e true.
Proof.
  intros Hpre He. unfold handle_request, app_stack.
  rewrite dispatch_pre by apply pre_layers_no_handler. rewrite run_pre_all_next by done.
  simpl. rewrite He. done.
Qed.

(** (C28) Start-up: in every order of the asynchronous callbacks the
    process exits, always with code 1, exactly when the routers fail to
    load (RESEND_API_KEY unset or empty), the MySQL connection or its
    first query fails, or the MongoDB connection's promise rejects; when
    the routers fail to load the server never prints its URL; otherwise,
    unless [mongoose.connect] throws synchronously, the first line
    printed is the MongoDB success message, whatever becomes of the
    connection. *)
Theorem boot_outcome (pe : proc_env) (m : mongo_connect) (conn_err : option string)
    (query : result string string) (tr : list boot_event) :
  boot_trace pe m conn_err query tr ->
  (forall c, In (Exit c) tr -> c = 1%Z) /\
  (In (Exit 1) tr <->
     load_routes pe <> None \/ conn_err <> None \/ (exists e, query = Err e) \/
     exists e, m = ConnectRejects e) /\
  (load_routes pe <> None -> ~ In (Log (listen_message pe)) tr) /\
  (load_routes pe = None -> (forall e, m <> ConnectThrows e) ->
     head tr = Some (Log "MongoDB: Connected to MongoDB fundflow successfully")).
Proof.
  intros [e He|cbs Hl Hp].
  - rewrite He. split; [intros c [?|[?|[]]]; congruence|].
    split; [split; [left; discriminate|intros _; right; left; done]|].
    split; [intros _ [?|[?|[]]]; discriminate|done].
  - assert (Hcb : forall c, In (Exit c) (concat cbs) -> c = 1%Z /\
              (conn_err <> None \/ (exists e, query = Err e) \/ exists e, m = ConnectRejects e)).
    { intros c Hc. apply (in_concat_perm _ _ _ Hp) in Hc. cbn [concat] in Hc.
      rewrite !in_app_iff, mongo_rejection_exit_iff in Hc.
      destruct Hc as [Hc|[Hc|[[-> ?]|[]]]]; [destruct (listen_no_exit pe c Hc)| |auto].
      pose proof (db_callback_exits _ _ _ _ Hc) as ->. apply db_callback_exit_iff in Hc. tauto. }
    assert (Hexit : forall c, In (Exit c) (mongo_block m ++ until_exit (concat cbs)) -> c = 1%Z).
    { intros c [Hc|Hc]%in_app_iff; [destruct (mongo_block_no_exit m c Hc)|].
      apply Hcb, in_until_exit, Hc. }
    split; [done|]. split; [|split; [done|intros _ Hm; destruct m; [edestruct Hm; done|done|done]]].
    rewrite in_app_iff, in_exit_until by (intros c Hc; apply Hcb, Hc).
    rewrite (in_concat_perm _ _ _ Hp). cbn [concat]. rewrite !in_app_iff, mongo_rejection_exit_iff, db_callback_exit_iff.
    pose proof (mongo_block_no_exit m 1). pose proof (listen_no_exit pe 1). intuition.
Qed.

(** ** Examples *)

Definition pe0 : proc_env := mkProcEnv None None None None None None None None None.

Example listen_message_default : listen_message pe0 = "URL: http://localhost:3001".
Proof. reflexivity. Qed.

Example db_port_types :
  cfg_port (dbConfig pe0) = JNum 3306 /\
  cfg_port (dbConfig (mkProcEnv None None None (Some "") None None None None None)) = JStr "".
Proof. split; reflexivity. Qed.

Definition json_error : js_error := mkJsError (Some 400%Z) "Unexpected token } in JSON".

Definition bad_json (l : layer) : layer_result := match l with LJson => Raise json_error | _ => Next end.

Definition route_error : js_error := mkJsError None "ReferenceError: error is not defined".

Definition route_throws (l : layer) : layer_result := match l with LRoutes => Raise route_error | _ => Next end.

Lemma malformed_body_500_witness :
  bad_json LJson = Raise json_error /\ handle_request bad_json = mkHttp 500 app_error_body false.
Proof. split; [reflexivity|]. exact (malformed_body_500 bad_json json_error eq_refl). Defined.

Lemma route_error_final_handler_witness :
  (forall l, In l pre_layers -> route_throws l = Next) /\ route_throws LRoutes = Raise route_error /\
  handle_request route_throws = mkHttp 500 "finalhandler" true.
Proof.
  assert (Hpre : forall l, In l pre_layers -> route_throws l = Next)
    by (intros l Hl; repeat destruct Hl as [<-|Hl]; done).
  split; [exact Hpre|]. split; [reflexivity|].
  exact (route_error_final_handler route_throws route_error Hpre eq_refl).
Defined.

Definition pe_key : proc_env := mkProcEnv None None None None None None None None (Some "re_123").

(** The key is set and MySQL answers, but the MongoDB server refuses
    the connection after the listen callback ran. *)
Definition boot_refused_cbs : list (list boot_event) :=
  [listen_callback pe_key; db_callback pe_key None (Ok "2024-03-05");
   mongo_rejection (ConnectRejects "MongooseServerSelectionError: connect ECONNREFUSED")].

Lemma boot_outcome_witness :
  boot_trace pe_key (ConnectRejects "MongooseServerSelectionError: connect ECONNREFUSED") None (Ok "2024-03-05")
    (mongo_block (ConnectRejects "MongooseServerSelectionError: connect ECONNREFUSED") ++
     until_exit (concat boot_refused_cbs)) /\
  In (Exit 1) (mongo_block (ConnectRejects "MongooseServerSelectionError: connect ECONNREFUSED") ++
               until_exit (concat boot_refused_cbs)) /\
  head (mongo_block (ConnectRejects "MongooseServerSelectionError: connect ECONNREFUSED") ++
        until_exit (concat boot_refused_cbs)) =
    Some (Log "MongoDB: Connected to MongoDB fundflow successfully").
Proof.
  assert (Htr : boot_trace pe_key (ConnectRejects "MongooseServerSelectionError: connect ECONNREFUSED") None
                  (Ok "2024-03-05")
                  (mongo_block (ConnectRejects "MongooseServerSelectionError: connect ECONNREFUSED") ++
                   until_exit (concat boot_refused_cbs)))
    by (apply boot_runs; [reflexivity|reflexivity]).
  destruct (boot_outcome _ _ _ _ _ Htr) as (_ & Hx & _ & Hh).
  split; [exact Htr|split].
  - apply Hx. right; right; right. eexists; reflexivity.
  - apply Hh; [reflexivity|discriminate].
Defined.

(** Without a Resend key the process ends before any callback. *)
Example boot_without_key :
  boot_trace pe0 ConnectResolves None (Ok "2024-03-05") [ErrLog missing_api_key; Exit 1].
Proof. apply boot_load_throws. reflexivity. Qed.

End Bootstrap.
