(* ===== verification/ApiDoc.v ===== *)
(** * The Swagger annotations of [src/src/routes/auth.js]

    The router documents itself with [@swagger] JSDoc blocks, which
    swagger-jsdoc turns into the published API description: the tag and
    the two request schemas (lines 13-43) and the operations
    [POST /auth/register] (lines 45-70) and [POST /auth/login] (lines
    131-156). They are data here, with the YAML's structure: schemas as
    [sw_type], an operation as [sw_operation] with its parameters and its
    documented responses. A response of a handler conforms to an operation
    when its status is documented and its JSON body has the documented
    shape. The theorems compare the handlers of [Auth] with their own
    documentation. *)

From S2P Require Import Prelude JsString Regex Jwt Password UsersDb Auth AuthProps.

Module ApiDoc.
Import Jwt Password UsersDb Auth.

#[local] Set Warnings "-register-all".

(** ** The annotations' data *)

Inductive sw_type :=
| SwString
| SwObject (description : string) (properties : list (string * sw_type)) (required : list string)
| SwArray (items : sw_type)
| SwRef (ref : string).

Record sw_tag := mkSwTag { tag_name : string; tag_description : string }.

Record sw_param := mkSwParam {
  pm_in : string; pm_name : string; pm_description : string; pm_required : bool; pm_schema : sw_type
}.

Record sw_response := mkSwResponse { rs_code : Z; rs_description : string; rs_schema : option sw_type }.

Record sw_operation := mkSwOp {
  op_path : string; op_method : string; op_tags : list string; op_summary : string;
  op_parameters : list sw_param; op_responses : list sw_response
}.

(** Lines 15-17. *)
Definition auth_tag : sw_tag :=
  mkSwTag "Authentication" "Operations related to user authentication and registration".

(** Lines 20-32. *)
Definition NewUser : sw_type :=
  SwObject "New User Schema"
    [("username", SwString); ("email", SwString); ("password", SwString);
     ("confirmationPassword", SwString)]
    ["username"; "email"; "password"; "confirmationPassword"].

(** Lines 34-42. *)
Definition AuthUser : sw_type :=
  SwObject "Authentication User Schema" [("username", SwString); ("password", SwString)]
    ["username"; "password"].

(** Lines 18-43: [definitions.schemas], the targets of [$ref]. *)
Definition schemas : list (string * sw_type) :=
  [("#/definitions/schemas/NewUser", NewUser); ("#/definitions/schemas/AuthUser", AuthUser)].

(** Lines 45-70. *)
Definition register_doc : sw_operation :=
  mkSwOp "/auth/register" "post" ["Authentication"] "Register a new user"
    [mkSwParam "body" "credentials" "User credentials for registration" true
       (SwRef "#/definitions/schemas/NewUser")]
    [mkSwResponse 200 "Successful authentication" (Some (SwArray (SwRef "#/definitions/schemas/NewUser")));
     mkSwResponse 401 "Unauthorized" None;
     mkSwResponse 500 "Internal Server Error" None].

(** Lines 131-156. *)
Definition login_doc : sw_operation :=
  mkSwOp "/auth/login" "post" ["Authentication"] "Authenticate a user"
    [mkSwParam "body" "credentials" "User credentials for authentication" true
       (SwRef "#/definitions/schemas/AuthUser")]
    [mkSwResponse 200 "Successful authentication" (Some (SwArray (SwRef "#/definitions/schemas/AuthUser")));
     mkSwResponse 401 "Unauthorized" None;
     mkSwResponse 500 "Internal Server Error" None].

(** ** Checking a request or a response against the annotations *)

Definition resolve (t : sw_type) : sw_type :=
  match t with
  | SwRef r => match List.find (fun d => String.eqb (fst d) r) schemas with
               | Some d => snd d
               | None => t
               end
  | _ => t
  end.

(** The JSON shape of a body the handlers send. The middleware's
    rejection is sent by [verifyUserLogged], whose file the repository
    does not hold; its shape is unknown. The caught-error bodies carry
    [message] and the caught value under [errorCode] or [error]. *)
Inductive json_shape := JText | JObject (keys : list string) | JArray | JUnknown.

Definition body_shape (b : resp_body) : json_shape :=
  match b with
  | BText _ => JText
  | BMessage _ => JObject ["message"]
  | BErrors _ _ => JObject ["message"; "errorValues"]
  | BAuth _ _ => JObject ["token"; "userUrl"]
  | BCaught _ _ => JObject ["message"; "errorCode"]
  | BUnauthorized => JUnknown
  end.

(** A body has the shape a schema describes: an object carries the
    required keys, an array is an array. *)
Definition shape_conforms (t : sw_type) (s : json_shape) : bool :=
  match resolve t, s with
  | SwString, JText => true
  | SwObject _ _ req, JObject keys => forallb (fun k => existsb (String.eqb k) keys) req
  | SwArray _, JArray => true
  | _, _ => false
  end.

Definition documented (op : sw_operation) (code : Z) : option sw_response :=
  List.find (fun r => Z.eqb (rs_code r) code) (op_responses op).

Definition response_conforms (op : sw_operation) (r : response) : bool :=
  match documented op (status r) with
  | Some d => match rs_schema d with
              | Some t => shape_conforms t (body_shape (body r))
              | None => true
              end
  | None => false
  end.

(** The fields of a request body present in the JSON (absent and [null]
    fields are [None]). *)
Definition reg_fields (rq : reg_req) : list (string * option string) :=
  [("username", rq_username rq); ("email", rq_email rq); ("password", rq_password rq);
   ("confirmationPassword", rq_confirmationPassword rq)].

Definition login_fields (rq : login_req) : list (string * option string) :=
  [("username", lg_username rq); ("password", lg_password rq)].

Definition field_present (fs : list (string * option string)) (k : string) : bool :=
  match List.find (fun f => String.eqb (fst f) k) fs with
  | Some (_, Some _) => true
  | _ => false
  end.

(** A body carries every key the schema of the operation's body
    parameter requires. *)
Definition body_has_required (op : sw_operation) (fs : list (string * option string)) : bool :=
  forallb (fun p => match resolve (pm_schema p) with
                    | SwObject _ _ req => forallb (field_present fs) req
                    | _ => true
                    end) (op_parameters op).

(** ** The handlers against their annotations *)

Section Props.
Context {HS : Hs256} {PH : PasswordHasher} {CO : Collation}.
Variable cfg : config.

(** (C40) [POST /auth/register] against its annotation: the only answers
    that conform to it are the 500s; a registration succeeds with 201
    and fails validation with 400, statuses the annotation does not list,
    and it lists 200 and 401, which the handler never sends. A request
    changes the world only when its body carries every field the
    [NewUser] schema requires. *)
Theorem register_doc_divergence (ev : env) (rq : reg_req) (w : world) :
  (response_conforms register_doc (fst (register cfg ev rq w)) = true <->
     status (fst (register cfg ev rq w)) = 500%Z) /\
  (snd (register cfg ev rq w) <> w -> body_has_required register_doc (reg_fields rq) = true).
Proof.
  unfold register, register_valid, register_checks, register_insert, missing_fields,
    body_has_required.
  repeat case_match; simplify_eq/=; split; done.
Qed.

(** [POST /auth/login] against its annotation: an answer conforms
    exactly when it is a 401, or the 500 of a failing database. A
    successful login is a 200, which the annotation documents as an
    array of [AuthUser], while the handler sends the object
    [{ token, userUrl }]; a body without the fields [AuthUser] requires
    gets a 400, which the annotation does not list. *)
Theorem login_doc_divergence (ev : env) (rq : login_req) (w : world) :
  response_conforms login_doc (fst (login cfg ev rq w)) =
    Z.eqb (status (fst (login cfg ev rq w))) 401 || Z.eqb (status (fst (login cfg ev rq w))) 500 /\
  (body_has_required login_doc (login_fields rq) = false -> status (fst (login cfg ev rq w)) = 400%Z).
Proof.
  unfold login, login_valid, auth_failed, body_has_required.
  repeat case_match; simplify_eq/=; split; done.
Qed.

End Props.

(** ** Example: alice's registration *)

Import AuthProps.

Definition alice_req : reg_req := mkRegReq (Some "alice") (Some "a@b.com") (Some "longpass1") (Some "longpass1").

Lemma register_doc_divergence_witness :
  snd (register cfg0 ev0 alice_req w0) <> w0 /\
  body_has_required register_doc (reg_fields alice_req) = true /\
  response_conforms register_doc (fst (register cfg0 ev0 alice_req w0)) = false.
Proof.
  assert (Hne : snd (register cfg0 ev0 alice_req w0) <> w0) by (vm_compute; discriminate).
  destruct (register_doc_divergence cfg0 ev0 alice_req w0) as [Hc Hb].
  split; [exact Hne|split; [exact (Hb Hne)|]].
  apply Bool.not_true_is_false. intros E%Hc. vm_compute in E. discriminate.
Defined.

End ApiDoc.
