(* ===== verification/App.v ===== *)
(** * The whole server: the stack of [src/server.js] in front of the routers

    [server.js] mounts one router at line 57 ([app.use('/', routes)]);
    the file [routes.js] that gathers [auth.js], [projectReviews.js] and
    [projectStats.js] is not in the repository, so a request names the
    router it reaches ([route_req]); a request for the MongoDB routers
    also carries which driver calls reject during it. The three routers
    share one state,
    the users table and outbox, the reviews collection and the statistics
    store ([app_state]), and one secret, [process.env.ACCESS_TOKEN_SECRET],
    with which [auth.js] signs tokens and [verifyUserLogged] checks them.

    [Bootstrap.dispatch] passes a request through the stack when each
    layer's answer is given; here the layers act on the state when they
    run ([dispatch_st]), which is what makes the routers' effects happen
    only when the request gets past the body parsers and static files.
    A layer that neither answers nor calls [next] leaves the request
    without an answer. That is what happens to an [async] route whose
    promise rejects under Express 4: the rejection is unhandled, and
    the runtime logs it or, as Node does by default since version 15,
    ends the process; the request gets no answer either way, and what
    becomes of the process is not followed here. Express 5 passes the
    rejection to [next(err)]. The repository does not pin the version, so both are
    modelled ([rejection_policy]). *)

From S2P Require Import Prelude JsString Regex Jwt Password UsersDb JsValue Auth AuthProps Server Reviews Stats Bootstrap.

Module App.
Import Jwt Password UsersDb JsValue Auth Server Reviews Stats Bootstrap.

(** ** Express's dispatch with layers that act on a state *)

Section Dispatch.
Context {S : Type}.

(** [None]: the layer neither answered nor called [next]. *)
Fixpoint dispatch_st (behave : layer -> S -> option layer_result * S) (ls : list layer)
    (err : option js_error) (cors : bool) (s : S) : option http_response * S :=
  match ls, err with
  | [], None => (Some (final_not_found cors), s)
  | [], Some e => (Some (final_error e cors), s)
  | LErrorHandler :: _, Some _ => (Some (mkHttp 500 app_error_body cors), s)
  | LErrorHandler :: ls', None => dispatch_st behave ls' None cors s
  | _ :: ls', Some e => dispatch_st behave ls' (Some e) cors s
  | l :: ls', None =>
      let '(r, s') := behave l s in
      match r with
      | None => (None, s')
      | Some Next => dispatch_st behave ls' None (cors || bool_decide (l = LCors)) s'
      | Some (Respond st b) => (Some (mkHttp st b (cors || bool_decide (l = LCors))), s')
      | Some (Raise e) => dispatch_st behave ls' (Some e) cors s'
      end
  end.

End Dispatch.

(** ** Lemmas on the stateful dispatch *)

Section DispatchLemmas.
Context {S : Type}.
Implicit Types (behave : layer -> S -> option layer_result * S).



(** An error crosses a stack without error handler. *)
Lemma dispatch_st_skip behave (ls rest : list layer) (e : js_error) (c : bool) (s : S) :
  ~ In LErrorHandler ls -> dispatch_st behave (ls ++ rest) (Some e) c s = dispatch_st behave rest (Some e) c s.
Proof.
  induction ls as [|l ls IH]; intros Hn; [done|].
  destruct l; simpl in *; try (apply IH; tauto). tauto.
Qed.

(** A stack of layers that answer without acting on the state, in front
    of [rest], acts as its first layer that does not pass on. *)
Lemma dispatch_st_pre behave (f : layer -> layer_result) (ls rest : list layer) (c : bool) (s : S) :
  ~ In LErrorHandler ls -> (forall l, In l ls -> behave l s = (Some (f l), s)) ->
  dispatch_st behave (ls ++ rest) None c s =
    match run_pre f ls c with
    | (Respond st b, c') => (Some (mkHttp st b c'), s)
    | (Raise e, c') => dispatch_st behave rest (Some e) c' s
    | (Next, c') => dispatch_st behave rest None c' s
    end.
Proof.
  revert c. induction ls as [|l ls IH]; intros c Hn Hf; [done|].
  assert (Hl : l <> LErrorHandler) by (intros ->; apply Hn; left; done).
  assert (Hls : ~ In LErrorHandler ls) by (intros H; apply Hn; right; done).
  assert (Hf' : forall l', In l' ls -> behave l' s = (Some (f l'), s)) by (intros; apply Hf; right; done).
  rewrite <- app_comm_cons. simpl. rewrite (Hf l) by (left; done).
  destruct l; try done; simpl; destruct (f _); try apply IH; try apply dispatch_st_skip; done.
Qed.

End DispatchLemmas.

Lemma filter_singleton_In {A : Type} (f : A -> bool) (l : list A) (a : A) :
  List.filter f l = [a] -> In a l.
Proof. intros H. assert (Ha : In a (List.filter f l)) by (rewrite H; left; done). apply filter_In in Ha. tauto. Qed.

Lemma verifyUserLogged_sign_None `{Hs256} (sec : string) (id t now : Z) :
  verifyUserLogged sec now (Some (sign sec id t None)) = Some id.
Proof. unfold verifyUserLogged, verify, sign. simpl. rewrite Z.eqb_refl. done. Qed.

(** ** The routers behind the stack *)

(** Express 4 leaves a request whose handler's promise rejects without
    an answer; Express 5 hands the rejection to [next(err)]. *)
Inductive rejection_policy := RejectHangs | RejectToNext.

Record app_state := mkAppState { auth_world : world; reviews_coll : collection; stats_store : store }.

Definition app_init : app_state := mkAppState init_world (mkCollection [] 1) (mkStore [] 1).

(** A request for the reviews or statistics router carries what the
    MongoDB driver does during it: which of its calls reject. *)
Inductive route_req :=
| RAuth (rq : request)
| RReviews (mf : faults) (rq : rv_request)
| RStats (mf : faults) (rq : st_request).

(** What the routes layer does: it sends a status and a body, or its
    promise rejects. *)
Inductive route_outcome :=
| RSent (status : Z) (body : string)
| RRejected (what : string).

Section Routes.
Context {HS : Hs256} {PH : PasswordHasher} {CO : Collation} {TN : JsToNumber}.
Context {Summary : Type}.
Variable cfg : config.
Variable D : schema_defaults.
Variable gps : option Z -> store -> result (option (list Summary)) unit.
(** [res.send(obj)] and [res.json(obj)] serialise the body; the JSON
    text is an input. *)
Variable render_auth : resp_body -> string.
Variable render_rv : rv_payload -> string.
Variable render_st : st_payload Summary -> string.
Variable pol : rejection_policy.

Definition run_route (ti : string -> tokeninfo_answer) (ev : env) (rq : route_req) (A : app_state)
    : route_outcome * app_state :=
  match rq with
  | RAuth r =>
      let '(o, w') := handle cfg ti ev r (auth_world A) in
      (match o with
       | Ok resp => RSent (status resp) (render_auth (body resp))
       | Err e => RRejected e
       end, mkAppState w' (reviews_coll A) (stats_store A))
  | RReviews mf r =>
      let '(resp, c') := handle_reviews (secret cfg) (now_ms ev) mf r (reviews_coll A) in
      (RSent (rv_status resp) (render_rv (rv_body_of resp)), mkAppState (auth_world A) c' (stats_store A))
  | RStats mf r =>
      let '(o, s') := handle_stats Summary D gps (secret cfg) (now_ms ev) mf r (stats_store A) in
      (match o with
       | Sent resp => RSent (st_status resp) (render_st (st_body resp))
       | Rejected e => RRejected e
       end, mkAppState (auth_world A) (reviews_coll A) s')
  end.

(** The routes layer: an answer is sent; a rejection leaves the request
    pending (Express 4) or raises an error without [status] (Express 5). *)
Definition route_result (o : route_outcome) : option layer_result :=
  match o with
  | RSent st b => Some (Respond st b)
  | RRejected e =>
      match pol with
      | RejectHangs => None
      | RejectToNext => Some (Raise (mkJsError None e))
      end
  end.

(** One request: what the layers before the routes do with it (parse the
    body, serve a static file) is an input, as in [Bootstrap]. *)
Record app_req := mkAppReq { pre : layer -> layer_result; target : route_req }.

Definition app_layer (ti : string -> tokeninfo_answer) (ev : env) (rq : app_req) (l : layer)
    (A : app_state) : option layer_result * app_state :=
  match l with
  | LRoutes => let '(o, A') := run_route ti ev (target rq) A in (route_result o, A')
  | _ => (Some (pre rq l), A)
  end.

(** A request through [server.js]'s stack. *)
Definition app_handle (ti : string -> tokeninfo_answer) (ev : env) (rq : app_req) (A : app_state)
    : option http_response * app_state :=
  dispatch_st (app_layer ti ev rq) app_stack None false A.

(** ** Lemmas *)

Lemma app_layer_pre (ti : string -> tokeninfo_answer) (ev : env) (rq : app_req) (l : layer) (A : app_state) :
  In l pre_layers -> app_layer ti ev rq l A = (Some (pre rq l), A).
Proof. simpl. intros Hl. repeat destruct Hl as [<-|Hl]; done. Qed.

Lemma app_handle_route (ti : string -> tokeninfo_answer) (ev : env) (rq : app_req) (A : app_state) :
  app_handle ti ev rq A =
    match run_pre (pre rq) pre_layers false with
    | (Respond st b, c) => (Some (mkHttp st b c), A)
    | (Raise _, c) => (Some (mkHttp 500 app_error_body c), A)
    | (Next, c) =>
        let '(o, A') := run_route ti ev (target rq) A in
        (match route_result o with
         | Some (Respond st b) => Some (mkHttp st b c)
         | Some (Raise e) => Some (final_error e c)
         | Some Next => Some (final_not_found c)
         | None => None
         end, A')
    end.
Proof.
  unfold app_handle, app_stack.
  rewrite (dispatch_st_pre (app_layer ti ev rq) (pre rq) pre_layers);
    [|apply pre_layers_no_handler|intros l Hl; apply app_layer_pre; done].
  destruct (run_pre (pre rq) pre_layers false) as [[|st b|e] c]; [|done|done].
  simpl. destruct (run_route ti ev (target rq) A) as [o A'].
  destruct (route_result o) as [[|st b|e]|]; simpl; rewrite ?orb_false_r; done.
Qed.

(** The state after a request is the one it had, or the one the routes
    layer left. *)
Lemma app_handle_state (ti : string -> tokeninfo_answer) (ev : env) (rq : app_req) (A : app_state) :
  snd (app_handle ti ev rq A) = A \/ snd (app_handle ti ev rq A) = snd (run_route ti ev (target rq) A).
Proof.
  rewrite app_handle_route. destruct (run_pre _ _ _) as [[|st b|e] c]; [|auto|auto].
  destruct (run_route ti ev (target rq) A); auto.
Qed.

(** Every token the auth router hands out is signed, without expiry, for
    the id of a row of the table it leaves. *)
Lemma handle_auth_token (ti : string -> tokeninfo_answer) (ev : env) (rq : request) (w : world)
    (st : Z) (tok : token) (url : string) :
  fst (handle cfg ti ev rq w) = Ok (mkResponse st (BAuth tok url)) ->
  exists a, In a (rows (users (snd (handle cfg ti ev rq w)))) /\ tok = sign (secret cfg) (acc_id a) (now_ms ev) None.
Proof.
  destruct rq as [r|r|tk|bearer out|code]; simpl.
  - unfold register, register_valid, register_checks, register_insert, missing_fields.
    repeat case_match; simplify_eq/=; intros; rewrite ?insert_users_six in *; simplify_eq/=.
    all: eexists; split; [rewrite in_app_iff; right; left; reflexivity|done].
  - unfold login, login_valid. repeat case_match; simplify_eq/=; intros; simplify_eq/=;
      eexists; (split; [eapply filter_singleton_In; eassumption|done]).
  - unfold login_google, login_google_insert. rewrite ?insert_users_count_mismatch by (simpl; lia).
    repeat case_match; simplify_eq/=; intros; simplify_eq/=;
      eexists; (split; [eapply filter_singleton_In; eassumption|done]).
  - unfold verify_email_request. repeat case_match; simplify_eq/=; done.
  - unfold verify_email_redeem. repeat case_match; simplify_eq/=; done.
Qed.

(** ** Properties of the composed server *)

(** (C26) A body that [express.json()] refuses never reaches a router: the
    application's error handler answers 500 'Something went wrong!'
    without CORS headers, and no store changes. *)
Theorem app_malformed_body (ti : string -> tokeninfo_answer) (ev : env) (rq : app_req) (A : app_state)
    (e : js_error) :
  pre rq LJson = Raise e -> app_handle ti ev rq A = (Some (mkHttp 500 app_error_body false), A).
Proof. intros He. rewrite app_handle_route. simpl. rewrite He. done. Qed.

(** (C27) A route whose promise rejects is never answered by the
    application's error handler: under Express 4 the request gets no
    answer at all, under Express 5 Express's final handler answers 500. *)
Theorem rejected_route_answer (ti : string -> tokeninfo_answer) (ev : env) (rq : app_req) (A : app_state)
    (e : string) :
  (forall l, In l pre_layers -> pre rq l = Next) -> fst (run_route ti ev (target rq) A) = RRejected e ->
  fst (app_handle ti ev rq A) =
    match pol with
    | RejectHangs => None
    | RejectToNext => Some (mkHttp 500 "finalhandler" true)
    end.
Proof.
  intros Hpre Hr. rewrite app_handle_route, run_pre_all_next by done.
  destruct (run_route ti ev (target rq) A) as [o A']. simpl in Hr. subst o.
  simpl. destruct pol; done.
Qed.

(** With the MongoDB server unreachable, a request for the reviews or
    statistics router leaves the whole state as it was, whatever the
    layers before the routes did with it. *)
Theorem app_mongo_down (ti : string -> tokeninfo_answer) (ev : env) (rq : app_req) (A : app_state) :
  match target rq with RAuth _ => False | RReviews mf _ | RStats mf _ => mf = mongo_down end ->
  snd (app_handle ti ev rq A) = A.
Proof.
  intros Hmf. destruct (app_handle_state ti ev rq A) as [HA|HA]; rewrite HA; [done|].
  destruct (target rq) as [r|mf r|mf r]; [done| |]; subst mf; cbn [run_route].
  - pose proof (handle_reviews_down (secret cfg) (now_ms ev) r (reviews_coll A)) as [Hc _].
    destruct (handle_reviews _ _ _ _ _); simpl in *. subst. destruct A; done.
  - pose proof (handle_stats_down D gps (secret cfg) (now_ms ev) r (stats_store A)) as Hs.
    destruct (handle_stats _ _ _ _ _ _ _ _); simpl in *. subst. destruct A; done.
Qed.

(** (C13) The routers share the secret: every token the auth router hands
    out names a row of the table it leaves, and at every later time the
    middleware of the reviews and statistics routers accepts it as that
    row's id, so a review posted with it is posted by that account. *)
Theorem issued_token_authorizes (ti : string -> tokeninfo_answer) (ev : env) (rq : request) (w : world)
    (st : Z) (tok : token) (url : string) :
  fst (handle cfg ti ev rq w) = Ok (mkResponse st (BAuth tok url)) ->
  exists a, In a (rows (users (snd (handle cfg ti ev rq w)))) /\
    forall (ti' : string -> tokeninfo_answer) (ev' : env) (A : app_state),
      verifyUserLogged (secret cfg) (now_ms ev') (Some tok) = Some (acc_id a) /\
      forall mf id r, run_route ti' ev' (RReviews mf (RvPost (Some tok) id r)) A =
        let '(resp, c') := post_review mf (now_ms ev') (acc_id a) id r (reviews_coll A) in
        (RSent (rv_status resp) (render_rv (rv_body_of resp)), mkAppState (auth_world A) c' (stats_store A)).
Proof.
  intros Hr. destruct (handle_auth_token ti ev rq w st tok url Hr) as (a & Ha & ->).
  exists a. split; [done|]. intros ti' ev' A. rewrite verifyUserLogged_sign_None.
  split; [done|]. intros mf id r. cbn [run_route handle_reviews]. rewrite verifyUserLogged_sign_None. done.
Qed.

End Routes.

(** ** Examples *)

Import AuthProps.

Definition render0 {B : Type} (b : B) : string := "json".

Definition all_next (l : layer) : layer_result := Next.

(** [express.json()] refuses the body. *)
Definition parse_fails (l : layer) : layer_result :=
  match l with LJson => Raise (mkJsError (Some 400%Z) "Unexpected token") | _ => Next end.

Definition app_register : app_req := mkAppReq all_next (RAuth alice_register).
Definition app_bad_register : app_req := mkAppReq parse_fails (RAuth alice_register).
Definition app_put_views : app_req := mkAppReq all_next (RStats [] (SqPutViews (Some st_token) "abc")).

Definition app_handle0 (pol : rejection_policy) : (string -> tokeninfo_answer) -> env -> app_req -> app_state ->
    option http_response * app_state :=
  app_handle cfg0 D0 gps0 render0 render0 render0 pol.

Lemma app_malformed_body_witness :
  pre app_bad_register LJson = Raise (mkJsError (Some 400%Z) "Unexpected token") /\
  app_handle0 RejectHangs no_google ev0 app_bad_register app_init = (Some (mkHttp 500 app_error_body false), app_init).
Proof.
  split; [reflexivity|].
  exact (app_malformed_body cfg0 D0 gps0 render0 render0 render0 RejectHangs no_google ev0 app_bad_register app_init
           _ eq_refl).
Defined.

Lemma rejected_route_answer_witness :
  fst (run_route cfg0 D0 gps0 render0 render0 render0 no_google ev0 (target app_put_views) app_init)
    = RRejected "ReferenceError: error is not defined" /\
  fst (app_handle0 RejectToNext no_google ev0 app_put_views app_init) = Some (mkHttp 500 "finalhandler" true) /\
  fst (app_handle0 RejectHangs no_google ev0 app_put_views app_init) = None.
Proof.
  assert (H : fst (run_route cfg0 D0 gps0 render0 render0 render0 no_google ev0 (target app_put_views) app_init)
                = RRejected "ReferenceError: error is not defined") by (vm_compute; reflexivity).
  split; [exact H|split].
  - exact (rejected_route_answer cfg0 D0 gps0 render0 render0 render0 RejectToNext no_google ev0 app_put_views
             app_init _ (fun l _ => eq_refl) H).
  - exact (rejected_route_answer cfg0 D0 gps0 render0 render0 render0 RejectHangs no_google ev0 app_put_views
             app_init _ (fun l _ => eq_refl) H).
Defined.

Lemma issued_token_authorizes_witness :
  fst (handle cfg0 no_google ev0 alice_register init_world) =
    Ok (mkResponse 201 (BAuth (sign "s3cret" 1 (now_ms ev0) None) "alice")) /\
  exists a, In a (rows (users (snd (handle cfg0 no_google ev0 alice_register init_world)))) /\
    forall (ti' : string -> tokeninfo_answer) (ev' : env) (A : app_state),
      verifyUserLogged (secret cfg0) (now_ms ev') (Some (sign "s3cret" 1 (now_ms ev0) None)) = Some (acc_id a) /\
      forall mf id r, run_route cfg0 D0 gps0 render0 render0 render0 ti' ev'
                     (RReviews mf (RvPost (Some (sign "s3cret" 1 (now_ms ev0) None)) id r)) A =
        let '(resp, c') := post_review mf (now_ms ev') (acc_id a) id r (reviews_coll A) in
        (RSent (rv_status resp) (render0 (rv_body_of resp)), mkAppState (auth_world A) c' (stats_store A)).
Proof.
  assert (H : fst (handle cfg0 no_google ev0 alice_register init_world) =
                Ok (mkResponse 201 (BAuth (sign "s3cret" 1 (now_ms ev0) None) "alice"))) by (vm_compute; reflexivity).
  split; [exact H|].
  exact (issued_token_authorizes cfg0 D0 gps0 render0 render0 render0 no_google ev0 alice_register init_world _ _ _ H).
Defined.

End App.
